(** * Lead Time Analytics of repo-stats: a shallow embedding

    The development follows [LeadTimeCalculator] (lead-time computation,
    deployment matching, percentiles, classification, insights) and the
    queries of [DatabaseManager] it relies on.

    Conventions of the embedding.
    - A DATETIME column holds a text.  JavaScript reads it through
      [new Date(text).getTime()], the instant in milliseconds since the
      epoch; SQLite compares, orders and aggregates the text itself, byte by
      byte.  A row therefore carries both: the instant in the field named
      after the column and the stored text in the field with suffix
      [_text]; a nullable column is an [option] instant, whose text is read
      only when the instant is present.  SQL reads the text fields,
      JavaScript the instants.  [Date_parse] relates the two for the
      ISO-8601 texts the providers deliver; texts that do not parse
      (Invalid Date) are outside the model.  [created_at_pr], which no
      query compares, is kept as an instant only.
    - A number is the rational value ([Q]) of a binary64 number.  An
      operation on such numbers rounds its exact result to the nearest
      binary64 number, ties to even: [RN].  It is applied to the subtraction
      and the division of [calculateHoursDifference] and to the additions
      and divisions of [AVG], and [ROUND] rounds the binary64 number it is
      given.  The quotients that are only compared with a constant, the
      days of [categorizeLeadTime] and the percentile ranks, are written
      without rounding.  Overflow and the subnormal range do not occur for
      hours between two Date instants and are left out.  Module [Binary64]
      repeats the arithmetic on primitive binary64 numbers, against which
      [RN] is checked.
    - A table is the list of its rows in rowid order.  A query is a total
      function of the tables; driver errors ([err] in the callbacks) are
      outside the model. *)

From Stdlib Require Import ZArith QArith Qminmax Qabs Qround Qpower.
From Stdlib Require Import List Ascii String Bool Lia Lqa.
From Stdlib Require Import Floats.PrimFloat Floats.FloatOps Floats.SpecFloat.
From Stdlib Require Import Sorting.Sorted Sorting.Permutation.
Import ListNotations.

Local Open Scope Q_scope.

(** ** Binary64 rounding *)

(** [floor (log2 x)] for a positive rational. *)
Definition Qlog2 (x : Q) : Z :=
  let k := (Z.log2 (Qnum x) - Z.log2 (Zpos (Qden x)))%Z in
  if Qle_bool (2 ^ k) x then k else (k - 1)%Z.

(** The nearest integer, a tie going to the even one. *)
Definition round_half_even (x : Q) : Z :=
  let f := Qfloor x in
  match Qcompare (x - inject_Z f) (1 # 2) with
  | Lt => f
  | Gt => (f + 1)%Z
  | Eq => if Z.even f then f else (f + 1)%Z
  end.

(** The binary64 number nearest to [x]: the significand has 53 bits, so the
    numbers around [x] are the multiples of [2 ^ (floor (log2 |x|) - 52)]. *)
Definition RN (x : Q) : Q :=
  if Qeq_bool x 0 then 0
  else
    let e := (Qlog2 (Qabs x) - 52)%Z in
    inject_Z (round_half_even (x / 2 ^ e)) * 2 ^ e.

(** The unit roundoff [2 ^ -53]. *)
Definition u64 : Q := 1 # 9007199254740992.

(** ** Date texts *)

Definition ms_per_day : Z := 24 * 60 * 60 * 1000.

(** The last [width] decimal digits of [n], zero-padded. *)
Fixpoint digits (width : nat) (n : Z) : string :=
  match width with
  | O => EmptyString
  | S w =>
      (digits w (n / 10)
       ++ String (ascii_of_nat (48 + Z.to_nat (n mod 10))) EmptyString)%string
  end.

(** Year, month and day of a day number counted from 1970-01-01, in the
    proleptic Gregorian calendar. *)
Definition civil_from_days (day : Z) : Z * Z * Z :=
  let z := (day + 719468)%Z in
  let era := (z / 146097)%Z in
  let doe := (z - era * 146097)%Z in
  let yoe := ((doe - doe / 1460 + doe / 36524 - doe / 146096) / 365)%Z in
  let doy := (doe - (365 * yoe + yoe / 4 - yoe / 100))%Z in
  let mp := ((5 * doy + 2) / 153)%Z in
  let d := (doy - (153 * mp + 2) / 5 + 1)%Z in
  let m := (if mp <? 10 then mp + 3 else mp - 9)%Z in
  let y := (yoe + era * 400 + (if m <=? 2 then 1 else 0))%Z in
  (y, m, d).

(** The day number of a calendar date. *)
Definition days_from_civil (y m d : Z) : Z :=
  let y' := (if m <=? 2 then y - 1 else y)%Z in
  let era := (y' / 400)%Z in
  let yoe := (y' - era * 400)%Z in
  let doy := ((153 * (if 2 <? m then m - 3 else m + 9) + 2) / 5 + d - 1)%Z in
  let doe := (yoe * 365 + yoe / 4 - yoe / 100 + doy)%Z in
  (era * 146097 + doe - 719468)%Z.

(** [HH:MM:SS] of the milliseconds [ms] into a day. *)
Definition clock_text (ms : Z) : string :=
  (digits 2 (ms / 3600000) ++ ":" ++ digits 2 (ms / 60000 mod 60) ++ ":"
   ++ digits 2 (ms / 1000 mod 60))%string.

(** The year of an ISO-8601 text: four digits from 0000 to 9999, a sign and
    six digits otherwise. *)
Definition year_text (y : Z) : string :=
  if ((0 <=? y) && (y <=? 9999))%Z then digits 4 y
  else ((if (y <? 0)%Z then "-" else "+") ++ digits 6 (Z.abs y))%string.

(** [YYYY-MM-DD] of a day number. *)
Definition day_text (day : Z) : string :=
  let '(y, m, d) := civil_from_days day in
  (year_text y ++ "-" ++ digits 2 m ++ "-" ++ digits 2 d)%string.

(** [Date.prototype.toISOString]. *)
Definition toISOString (t : Z) : string :=
  (day_text (t / ms_per_day) ++ "T" ++ clock_text (t mod ms_per_day)
   ++ "." ++ digits 3 (t mod 1000) ++ "Z")%string.

(** The text of an instant as the GitHub API writes it: UTC, whole
    seconds. *)
Definition utc_text (t : Z) : string :=
  (day_text (t / ms_per_day) ++ "T" ++ clock_text (t mod ms_per_day) ++ "Z")%string.

(** The text [datetime(...)] of SQLite yields for an instant of the years
    0000 to 9999: [YYYY-MM-DD HH:MM:SS], UTC, the milliseconds dropped. *)
Definition sqlite_datetime (t : Z) : string :=
  (day_text (t / ms_per_day) ++ " " ++ clock_text (t mod ms_per_day))%string.

(** A decimal numeral. *)
Fixpoint number_from (acc : Z) (s : string) : option Z :=
  match s with
  | EmptyString => Some acc
  | String c rest =>
      let n := Z.of_nat (nat_of_ascii c) in
      if ((48 <=? n) && (n <=? 57))%Z
      then number_from (acc * 10 + (n - 48))%Z rest
      else None
  end.

Definition number (s : string) : option Z :=
  match s with
  | EmptyString => None
  | _ => number_from 0%Z s
  end.

(** The offset from UTC, in minutes, of a time zone designator: [Z] or
    [+HH:MM] or [-HH:MM]. *)
Definition zone_minutes (zone : string) : option Z :=
  if String.eqb zone "Z" then Some 0%Z
  else
    match number (substring 1 2 zone), number (substring 4 2 zone) with
    | Some hh, Some mm =>
        if String.eqb (substring 3 1 zone) ":" && (String.length zone =? 6)%nat
        then if String.eqb (substring 0 1 zone) "+" then Some (hh * 60 + mm)%Z
             else if String.eqb (substring 0 1 zone) "-" then Some (- (hh * 60 + mm))%Z
             else None
        else None
    | _, _ => None
    end.

(** A date and time [-MM-DDTHH:MM:SS], optionally followed by [.mmm], and
    ended by a time zone designator: the milliseconds from the start of the
    year [y] in UTC to the instant denoted, plus those from the epoch to the
    start of the year. *)
Definition parse_after_year (y : Z) (text : string) : option Z :=
  let field i n := number (substring i n text) in
  let rest := substring 15 (String.length text - 15) text in
  let '(millis, zone) :=
    if String.eqb (substring 0 1 rest) "."
    then (number (substring 1 3 rest), substring 4 (String.length rest - 4) rest)
    else (Some 0%Z, rest) in
  match field 1%nat 2%nat, field 4%nat 2%nat, field 7%nat 2%nat,
        field 10%nat 2%nat, field 13%nat 2%nat, millis, zone_minutes zone with
  | Some mo, Some d, Some hh, Some mi, Some ss, Some ms, Some off =>
      if String.eqb (substring 0 1 text) "-"
         && String.eqb (substring 3 1 text) "-"
         && String.eqb (substring 6 1 text) "T"
         && String.eqb (substring 9 1 text) ":"
         && String.eqb (substring 12 1 text) ":"
      then Some (days_from_civil y mo d * ms_per_day
                 + ((hh * 60 + mi - off) * 60 + ss) * 1000 + ms)%Z
      else None
  | _, _, _, _, _, _, _ => None
  end.

(** [new Date(text).getTime()] for an ISO-8601 text with a time zone
    designator: [YYYY-MM-DDTHH:MM:SS], the year also with a sign and six
    digits, the seconds also with milliseconds. *)
Definition Date_parse (text : string) : option Z :=
  let signed := String.eqb (substring 0 1 text) "+"
                || String.eqb (substring 0 1 text) "-" in
  let width := if signed then 7%nat else 4%nat in
  let year :=
    if signed
    then match number (substring 1 6 text) with
         | Some y => Some (if String.eqb (substring 0 1 text) "-" then - y else y)%Z
         | None => None
         end
    else number (substring 0 4 text) in
  match year with
  | Some y =>
      parse_after_year y (substring width (String.length text - width) text)
  | None => None
  end.

(** ** Data model *)

Definition Timestamp := Z.

(** Rows of [pull_requests]. *)
Module PR.
Record t := mk {
  id : Z;
  repository_id : string;
  pr_number : Z;
  created_at_pr : Timestamp;
  merged_at : option Timestamp;
  merged_at_text : string;
  first_commit_at : option Timestamp;
  first_commit_at_text : string;
  head_sha : option string;
  merge_sha : option string;
  is_merged : bool
}.
End PR.

(** Rows of [deployments]. *)
Module Dep.
Record t := mk {
  id : Z;
  repository_id : string;
  deployment_id : option string;
  deployment_date : Timestamp;
  deployment_date_text : string;
  commit_sha : option string
}.
End Dep.

(** The object returned by [calculatePRLeadTime], also a row of
    [lead_time_metrics]. *)
Module Metric.
Record t := mk {
  repository_id : string;
  pr_id : Z;
  deployment_id : option Z;
  coding_time_hours : Q;
  review_time_hours : Q;
  deployment_time_hours : Q;
  total_lead_time_hours : Q;
  commit_to_merge_hours : Q;
  merge_to_deploy_hours : Q;
  first_commit_at : Timestamp;
  first_commit_at_text : string;
  merged_at : Timestamp;
  merged_at_text : string;
  deployed_at : option Timestamp;
  deployed_at_text : string
}.
End Metric.

(** The database handle [dbManager.db]: the three tables the lead-time code
    reads and writes. *)
Record Store := mkStore {
  deployments : list Dep.t;
  pull_requests : list PR.t;
  lead_time_metrics : list Metric.t
}.

(** ** SQL comparison operators on nullable values

    A comparison with NULL is not true, so the row is filtered out.  TEXT
    values are compared byte by byte (the BINARY collation), which is the
    order [String.leb]. *)

Definition sql_eq (a b : option string) : bool :=
  match a, b with
  | Some x, Some y => String.eqb x y
  | _, _ => false
  end.

(** [a >= b] for a TEXT column [a] and a parameter [b]. *)
Definition sql_ge (a : string) (b : option string) : bool :=
  match b with
  | Some t => String.leb t a
  | None => false
  end.

(** The value bound for [pr.merged_at]. *)
Definition merged_at_param (pr : PR.t) : option string :=
  match PR.merged_at pr with
  | Some _ => Some (PR.merged_at_text pr)
  | None => None
  end.

(** [ORDER BY deployment_date ASC LIMIT 1]: the first row, in table order,
    that carries the least date text. *)
Fixpoint first_by_date (rows : list Dep.t) : option Dep.t :=
  match rows with
  | [] => None
  | d :: rest =>
      match first_by_date rest with
      | Some e =>
          if String.ltb (Dep.deployment_date_text e) (Dep.deployment_date_text d)
          then Some e else Some d
      | None => Some d
      end
  end.

(** ** DatabaseManager queries *)

Module DatabaseManager.

(** A stable insertion sort: [ORDER BY] over rows listed in the order the
    engine produced them; rows with equal keys keep that order. *)
Section OrderBy.
Context {A : Type} (le : A -> A -> bool).

Fixpoint insert_by (x : A) (l : list A) : list A :=
  match l with
  | [] => [x]
  | y :: l' => if le x y then x :: l else y :: insert_by x l'
  end.

Fixpoint order_by (l : list A) : list A :=
  match l with
  | [] => []
  | x :: l' => insert_by x (order_by l')
  end.
End OrderBy.

(** [datetime('now', '-N days')], with the clock reading passed in: a text
    in the format of [sqlite_datetime]. *)
Definition dateFilter (now : Timestamp) (days : Z) : string :=
  sqlite_datetime (now - days * ms_per_day).

(** [if (repositoryId) sql += ' AND repository_id = ?']: null and the empty
    string are falsy and leave the query unfiltered. *)
Definition repo_filter (repositoryId : option string) (rid : string) : bool :=
  match repositoryId with
  | None => true
  | Some r => if String.eqb r "" then true else String.eqb rid r
  end.

(** The rows of [lead_time_metrics] selected by the WHERE clause shared by
    [getLeadTimeStats] and [getLeadTimePercentiles]. *)
Definition metrics_in_window (db : Store) (repositoryId : option string)
    (now : Timestamp) (days : Z) : list Metric.t :=
  filter (fun m => String.leb (dateFilter now days) (Metric.first_commit_at_text m)
                   && repo_filter repositoryId (Metric.repository_id m))
         (lead_time_metrics db).

Definition insertLeadTimeMetric (db : Store) (metric : Metric.t) : Store :=
  {| deployments := deployments db;
     pull_requests := pull_requests db;
     lead_time_metrics := lead_time_metrics db ++ [metric] |}.

(** [getPullRequestsForLeadTime]: the LEFT JOIN repeats a pull request once
    per metric row already stored for it (once when there is none). *)
Definition getPullRequestsForLeadTime (db : Store) (repositoryId : string)
    (now : Timestamp) (days : Z) : list PR.t :=
  let selected :=
    filter (fun pr => String.eqb (PR.repository_id pr) repositoryId
                      && PR.is_merged pr
                      && match merged_at_param pr with
                         | Some t => String.leb (dateFilter now days) t
                         | None => false
                         end)
           (pull_requests db) in
  let joined :=
    flat_map (fun pr =>
                match filter (fun m => (Metric.pr_id m =? PR.id pr)%Z)
                             (lead_time_metrics db) with
                | [] => [pr]
                | ms => map (fun _ => pr) ms
                end) selected in
  order_by (fun a b => String.leb (PR.merged_at_text b) (PR.merged_at_text a))
           joined.

(** SQL aggregates over a group of values.  [AVG] adds the values up in
    row order, each addition rounded, and divides the sum by the count.
    (Engines from version 3.44 on carry a compensation term along with the
    sum; for a single row, and whenever no addition rounds, the result is
    the same.) *)
Definition SUM (xs : list Q) : Q := fold_left (fun sum x => RN (sum + x)) xs 0.
Definition COUNT {A} (xs : list A) : Z := Z.of_nat (List.length xs).
Definition AVG (xs : list Q) : Q := RN (SUM xs / inject_Z (COUNT xs)).
Definition MIN (xs : list Q) : Q :=
  match xs with [] => 0 | x :: r => fold_left Qmin r x end.
Definition MAX (xs : list Q) : Q :=
  match xs with [] => 0 | x :: r => fold_left Qmax r x end.

(** To the nearest hundredth, halves away from zero. *)
Definition hundredths (x : Q) : Q :=
  if Qle_bool 0 x
  then inject_Z (Qfloor (x * 100 + (1 # 2))) / 100
  else - (inject_Z (Qfloor (- x * 100 + (1 # 2))) / 100).

(** [ROUND(x, 2)]: the engine prints the binary64 number [x] with two
    decimals and reads the text back, so what is rounded to hundredths is
    the value of the binary64 number, and the result is the binary64 number
    nearest to that decimal. *)
Definition ROUND2 (x : Q) : Q := RN (hundredths (RN x)).

(** A row returned by [getLeadTimeStats]. *)
Module Stats.
Record t := mk {
  repository_id : string;
  pr_count : Z;
  avg_lead_time_hours : Q;
  avg_lead_time_days : Q;
  min_lead_time_hours : Q;
  max_lead_time_hours : Q;
  avg_commit_to_merge_hours : Q;
  avg_merge_to_deploy_hours : Q;
  under_24h_count : Z;
  under_1week_count : Z
}.
End Stats.

(** The distinct keys of [GROUP BY repository_id], in ascending key order. *)
Definition group_keys (rows : list Metric.t) : list string :=
  order_by String.leb (nodup string_dec (map Metric.repository_id rows)).

Definition group_of (rid : string) (rows : list Metric.t) : list Metric.t :=
  filter (fun m => String.eqb (Metric.repository_id m) rid) rows.

Definition summarize (rid : string) (g : list Metric.t) : Stats.t :=
  let totals := map Metric.total_lead_time_hours g in
  {| Stats.repository_id := rid;
     Stats.pr_count := COUNT g;
     Stats.avg_lead_time_hours := ROUND2 (AVG totals);
     Stats.avg_lead_time_days := ROUND2 (RN (AVG totals / 24));
     Stats.min_lead_time_hours := MIN totals;
     Stats.max_lead_time_hours := MAX totals;
     Stats.avg_commit_to_merge_hours :=
       ROUND2 (AVG (map Metric.commit_to_merge_hours g));
     Stats.avg_merge_to_deploy_hours :=
       ROUND2 (AVG (map Metric.merge_to_deploy_hours g));
     Stats.under_24h_count :=
       COUNT (filter (fun x => Qle_bool x 24) totals);
     Stats.under_1week_count :=
       COUNT (filter (fun x => Qle_bool x 168) totals) |}.

Definition getLeadTimeStats (db : Store) (repositoryId : option string)
    (now : Timestamp) (days : Z) : list Stats.t :=
  let rows := metrics_in_window db repositoryId now days in
  let groups := map (fun rid => summarize rid (group_of rid rows)) (group_keys rows) in
  order_by (fun a b => Qle_bool (Stats.avg_lead_time_hours a)
                                (Stats.avg_lead_time_hours b)) groups.

(** A row returned by [getLeadTimePercentiles]. *)
Module Pct.
Record t := mk {
  repository_id : string;
  total_lead_time_hours : Q;
  percentile : Q
}.
End Pct.

(** The window functions: [rows] are ordered by [total_lead_time_hours];
    ROW_NUMBER counts the rows of the same partition met so far and the
    windowed COUNT those of the whole partition. *)
Fixpoint number_rows (all seen rows : list Metric.t) : list Pct.t :=
  match rows with
  | [] => []
  | m :: rest =>
      let rid := Metric.repository_id m in
      let row_number := (COUNT (group_of rid seen) + 1)%Z in
      let count := COUNT (group_of rid all) in
      {| Pct.repository_id := rid;
         Pct.total_lead_time_hours := Metric.total_lead_time_hours m;
         Pct.percentile := inject_Z row_number * 100 / inject_Z count |}
      :: number_rows all (seen ++ [m]) rest
  end.

Definition getLeadTimePercentiles (db : Store) (repositoryId : option string)
    (now : Timestamp) (days : Z) : list Pct.t :=
  let rows := metrics_in_window db repositoryId now days in
  let by_total :=
    order_by (fun a b => Qle_bool (Metric.total_lead_time_hours a)
                                  (Metric.total_lead_time_hours b)) rows in
  order_by (fun a b => String.leb (Pct.repository_id a) (Pct.repository_id b))
           (number_rows rows [] by_total).

End DatabaseManager.

(** ** LeadTimeCalculator *)

Import DatabaseManager.

(** The WHERE clause of the first query of [findDeploymentForPR]. *)
Definition exact_match (repositoryId : string) (pr : PR.t) (d : Dep.t) : bool :=
  String.eqb (Dep.repository_id d) repositoryId
  && sql_ge (Dep.deployment_date_text d) (merged_at_param pr)
  && (sql_eq (Dep.commit_sha d) (PR.head_sha pr)
      || sql_eq (Dep.commit_sha d) (PR.merge_sha pr)).

(** The WHERE clause of the fallback query. *)
Definition after_merge (repositoryId : string) (pr : PR.t) (d : Dep.t) : bool :=
  String.eqb (Dep.repository_id d) repositoryId
  && sql_ge (Dep.deployment_date_text d) (merged_at_param pr).

Definition findDeploymentForPR (db : Store) (repositoryId : string) (pr : PR.t)
  : option Dep.t :=
  match first_by_date (filter (exact_match repositoryId pr) (deployments db)) with
  | Some row => Some row
  | None => first_by_date (filter (after_merge repositoryId pr) (deployments db))
  end.

(** The two instants are integers below [2 ^ 53] in magnitude and hence
    binary64 numbers, as is the divisor; the subtraction and the division
    round. *)
Definition calculateHoursDifference (startDate endDate : Timestamp) : Q :=
  let diffMs := RN (inject_Z endDate - inject_Z startDate) in
  RN (diffMs / inject_Z (1000 * 60 * 60)).

(** [Math.max(0, x)]. *)
Definition Math_max0 (x : Q) : Q := Qmax 0 x.

(** [deployment?.id || null]: a zero id is falsy. *)
Definition deployment_id_of (deployment : option Dep.t) : option Z :=
  match deployment with
  | Some d => if (Dep.id d =? 0)%Z then None else Some (Dep.id d)
  | None => None
  end.

Definition calculatePRLeadTime (db : Store) (repositoryId : string) (pr : PR.t)
  : option Metric.t :=
  match PR.first_commit_at pr, PR.merged_at pr with
  | Some firstCommitTime, Some mergedTime =>
      let deployment := findDeploymentForPR db repositoryId pr in
      let '(deployedTime, mergeToDeployHours, totalLeadTimeHours) :=
        match deployment with
        | Some d =>
            let deployedTime := Dep.deployment_date d in
            (deployedTime,
             calculateHoursDifference mergedTime deployedTime,
             calculateHoursDifference firstCommitTime deployedTime)
        | None =>
            (mergedTime, 0, calculateHoursDifference firstCommitTime mergedTime)
        end in
      let commitToMergeHours := calculateHoursDifference firstCommitTime mergedTime in
      let prCreatedTime := PR.created_at_pr pr in
      let codingTimeHours := calculateHoursDifference firstCommitTime prCreatedTime in
      let reviewTimeHours := calculateHoursDifference prCreatedTime mergedTime in
      Some {|
        Metric.repository_id := repositoryId;
        Metric.pr_id := PR.id pr;
        Metric.deployment_id := deployment_id_of deployment;
        Metric.coding_time_hours := Math_max0 codingTimeHours;
        Metric.review_time_hours := Math_max0 reviewTimeHours;
        Metric.deployment_time_hours := mergeToDeployHours;
        Metric.total_lead_time_hours := totalLeadTimeHours;
        Metric.commit_to_merge_hours := commitToMergeHours;
        Metric.merge_to_deploy_hours := mergeToDeployHours;
        Metric.first_commit_at := firstCommitTime;
        Metric.first_commit_at_text := PR.first_commit_at_text pr;
        Metric.merged_at := mergedTime;
        Metric.merged_at_text := PR.merged_at_text pr;
        Metric.deployed_at := Some deployedTime;
        Metric.deployed_at_text := toISOString deployedTime
      |}
  | _, _ => None
  end.

(** The loop body of [calculateLeadTime]: the metric, when there is one, is
    stored and pushed onto [leadTimeMetrics]. *)
Definition calculateLeadTime_step (repositoryId : string)
    (st : Store * list Metric.t) (pr : PR.t) : Store * list Metric.t :=
  let '(db, leadTimeMetrics) := st in
  match calculatePRLeadTime db repositoryId pr with
  | Some metric => (insertLeadTimeMetric db metric, leadTimeMetrics ++ [metric])
  | None => (db, leadTimeMetrics)
  end.

Definition calculateLeadTime (db : Store) (repositoryId : string)
    (now : Timestamp) (days : Z) : Store * list Metric.t :=
  let pullRequests := getPullRequestsForLeadTime db repositoryId now days in
  fold_left (calculateLeadTime_step repositoryId) pullRequests (db, []).

(** The closure [findPercentile] of [getLeadTimePercentiles]. *)
Definition findPercentile (percentileData : list Pct.t) (target : Q) : option Q :=
  match find (fun d => Qle_bool target (Pct.percentile d)) percentileData with
  | Some item => Some (Pct.total_lead_time_hours item)
  | None => None
  end.

Record Percentiles := mkPercentiles {
  p50 : option Q;
  p75 : option Q;
  p90 : option Q;
  p95 : option Q
}.

Definition getLeadTimePercentiles (db : Store) (repositoryId : string)
    (now : Timestamp) (days : Z) : Percentiles :=
  let percentileData :=
    DatabaseManager.getLeadTimePercentiles db (Some repositoryId) now days in
  {| p50 := findPercentile percentileData 50;
     p75 := findPercentile percentileData 75;
     p90 := findPercentile percentileData 90;
     p95 := findPercentile percentileData 95 |}.

(** The object returned by [categorizeLeadTime]. *)
Module Category.
Record t := mk {
  category : string;
  color : string;
  description : string
}.
End Category.

Definition categorizeLeadTime (hours : Q) : Category.t :=
  let days := hours / 24 in
  if Qle_bool days 1 then Category.mk "Elite" "green" "Less than 1 day"
  else if Qle_bool days 7 then Category.mk "High" "blue" "1-7 days"
  else if Qle_bool days 30 then Category.mk "Medium" "yellow" "1-4 weeks"
  else Category.mk "Low" "red" "More than 1 month".

(** The two shapes of object [generateInsights] returns: the one without a
    [category] property, and the report. *)
Inductive Insights :=
| NoData (message : string) (recommendations : list string)
| Report (category : string) (avgLeadTimeDays : Q) (percentiles : Percentiles)
         (recommendations : list string).

Definition generateInsights (db : Store) (repositoryId : string)
    (now : Timestamp) (days : Z) : Insights :=
  let stats := getLeadTimeStats db (Some repositoryId) now days in
  let percentiles := getLeadTimePercentiles db repositoryId now days in
  match stats with
  | [] =>
      NoData "No lead time data available"
             ["Set up deployment tracking"%string;
              "Ensure PRs are properly linked to deployments"%string]
  | repoStats :: _ =>
      let avgDays := Stats.avg_lead_time_days repoStats in
      let category := categorizeLeadTime (Stats.avg_lead_time_hours repoStats) in
      Report (Category.category category) avgDays percentiles
        (if String.eqb (Category.category category) "Low" then
           ["Consider implementing feature flags to reduce batch sizes"%string;
            "Review deployment pipeline for automation opportunities"%string;
            "Implement more frequent deployments to reduce lead time"%string]
         else if String.eqb (Category.category category) "Medium" then
           ["Focus on reducing review time through better PR practices"%string;
            "Automate more of the deployment process"%string;
            "Consider trunk-based development"%string]
         else
           ["Great lead time performance! Consider sharing practices with other teams"%string;
            "Monitor for any increases in lead time as the team scales"%string])
  end.

(** ** Binary64 cross-check

    The interval and classifier arithmetic once more on primitive IEEE 754
    binary64 numbers, to check [RN] and the definitions above against the
    arithmetic the JavaScript code runs on. *)

Module Binary64.

(** The rational value of a finite binary64 number. *)
Definition value (f : float) : Q :=
  match Prim2SF f with
  | S754_finite s m e =>
      (if s then - inject_Z (Zpos m) else inject_Z (Zpos m)) * 2 ^ e
  | _ => 0
  end.

Definition calculateHoursDifference (startDate endDate : float) : float :=
  let diffMs := PrimFloat.sub endDate startDate in
  PrimFloat.div diffMs (PrimFloat.mul (PrimFloat.mul 1000 60) 60).

Definition categorizeLeadTime (hours : float) : string :=
  let days := PrimFloat.div hours 24 in
  if PrimFloat.leb days 1 then "Elite"
  else if PrimFloat.leb days 7 then "High"
  else if PrimFloat.leb days 30 then "Medium"
  else "Low".

End Binary64.

(** ** Repository identifiers

    [ConfigManager.addRepository] builds the id of a repository from its
    platform, owner and name; [DatabaseManager.updateRepositoryStats] takes
    the id apart again with [split], and the tables of [RepoStatsCounter]
    strip the platform and owner with a regular expression. *)

Module RepoId.

(** The template literal [`${platform}-${owner}-${name}`]. *)
Definition make (platform owner name : string) : string :=
  (platform ++ "-" ++ owner ++ "-" ++ name)%string.

(** [s.split('-')]: the pieces between hyphens, in order; there is always at
    least one piece, possibly empty. *)
Fixpoint split (s : string) : list string :=
  match s with
  | EmptyString => [EmptyString]
  | String c rest =>
      if Ascii.eqb c "-" then EmptyString :: split rest
      else match split rest with
           | piece :: pieces => String c piece :: pieces
           | [] => [String c EmptyString]
           end
  end.

(** [pieces[i] || 'unknown']: a missing or empty piece is falsy. *)
Definition or_unknown (piece : option string) : string :=
  match piece with
  | Some s => if String.eqb s "" then "unknown" else s
  | None => "unknown"
  end.

(** The longest prefix without a hyphen, and what follows it. *)
Fixpoint span_piece (s : string) : string * string :=
  match s with
  | EmptyString => (EmptyString, EmptyString)
  | String c rest =>
      if Ascii.eqb c "-" then (EmptyString, s)
      else let (piece, after) := span_piece rest in (String c piece, after)
  end.

(** [s.replace(/^[^-]+-[^-]+-/, '')]: when the text starts with two
    non-empty hyphen-free pieces, each followed by a hyphen, they are
    removed; otherwise the text is returned as it is. *)
Definition strip_platform_owner (s : string) : string :=
  match span_piece s with
  | (String _ _, String _ after_platform) =>
      match span_piece after_platform with
      | (String _ _, String _ after_owner) => after_owner
      | _ => s
      end
  | _ => s
  end.

End RepoId.

(** Rows of [repositories]. *)
Module Repo.
Record t := mk {
  id : string;
  name : string;
  owner : string;
  platform : string;
  url : string;
  last_checked : option Timestamp;
  total_deployments : Z;
  created_at : Timestamp;
  updated_at : Timestamp
}.
End Repo.

(** [updateRepositoryStats]: INSERT OR REPLACE on the primary key [id]; the
    row with the same id, if any, is deleted and the new row is added, all
    three timestamps being the clock reading [now]. *)
Definition updateRepositoryStats (repositories : list Repo.t) (now : Timestamp)
    (repositoryId : string) (totalDeployments : Z) : list Repo.t :=
  let pieces := RepoId.split repositoryId in
  filter (fun r => negb (String.eqb (Repo.id r) repositoryId)) repositories
  ++ [{| Repo.id := repositoryId;
         Repo.name := RepoId.or_unknown (nth_error pieces 2);
         Repo.owner := RepoId.or_unknown (nth_error pieces 1);
         Repo.platform := RepoId.or_unknown (nth_error pieces 0);
         Repo.url := "";
         Repo.last_checked := Some now;
         Repo.total_deployments := totalDeployments;
         Repo.created_at := now;
         Repo.updated_at := now |}].

(** ** The deployments table with its row-id sequence

    [id] is INTEGER PRIMARY KEY AUTOINCREMENT: a new row gets an id above
    every id ever used, which the engine keeps in [seq]. *)
Record DeploymentsTable := mkDeploymentsTable {
  rows : list Dep.t;
  seq : Z
}.

(** The argument of [insertDeployment], restricted to the columns of
    [Dep.t]; [deployment_type], [tag_name], [branch], [status] and
    [environment] are stored with the row and not read by the lead-time
    code. *)
Module NewDep.
Record t := mk {
  repository_id : string;
  deployment_id : option string;
  deployment_date : Timestamp;
  deployment_date_text : string;
  commit_sha : option string
}.
End NewDep.

(** UNIQUE(repository_id, deployment_id): two rows conflict when they agree
    on both columns; a NULL [deployment_id] conflicts with nothing. *)
Definition same_deployment (deployment : NewDep.t) (row : Dep.t) : bool :=
  String.eqb (Dep.repository_id row) (NewDep.repository_id deployment)
  && sql_eq (Dep.deployment_id row) (NewDep.deployment_id deployment).

(** [insertDeployment]: INSERT OR REPLACE; conflicting rows are deleted, the
    new row takes the next id, which is also the value resolved
    ([this.lastID]). *)
Definition insertDeployment (table : DeploymentsTable) (deployment : NewDep.t)
  : DeploymentsTable * Z :=
  let lastID :=
    (fold_left Z.max (map Dep.id (rows table)) (seq table) + 1)%Z in
  ({| rows :=
        filter (fun row => negb (same_deployment deployment row)) (rows table)
        ++ [{| Dep.id := lastID;
               Dep.repository_id := NewDep.repository_id deployment;
               Dep.deployment_id := NewDep.deployment_id deployment;
               Dep.deployment_date := NewDep.deployment_date deployment;
               Dep.deployment_date_text := NewDep.deployment_date_text deployment;
               Dep.commit_sha := NewDep.commit_sha deployment |}];
      seq := lastID |}, lastID).

(** ** Deployment statistics *)

(** A row returned by [getDeploymentStats]. *)
Module DepStats.
Record t := mk {
  repository_id : string;
  deployment_count : Z;
  first_deployment : string;
  last_deployment : string;
  active_days : Z
}.
End DepStats.

(** [DATE(deployment_date)]: the calendar day, in UTC, of the instant the
    text denotes, as a day number. *)
Definition DATE (t : Timestamp) : Z := (t / (24 * 60 * 60 * 1000))%Z.

(** [MIN] and [MAX] of TEXT values. *)
Definition text_min (a b : string) : string := if String.leb a b then a else b.
Definition text_max (a b : string) : string := if String.leb a b then b else a.

Definition deployments_in_window (db : Store) (repositoryId : option string)
    (now : Timestamp) (days : Z) : list Dep.t :=
  filter (fun d => String.leb (DatabaseManager.dateFilter now days)
                              (Dep.deployment_date_text d)
                   && DatabaseManager.repo_filter repositoryId (Dep.repository_id d))
         (deployments db).

Definition deployments_of (rid : string) (rows : list Dep.t) : list Dep.t :=
  filter (fun d => String.eqb (Dep.repository_id d) rid) rows.

Definition getDeploymentStats (db : Store) (repositoryId : option string)
    (now : Timestamp) (days : Z) : list DepStats.t :=
  let selected := deployments_in_window db repositoryId now days in
  let keys :=
    DatabaseManager.order_by String.leb
      (nodup string_dec (map Dep.repository_id selected)) in
  let groups :=
    map (fun rid =>
           let dates := map Dep.deployment_date (deployments_of rid selected) in
           let texts := map Dep.deployment_date_text (deployments_of rid selected) in
           {| DepStats.repository_id := rid;
              DepStats.deployment_count := DatabaseManager.COUNT dates;
              DepStats.first_deployment :=
                match texts with
                | [] => EmptyString
                | t :: r => fold_left text_min r t
                end;
              DepStats.last_deployment :=
                match texts with
                | [] => EmptyString
                | t :: r => fold_left text_max r t
                end;
              DepStats.active_days :=
                DatabaseManager.COUNT (nodup Z.eq_dec (map DATE dates)) |})
        keys in
  DatabaseManager.order_by
    (fun a b => (DepStats.deployment_count b <=? DepStats.deployment_count a)%Z)
    groups.

(** [stats.reduce((sum, stat) => sum + stat.deployment_count, 0)], the total
    printed by [displayTable]. *)
Definition totalDeployments (stats : list DepStats.t) : Z :=
  fold_left (fun sum stat => (sum + DepStats.deployment_count stat)%Z) stats 0%Z.

(** * Specification vocabulary *)

(** A deployment of the repository that takes place at or after the merge
    instant. *)
Definition AfterMerge (db : Store) (repositoryId : string) (mergedAt : Timestamp)
    (d : Dep.t) : Prop :=
  In d (deployments db)
  /\ Dep.repository_id d = repositoryId
  /\ (mergedAt <= Dep.deployment_date d)%Z.

(** A deployment of the repository whose date text is not below the text
    [mergedText], in the byte order of the texts: the row test of the
    fallback query of [findDeploymentForPR]. *)
Definition DatedFrom (db : Store) (repositoryId : string) (mergedText : string)
    (d : Dep.t) : Prop :=
  In d (deployments db)
  /\ Dep.repository_id d = repositoryId
  /\ String.leb mergedText (Dep.deployment_date_text d) = true.

(** Such a deployment whose commit is the head or the merge commit of the
    pull request: the row test of the first query. *)
Definition DatedFromWithCommit (db : Store) (repositoryId : string) (pr : PR.t)
    (mergedText : string) (d : Dep.t) : Prop :=
  DatedFrom db repositoryId mergedText d
  /\ exists sha, Dep.commit_sha d = Some sha
                 /\ (PR.head_sha pr = Some sha \/ PR.merge_sha pr = Some sha).

(** The date text of [r] is not above that of any row satisfying [P]. *)
Definition LeastText (P : Dep.t -> Prop) (r : Dep.t) : Prop :=
  P r /\ forall d, P d -> String.leb (Dep.deployment_date_text r)
                                     (Dep.deployment_date_text d) = true.

(** The stored text denotes the stored instant. *)
Definition denotes (text : string) (t : Timestamp) : Prop :=
  Date_parse text = Some t.

Definition PR_well_dated (pr : PR.t) : Prop :=
  (forall t, PR.merged_at pr = Some t -> denotes (PR.merged_at_text pr) t)
  /\ (forall t, PR.first_commit_at pr = Some t ->
                denotes (PR.first_commit_at_text pr) t).

Definition Dep_well_dated (d : Dep.t) : Prop :=
  denotes (Dep.deployment_date_text d) (Dep.deployment_date d).

Definition Metric_well_dated (m : Metric.t) : Prop :=
  denotes (Metric.first_commit_at_text m) (Metric.first_commit_at m).

(** The deployment instant of a change: that of the matched deployment, or
    the merge instant when the matcher finds none. *)
Definition deployedAt_or_merge (db : Store) (repositoryId : string) (pr : PR.t)
    (mergedAt : Timestamp) : Timestamp :=
  match findDeploymentForPR db repositoryId pr with
  | Some d => Dep.deployment_date d
  | None => mergedAt
  end.

(** Every duration field of a metric is non-negative. *)
Definition AllDurationsNonneg (m : Metric.t) : Prop :=
  0 <= Metric.coding_time_hours m
  /\ 0 <= Metric.review_time_hours m
  /\ 0 <= Metric.deployment_time_hours m
  /\ 0 <= Metric.total_lead_time_hours m
  /\ 0 <= Metric.commit_to_merge_hours m
  /\ 0 <= Metric.merge_to_deploy_hours m.

(** ** Sample data

    Instants are given in hours after the epoch, 1970-01-01T00:00:00Z; the
    texts are those of the GitHub API unless said otherwise. *)

Definition h (n : Z) : Timestamp := (n * 3600000)%Z.

Definition acme : string := "github-acme-api".

(** A pull request of [acme] as fetched: the texts of its dates are those
    of the instants given. *)
Definition fetched_pr (id pr_number : Z) (created : Z)
    (merged first_commit : option Z) (head_sha merge_sha : option string) : PR.t :=
  {| PR.id := id; PR.repository_id := acme; PR.pr_number := pr_number;
     PR.created_at_pr := h created;
     PR.merged_at := option_map h merged;
     PR.merged_at_text :=
       match merged with Some n => utc_text (h n) | None => EmptyString end;
     PR.first_commit_at := option_map h first_commit;
     PR.first_commit_at_text :=
       match first_commit with Some n => utc_text (h n) | None => EmptyString end;
     PR.head_sha := head_sha; PR.merge_sha := merge_sha;
     PR.is_merged := true |}.

(** First commit at 4h, opened at 10h, merged at 34h. *)
Definition pr7 : PR.t :=
  fetched_pr 1 7 10 (Some 34%Z) (Some 4%Z) (Some "a1"%string) (Some "m1"%string).

(** A change whose first commit (50h) is dated after its merge (34h). *)
Definition pr8_rebased : PR.t :=
  fetched_pr 2 8 30 (Some 34%Z) (Some 50%Z) None None.

(** A change fetched without its first commit. *)
Definition pr9_no_commit : PR.t :=
  fetched_pr 3 9 30 (Some 34%Z) None (Some "a9"%string) None.

Definition release (id : Z) (at_hour : Z) (sha : string) : Dep.t :=
  {| Dep.id := id; Dep.repository_id := acme;
     Dep.deployment_id := None;
     Dep.deployment_date := h at_hour;
     Dep.deployment_date_text := utc_text (h at_hour);
     Dep.commit_sha := Some sha |}.

(** An unrelated release at 36h comes before the release of [pr7]'s merge
    commit at 40h; one release predates the merge. *)
Definition db_releases : Store :=
  {| deployments := [release 1 20 "z0"; release 2 36 "z1"; release 3 40 "m1"];
     pull_requests := [pr7; pr8_rebased; pr9_no_commit];
     lead_time_metrics := [] |}.

(** A repository without deployment tracking. *)
Definition db_untracked : Store :=
  {| deployments := [];
     pull_requests := [pr7; pr8_rebased; pr9_no_commit];
     lead_time_metrics := [] |}.



(** The instant at which the window of [days] days before [now] starts. *)
Definition window_start (now : Timestamp) (days : Z) : Timestamp :=
  (now - days * ms_per_day)%Z.

(** A metric of repository [rid] whose first commit falls in the window. *)
Definition HasMetricInWindow (db : Store) (rid : string) (now : Timestamp)
    (days : Z) : Prop :=
  exists m, In m (lead_time_metrics db)
            /\ Metric.repository_id m = rid
            /\ (window_start now days <= Metric.first_commit_at m)%Z.

(** A metric of repository [rid] that passes the date test of the
    aggregator's queries: its [first_commit_at] text is not below the
    cutoff text. *)
Definition HasSelectedMetric (db : Store) (rid : string) (now : Timestamp)
    (days : Z) : Prop :=
  exists m, In m (lead_time_metrics db)
            /\ Metric.repository_id m = rid
            /\ String.leb (dateFilter now days) (Metric.first_commit_at_text m)
               = true.

Definition metric_of (rid : string) (first_commit_hour : Z) (total : Q) : Metric.t :=
  {| Metric.repository_id := rid; Metric.pr_id := 1;
     Metric.deployment_id := None;
     Metric.coding_time_hours := 0; Metric.review_time_hours := total;
     Metric.deployment_time_hours := 0;
     Metric.total_lead_time_hours := total;
     Metric.commit_to_merge_hours := total;
     Metric.merge_to_deploy_hours := 0;
     Metric.first_commit_at := h first_commit_hour;
     Metric.first_commit_at_text := utc_text (h first_commit_hour);
     Metric.merged_at := h first_commit_hour;
     Metric.merged_at_text := utc_text (h first_commit_hour);
     Metric.deployed_at := Some (h first_commit_hour);
     Metric.deployed_at_text := toISOString (h first_commit_hour) |}.


(** Three repositories; the metrics dated hour 1 are older than the window
    used with this store. *)
Definition db_three_repos : Store :=
  {| deployments := []; pull_requests := [];
     lead_time_metrics :=
       [metric_of "gh-acme-a" 100 200; metric_of "gh-acme-b" 100 12;
        metric_of "gh-acme-a" 101 100; metric_of "gh-acme-c" 1 5;
        metric_of "gh-acme-b" 102 30; metric_of "gh-acme-a" 103 20;
        metric_of "gh-acme-a" 1 900] |}.

(** Nearest-rank table of one repository: the row at position [k], counted
    from 1 over [n] rows, has rank [k * 100 / n]. *)
Fixpoint ranked (rid : string) (n k : Z) (rows : list Metric.t) : list Pct.t :=
  match rows with
  | [] => []
  | m :: rest =>
      {| Pct.repository_id := rid;
         Pct.total_lead_time_hours := Metric.total_lead_time_hours m;
         Pct.percentile := inject_Z k * 100 / inject_Z n |}
      :: ranked rid n (k + 1) rest
  end.

(** The changes [calculateLeadTime] can give a metric: those with a first
    commit instant. *)
Definition has_first_commit (pr : PR.t) : bool :=
  match PR.first_commit_at pr with Some _ => true | None => false end.

(** A merged change of the repository that passes the date test of
    [getPullRequestsForLeadTime]: its [merged_at] is present and its text is
    not below the cutoff text. *)
Definition SelectedChange (db : Store) (repositoryId : string)
    (now : Timestamp) (days : Z) (pr : PR.t) : Prop :=
  In pr (pull_requests db)
  /\ PR.repository_id pr = repositoryId
  /\ PR.is_merged pr = true
  /\ PR.merged_at pr <> None
  /\ String.leb (dateFilter now days) (PR.merged_at_text pr) = true.

(** The [merged_at] text of [a] is not below that of [b]. *)
Definition MergedTextNotBelow (a b : PR.t) : Prop :=
  String.leb (PR.merged_at_text b) (PR.merged_at_text a) = true.

(** [m] is a stored metric of repository [rid] that passes the date test
    of the aggregator's queries. *)
Definition SelectedMetric (db : Store) (rid : string) (now : Timestamp)
    (days : Z) (m : Metric.t) : Prop :=
  In m (lead_time_metrics db)
  /\ Metric.repository_id m = rid
  /\ String.leb (dateFilter now days) (Metric.first_commit_at_text m) = true.

(** Position of a category name in the order Elite, High, Medium, Low. *)
Definition category_rank (name : string) : nat :=
  if String.eqb name "Elite" then 0
  else if String.eqb name "High" then 1
  else if String.eqb name "Medium" then 2
  else 3.


(** A text without hyphen. *)
Fixpoint hyphen_free (s : string) : bool :=
  match s with
  | EmptyString => true
  | String c rest => negb (Ascii.eqb c "-") && hyphen_free rest
  end.

(** The row [updateRepositoryStats] stores for an id. *)
Definition stored_repository (repositories : list Repo.t) (repositoryId : string)
  : option Repo.t :=
  find (fun r => String.eqb (Repo.id r) repositoryId) repositories.

(** The stored columns of a deployment row other than its row id. *)
Definition deployment_data (row : Dep.t) : NewDep.t :=
  {| NewDep.repository_id := Dep.repository_id row;
     NewDep.deployment_id := Dep.deployment_id row;
     NewDep.deployment_date := Dep.deployment_date row;
     NewDep.deployment_date_text := Dep.deployment_date_text row;
     NewDep.commit_sha := Dep.commit_sha row |}.

(** The (repository, deployment id) pairs of the rows that have a
    deployment id; the UNIQUE constraint says that none is repeated. *)
Definition deployment_keys (table_rows : list Dep.t) : list (string * string) :=
  flat_map (fun row => match Dep.deployment_id row with
                       | Some d => [(Dep.repository_id row, d)]
                       | None => []
                       end) table_rows.

Definition tagged (tag : string) (at_hour : Z) (sha : string) : NewDep.t :=
  {| NewDep.repository_id := acme;
     NewDep.deployment_id := Some tag;
     NewDep.deployment_date := h at_hour;
     NewDep.deployment_date_text := utc_text (h at_hour);
     NewDep.commit_sha := Some sha |}.

(** Two stored deployments, ids 1 and 2, with the sequence at 2. *)
Definition table_two_tags : DeploymentsTable :=
  {| rows :=
       [{| Dep.id := 1; Dep.repository_id := acme;
           Dep.deployment_id := Some "tag-v1"%string;
           Dep.deployment_date := h 20;
           Dep.deployment_date_text := utc_text (h 20);
           Dep.commit_sha := Some "z0"%string |};
        {| Dep.id := 2; Dep.repository_id := acme;
           Dep.deployment_id := Some "tag-v2"%string;
           Dep.deployment_date := h 40;
           Dep.deployment_date_text := utc_text (h 40);
           Dep.commit_sha := Some "m1"%string |}];
     seq := 2 |}.

(** Sum of a list of integers. *)
Definition Zsum (l : list Z) : Z := fold_right Z.add 0%Z l.

(** [d] is a deployment of repository [rid] that passes the date test of
    [getDeploymentStats]: its date text is not below the cutoff text. *)
Definition SelectedDeployment (db : Store) (rid : string) (now : Timestamp)
    (days : Z) (d : Dep.t) : Prop :=
  In d (deployments db)
  /\ Dep.repository_id d = rid
  /\ String.leb (dateFilter now days) (Dep.deployment_date_text d) = true.

(** The hours from [a] to [b], without rounding. *)
Definition exact_hours (a b : Timestamp) : Q :=
  (inject_Z b - inject_Z a) / 3600000.

(** A change whose three instants lie far apart, near the two ends of the
    range of Date; its texts are those [toISOString] writes. *)
Definition pr_far_apart : PR.t :=
  {| PR.id := 4; PR.repository_id := acme; PR.pr_number := 10;
     PR.created_at_pr := (-8174890956812550)%Z;
     PR.merged_at := Some 7409125427585223%Z;
     PR.merged_at_text := toISOString 7409125427585223;
     PR.first_commit_at := Some (-8410494979230064)%Z;
     PR.first_commit_at_text := toISOString (-8410494979230064);
     PR.head_sha := None; PR.merge_sha := None;
     PR.is_merged := true |}.

(** A GitLab project.  A merge request carries [merged_at] in UTC; a tag
    carries the date of its commit with the committer's offset from UTC.
    The tag below was cut at 10:00 UTC (hour 34), one hour before the merge
    at 11:00 UTC (hour 35). *)
Definition gitlab_web : string := "gitlab-acme-web".

Definition mr12 : PR.t :=
  {| PR.id := 12; PR.repository_id := gitlab_web; PR.pr_number := 12;
     PR.created_at_pr := h 30;
     PR.merged_at := Some (h 35);
     PR.merged_at_text := "1970-01-02T11:00:00.000Z";
     PR.first_commit_at := Some (h 28);
     PR.first_commit_at_text := "1970-01-02T06:00:00.000+02:00";
     PR.head_sha := Some "c7"%string; PR.merge_sha := Some "m12"%string;
     PR.is_merged := true |}.

Definition tag_v3 : Dep.t :=
  {| Dep.id := 5; Dep.repository_id := gitlab_web;
     Dep.deployment_id := Some "tag-v3"%string;
     Dep.deployment_date := h 34;
     Dep.deployment_date_text := "1970-01-02T12:00:00.000+02:00";
     Dep.commit_sha := Some "b4"%string |}.

Definition db_gitlab : Store :=
  {| deployments := [tag_v3]; pull_requests := [mr12];
     lead_time_metrics := [] |}.

(** A repository whose only metric has its first commit at hour 27, on the
    day the window of seven days before hour 200 starts (at hour 32), five
    hours before that start. *)
Definition db_cutoff_day : Store :=
  {| deployments := []; pull_requests := [];
     lead_time_metrics := [metric_of "gh-acme-a" 27 12] |}.

(** * Properties *)

(** ** Rounding to binary64 *)

Lemma Qpower2_pos (k : Z) : 0 < 2 ^ k.
Proof. apply Qpower_0_lt. reflexivity. Qed.

Lemma Qpower2_Z (k : Z) : (0 <= k)%Z -> 2 ^ k == inject_Z (2 ^ k).
Proof. intros Hk. rewrite Zpower_Qpower by exact Hk. reflexivity. Qed.

Lemma Qlog2_le (x : Q) : 0 < x -> 2 ^ Qlog2 x <= x.
Proof.
  intros Hx. destruct x as [n d]. unfold Qlog2. cbn [Qnum Qden].
  set (ln := Z.log2 n). set (ld := Z.log2 (Z.pos d)).
  destruct (Qle_bool (2 ^ (ln - ld)) (n # d)) eqn:E.
  - apply Qle_bool_iff. exact E.
  - assert (Hn : (0 < n)%Z).
    { unfold Qlt in Hx. simpl in Hx. lia. }
    assert (Hln : (2 ^ ln <= n)%Z) by (apply Z.log2_spec; exact Hn).
    assert (Hld : (Z.pos d < 2 ^ Z.succ ld)%Z) by (apply Z.log2_spec; lia).
    assert (Hln0 : (0 <= ln)%Z) by apply Z.log2_nonneg.
    assert (Hld0 : (0 <= ld)%Z) by apply Z.log2_nonneg.
    assert (Hsplit : 2 ^ (ln - ld - 1) * inject_Z (2 ^ Z.succ ld)
                     == inject_Z (2 ^ ln)).
    { rewrite <- (Qpower2_Z (Z.succ ld)) by lia.
      rewrite <- (Qpower2_Z ln) by lia.
      rewrite <- Qpower_plus by discriminate.
      replace (ln - ld - 1 + Z.succ ld)%Z with ln by lia. reflexivity. }
    assert (Hp : 0 < 2 ^ (ln - ld - 1)) by apply Qpower2_pos.
    assert (H1 : 2 ^ (ln - ld - 1) * inject_Z (Z.pos d) <= inject_Z n).
    { apply Qle_trans with (2 ^ (ln - ld - 1) * inject_Z (2 ^ Z.succ ld)).
      - apply Qmult_le_l; [exact Hp|]. rewrite <- Zle_Qle. lia.
      - rewrite Hsplit. rewrite <- Zle_Qle. exact Hln. }
    assert (Hxd : n # d == inject_Z n / inject_Z (Z.pos d)) by apply Qmake_Qdiv.
    rewrite Hxd. apply Qle_shift_div_l.
    + change 0 with (inject_Z 0). rewrite <- Zlt_Qlt. lia.
    + exact H1.
Qed.

Lemma round_half_even_near (y : Q) :
  y - (1 # 2) <= inject_Z (round_half_even y)
  /\ inject_Z (round_half_even y) <= y + (1 # 2).
Proof.
  unfold round_half_even.
  pose proof (Qfloor_le y) as Hlo. pose proof (Qlt_floor y) as Hhi.
  rewrite inject_Z_plus in Hhi. change (inject_Z 1) with 1 in Hhi.
  destruct (Qcompare (y - inject_Z (Qfloor y)) (1 # 2)) eqn:E.
  - apply Qeq_alt in E. destruct (Z.even (Qfloor y)).
    + split; lra.
    + rewrite inject_Z_plus. change (inject_Z 1) with 1. split; lra.
  - apply Qlt_alt in E. split; lra.
  - apply Qgt_alt in E. rewrite inject_Z_plus. change (inject_Z 1) with 1.
    split; lra.
Qed.

(** The relative error of a rounding is at most the unit roundoff. *)
Lemma RN_error (x : Q) : Qabs (RN x - x) <= Qabs x * u64.
Proof.
  unfold RN. destruct (Qeq_bool x 0) eqn:E0.
  - apply Qeq_bool_iff in E0. rewrite E0. vm_compute. discriminate.
  - assert (Hx : ~ x == 0).
    { intros H. apply Qeq_bool_iff in H. congruence. }
    assert (Habs : 0 < Qabs x).
    { destruct (Q_dec x 0) as [[H|H]|H].
      - rewrite Qabs_neg by lra. lra.
      - rewrite Qabs_pos by lra. lra.
      - contradiction. }
    set (l := Qlog2 (Qabs x)). set (e := (l - 52)%Z).
    pose proof (Qlog2_le (Qabs x) Habs) as Hl. fold l in Hl.
    assert (HP : 0 < 2 ^ e) by apply Qpower2_pos.
    assert (Hle : 2 ^ l == 2 ^ e * 4503599627370496).
    { replace l with (e + 52)%Z by (unfold e; lia).
      rewrite Qpower_plus by discriminate. reflexivity. }
    destruct (round_half_even_near (x / 2 ^ e)) as [Hlo Hhi].
    set (r := inject_Z (round_half_even (x / 2 ^ e))) in *.
    assert (Hy : x == x / 2 ^ e * 2 ^ e).
    { field. lra. }
    set (y := x / 2 ^ e) in *. set (P := 2 ^ e) in *.
    assert (Hd : Qabs (r * P - x) <= P * (1 # 2)).
    { apply Qabs_Qle_condition. split.
      - setoid_replace (r * P - x) with ((r - y) * P) by (rewrite Hy at 1; ring).
        nra.
      - setoid_replace (r * P - x) with ((r - y) * P) by (rewrite Hy at 1; ring).
        nra. }
    eapply Qle_trans; [exact Hd|]. unfold u64. rewrite Hle in Hl.
    lra.
Qed.

Lemma RN_zero (x : Q) : x == 0 -> RN x = 0.
Proof. intros H. unfold RN. apply Qeq_bool_iff in H. now rewrite H. Qed.

Lemma RN_nonneg_bounds (x : Q) :
  0 <= x -> (1 - u64) * x <= RN x /\ RN x <= (1 + u64) * x.
Proof.
  intros Hx. pose proof (RN_error x) as H. rewrite (Qabs_pos x Hx) in H.
  apply Qabs_Qle_condition in H. unfold u64 in *. destruct H. split; lra.
Qed.

Lemma RN_nonpos_bounds (x : Q) :
  x <= 0 -> (1 + u64) * x <= RN x /\ RN x <= (1 - u64) * x.
Proof.
  intros Hx. pose proof (RN_error x) as H. rewrite (Qabs_neg x Hx) in H.
  apply Qabs_Qle_condition in H. unfold u64 in *. destruct H. split; lra.
Qed.

(** [RN] agrees with the primitive binary64 operations. *)
Example RN_binary64 :
  RN (1 # 3) == Binary64.value (1 / 3)%float
  /\ RN (- (2 # 3)) == Binary64.value (- (2 / 3))%float
  /\ RN (24005 # 1000) == Binary64.value (24005 / 1000)%float
  /\ RN (inject_Z 9007199254740993) == Binary64.value (9007199254740992 + 1)%float
  /\ RN (inject_Z 9007199254740995) == Binary64.value (9007199254740994 + 1)%float
  /\ RN (1 # 1000000) == Binary64.value (1 / 1000000)%float.
Proof. vm_compute. repeat split; reflexivity. Qed.

(** ** Interval arithmetic *)

Lemma hours_same (a : Timestamp) : calculateHoursDifference a a = 0.
Proof.
  unfold calculateHoursDifference; cbv zeta.
  rewrite (RN_zero (inject_Z a - inject_Z a)) by ring.
  apply RN_zero. reflexivity.
Qed.

Lemma Qdiv_3600000 (x : Q) : x / 3600000 == x * (1 # 3600000).
Proof. field. Qed.

(** The computed hours are the exact hours up to two roundings. *)
Lemma hours_bounds_nonneg (a b : Timestamp) :
  (a <= b)%Z ->
  (1 - u64) * (1 - u64) * exact_hours a b <= calculateHoursDifference a b
  /\ calculateHoursDifference a b <= (1 + u64) * (1 + u64) * exact_hours a b.
Proof.
  intros H. unfold calculateHoursDifference, exact_hours; cbv zeta.
  change (inject_Z (1000 * 60 * 60)) with 3600000.
  rewrite Zle_Qle in H.
  set (d := inject_Z b - inject_Z a) in *.
  assert (Hd : 0 <= d) by (unfold d; lra).
  destruct (RN_nonneg_bounds d Hd) as [L1 U1].
  assert (Hq : 0 <= RN d / 3600000).
  { apply Qle_shift_div_l; [reflexivity|]. unfold u64 in *. lra. }
  destruct (RN_nonneg_bounds _ Hq) as [L2 U2].
  clearbody d. revert L1 U1 Hq L2 U2.
  generalize (RN (RN d / 3600000)). generalize (RN d). intros r1 r2.
  unfold u64. intros.
  pose proof (Qdiv_3600000 d). pose proof (Qdiv_3600000 r1). split; lra.
Qed.

Lemma hours_bounds_nonpos (a b : Timestamp) :
  (b <= a)%Z ->
  (1 + u64) * (1 + u64) * exact_hours a b <= calculateHoursDifference a b
  /\ calculateHoursDifference a b <= (1 - u64) * (1 - u64) * exact_hours a b.
Proof.
  intros H. unfold calculateHoursDifference, exact_hours; cbv zeta.
  change (inject_Z (1000 * 60 * 60)) with 3600000.
  rewrite Zle_Qle in H.
  set (d := inject_Z b - inject_Z a) in *.
  assert (Hd : d <= 0) by (unfold d; lra).
  destruct (RN_nonpos_bounds d Hd) as [L1 U1].
  assert (Hq : RN d / 3600000 <= 0).
  { apply Qle_shift_div_r; [reflexivity|]. unfold u64 in *. lra. }
  destruct (RN_nonpos_bounds _ Hq) as [L2 U2].
  clearbody d. revert L1 U1 Hq L2 U2.
  generalize (RN (RN d / 3600000)). generalize (RN d). intros r1 r2.
  unfold u64. intros.
  pose proof (Qdiv_3600000 d). pose proof (Qdiv_3600000 r1). split; lra.
Qed.

Lemma exact_hours_sign (a b : Timestamp) :
  ((a <= b)%Z -> 0 <= exact_hours a b)
  /\ ((a < b)%Z -> 0 < exact_hours a b)
  /\ ((b < a)%Z -> exact_hours a b < 0).
Proof.
  unfold exact_hours. rewrite Zle_Qle, !Zlt_Qlt. repeat split; intros H.
  - apply Qle_shift_div_l; [reflexivity|]. lra.
  - apply Qlt_shift_div_l; [reflexivity|]. lra.
  - apply Qlt_shift_div_r; [reflexivity|]. lra.
Qed.

Lemma exact_hours_chain (a b c : Timestamp) :
  exact_hours a b + exact_hours b c == exact_hours a c.
Proof. unfold exact_hours. field. Qed.

Lemma hours_nonneg (a b : Timestamp) :
  (a <= b)%Z -> 0 <= calculateHoursDifference a b.
Proof.
  intros H. destruct (hours_bounds_nonneg a b H) as [L _].
  destruct (exact_hours_sign a b) as (P & _ & _). specialize (P H).
  unfold u64 in *. lra.
Qed.

Lemma hours_pos (a b : Timestamp) :
  (a < b)%Z -> 0 < calculateHoursDifference a b.
Proof.
  intros H. destruct (hours_bounds_nonneg a b) as [L _]; [lia|].
  destruct (exact_hours_sign a b) as (_ & P & _). specialize (P H).
  unfold u64 in *. lra.
Qed.

Lemma hours_neg (a b : Timestamp) :
  (b < a)%Z -> calculateHoursDifference a b < 0.
Proof.
  intros H. destruct (hours_bounds_nonpos a b) as [_ U]; [lia|].
  destruct (exact_hours_sign a b) as (_ & _ & P). specialize (P H).
  unfold u64 in *. lra.
Qed.

Lemma hours_negative_iff (a b : Timestamp) :
  calculateHoursDifference a b < 0 <-> (b < a)%Z.
Proof.
  split; [|apply hours_neg].
  intros H. destruct (Z.lt_ge_cases b a) as [|Hge]; [assumption|].
  apply hours_nonneg in Hge. lra.
Qed.

Lemma Math_max0_nonneg (x : Q) : 0 <= Math_max0 x.
Proof. unfold Math_max0. apply Q.le_max_l. Qed.

Lemma Math_max0_id (x : Q) : 0 <= x -> Math_max0 x == x.
Proof. unfold Math_max0. apply Q.max_r. Qed.

Lemma Math_max0_pos (x : Q) : 0 < x -> Math_max0 x = x.
Proof.
  intros H. unfold Math_max0, Qmax, GenericMinMax.gmax.
  assert (E : Qcompare 0 x = Lt) by (apply Qlt_alt; exact H).
  now rewrite E.
Qed.

Lemma Math_max0_nonpos (x : Q) : x <= 0 -> Math_max0 x == 0.
Proof. unfold Math_max0. apply Q.max_l. Qed.

(** With the two instants in order the clamp leaves the hours as they
    are. *)
Lemma Math_max0_hours (a b : Timestamp) :
  (a <= b)%Z ->
  Math_max0 (calculateHoursDifference a b) = calculateHoursDifference a b.
Proof.
  intros H. destruct (Z.eq_dec a b) as [->|Hne].
  - rewrite hours_same. reflexivity.
  - apply Math_max0_pos, hours_pos. lia.
Qed.

(** ** The byte order of texts *)

Lemma leb_refl (a : string) : String.leb a a = true.
Proof. destruct (String.leb_total a a); assumption. Qed.

Lemma leb_trans (a b c : string) :
  String.leb a b = true -> String.leb b c = true -> String.leb a c = true.
Proof.
  unfold String.leb. revert b c.
  induction a as [|x a IH]; intros [|y b] [|z c]; simpl;
    try reflexivity; try discriminate.
  destruct (Ascii.compare x y) eqn:Exy; try discriminate.
  - apply Ascii.compare_eq_iff in Exy. subst y.
    destruct (Ascii.compare x z) eqn:Exz; try discriminate; [apply IH|reflexivity].
  - destruct (Ascii.compare y z) eqn:Eyz; try discriminate; intros _ _.
    + apply Ascii.compare_eq_iff in Eyz. subst z. now rewrite Exy.
    + assert (E : Ascii.compare x z = Lt).
      { unfold Ascii.compare in *. rewrite N.compare_lt_iff in *. lia. }
      now rewrite E.
Qed.

Lemma ltb_leb (a b : string) : String.ltb a b = true -> String.leb a b = true.
Proof.
  unfold String.ltb, String.leb. destruct (String.compare a b); congruence.
Qed.

Lemma ltb_false_leb (a b : string) :
  String.ltb a b = false -> String.leb b a = true.
Proof.
  unfold String.ltb, String.leb. rewrite (String.compare_antisym b a).
  destruct (String.compare a b); simpl; congruence.
Qed.



(** ** Deployment matcher *)

Lemma first_by_date_none (rows : list Dep.t) :
  first_by_date rows = None <-> rows = [].
Proof.
  destruct rows as [|d rest]; simpl; [tauto|].
  split; [|discriminate].
  destruct (first_by_date rest) as [e|]; [|discriminate].
  destruct (String.ltb (Dep.deployment_date_text e) (Dep.deployment_date_text d));
    discriminate.
Qed.

Lemma first_by_date_least (rows : list Dep.t) (r : Dep.t) :
  first_by_date rows = Some r ->
  In r rows
  /\ forall d, In d rows ->
       String.leb (Dep.deployment_date_text r) (Dep.deployment_date_text d) = true.
Proof.
  revert r. induction rows as [|x rest IH]; simpl; intros r H; [discriminate|].
  destruct (first_by_date rest) as [e|] eqn:E.
  - destruct (IH e eq_refl) as [Hin Hle].
    destruct (String.ltb (Dep.deployment_date_text e) (Dep.deployment_date_text x))
      eqn:C; injection H as <-.
    + split; [now right|].
      intros d [<-|Hd]; [now apply ltb_leb|now apply Hle].
    + apply ltb_false_leb in C. split; [now left|].
      intros d [<-|Hd]; [apply leb_refl|].
      eapply leb_trans; [exact C|now apply Hle].
  - injection H as <-. apply first_by_date_none in E. subst rest.
    split; [now left|]. intros d [<-|[]]. apply leb_refl.
Qed.

Lemma sql_eq_true (a b : option string) :
  sql_eq a b = true <-> exists s, a = Some s /\ b = Some s.
Proof.
  destruct a as [x|], b as [y|]; simpl.
  - rewrite String.eqb_eq. split.
    + intros ->. now exists y.
    + intros (s & [= ->] & [= ->]). reflexivity.
  - split; [discriminate|]. intros (s & _ & [=]).
  - split; [discriminate|]. intros (s & [=] & _).
  - split; [discriminate|]. intros (s & [=] & _).
Qed.

Lemma after_merge_true db repositoryId pr mergedAt d :
  PR.merged_at pr = Some mergedAt ->
  (In d (filter (after_merge repositoryId pr) (deployments db))
   <-> DatedFrom db repositoryId (PR.merged_at_text pr) d).
Proof.
  intros Hm. rewrite filter_In. unfold after_merge, DatedFrom, merged_at_param.
  rewrite Hm; simpl. rewrite andb_true_iff, String.eqb_eq. tauto.
Qed.

Lemma exact_match_true db repositoryId pr mergedAt d :
  PR.merged_at pr = Some mergedAt ->
  (In d (filter (exact_match repositoryId pr) (deployments db))
   <-> DatedFromWithCommit db repositoryId pr (PR.merged_at_text pr) d).
Proof.
  intros Hm. rewrite filter_In.
  unfold exact_match, DatedFromWithCommit, DatedFrom, merged_at_param.
  rewrite Hm; simpl.
  rewrite !andb_true_iff, orb_true_iff, String.eqb_eq, !sql_eq_true.
  split.
  - intros (Hin & (Hr & Ht) & [(s & Hs & Hh)|(s & Hs & Hh)]);
      (split; [tauto|]); exists s; tauto.
  - intros ((Hin & Hr & Ht) & s & Hs & [Hh|Hh]);
      (split; [assumption|]); (split; [tauto|]); [left|right]; now exists s.
Qed.

(** The two queries of [findDeploymentForPR], in the order of the date
    texts. *)
Lemma findDeploymentForPR_by_text
    (db : Store) (repositoryId : string) (pr : PR.t) (mergedAt : Timestamp) :
  PR.merged_at pr = Some mergedAt ->
  ((exists d, DatedFromWithCommit db repositoryId pr (PR.merged_at_text pr) d) ->
   exists r, findDeploymentForPR db repositoryId pr = Some r
             /\ LeastText (DatedFromWithCommit db repositoryId pr
                             (PR.merged_at_text pr)) r)
  /\ (~ (exists d, DatedFromWithCommit db repositoryId pr (PR.merged_at_text pr) d) ->
      (exists d, DatedFrom db repositoryId (PR.merged_at_text pr) d) ->
      exists r, findDeploymentForPR db repositoryId pr = Some r
                /\ LeastText (DatedFrom db repositoryId (PR.merged_at_text pr)) r)
  /\ (findDeploymentForPR db repositoryId pr = None
      <-> ~ exists d, DatedFrom db repositoryId (PR.merged_at_text pr) d).
Proof.
  intros Hm. unfold findDeploymentForPR.
  pose proof (exact_match_true db repositoryId pr mergedAt) as HX.
  pose proof (after_merge_true db repositoryId pr mergedAt) as HA.
  destruct (first_by_date (filter (exact_match repositoryId pr) (deployments db)))
    as [r|] eqn:E.
  - destruct (first_by_date_least _ _ E) as [Hin Hle].
    assert (Hr : DatedFromWithCommit db repositoryId pr (PR.merged_at_text pr) r)
      by now apply HX.
    split; [|split].
    + intros _. exists r. split; [reflexivity|]. split; [exact Hr|].
      intros d Hd. apply Hle. now apply HX.
    + intros Hno. exfalso. apply Hno. now exists r.
    + split; [discriminate|]. intros Hno. exfalso. apply Hno.
      exists r. apply Hr.
  - apply first_by_date_none in E.
    assert (Hno : ~ exists d, DatedFromWithCommit db repositoryId pr
                                (PR.merged_at_text pr) d).
    { intros [d Hd]. apply HX in Hd; [|assumption]. rewrite E in Hd. exact Hd. }
    split; [|split].
    + intros Hex. contradiction.
    + intros _ [d Hd].
      destruct (first_by_date (filter (after_merge repositoryId pr) (deployments db)))
        as [r|] eqn:F.
      * destruct (first_by_date_least _ _ F) as [Hin Hle].
        exists r. split; [reflexivity|]. split; [now apply HA|].
        intros d' Hd'. apply Hle. now apply HA.
      * apply first_by_date_none in F. apply HA in Hd; [|assumption].
        rewrite F in Hd. destruct Hd.
    + rewrite first_by_date_none. split.
      * intros F [d Hd]. apply HA in Hd; [|assumption]. rewrite F in Hd. exact Hd.
      * intros Hnone.
        destruct (filter (after_merge repositoryId pr) (deployments db))
          as [|d rest] eqn:F; [reflexivity|].
        exfalso. apply Hnone. exists d. apply HA; [assumption|].
        rewrite ?F. now left.
Qed.

Example exact_commit_preferred :
  findDeploymentForPR db_releases acme pr7 = Some (release 3 40 "m1").
Proof. vm_compute. reflexivity. Qed.

(** The sample rows carry the texts of their instants. *)
Example samples_well_dated :
  Forall PR_well_dated [pr7; pr8_rebased; pr9_no_commit; pr_far_apart; mr12]
  /\ Forall Dep_well_dated (tag_v3 :: deployments db_releases)
  /\ Forall Metric_well_dated
       (lead_time_metrics db_three_repos ++ lead_time_metrics db_cutoff_day).
Proof.
  unfold PR_well_dated, Dep_well_dated, Metric_well_dated, denotes.
  repeat split; repeat constructor;
    try (intros t [= <-]); try discriminate; vm_compute; reflexivity.
Qed.

(** C2 fails on a GitLab project.  The date of the tag, written with its
    offset from UTC, is above the merge date, written in UTC, in the order
    of the texts, although the tag was cut an hour before the merge: the
    matcher returns the tag where the repository has no deployment at or
    after the merge, and the change gets minus one hour from merge to
    deployment. *)
Theorem findDeploymentForPR_matches_earlier_tag :
  PR_well_dated mr12
  /\ Dep_well_dated tag_v3
  /\ PR.merged_at mr12 = Some (h 35)
  /\ Dep.deployment_date tag_v3 = h 34
  /\ (~ exists d, AfterMerge db_gitlab gitlab_web (h 35) d)
  /\ findDeploymentForPR db_gitlab gitlab_web mr12 = Some tag_v3
  /\ exists m, calculatePRLeadTime db_gitlab gitlab_web mr12 = Some m
               /\ Metric.merge_to_deploy_hours m == -1.
Proof.
  split; [split; intros t [= <-]; vm_compute; reflexivity|].
  split; [vm_compute; reflexivity|].
  split; [reflexivity|]. split; [reflexivity|].
  split.
  - intros (d & Hin & _ & Hle). destruct Hin as [<-|[]].
    vm_compute in Hle. apply Hle. reflexivity.
  - split; [vm_compute; reflexivity|].
    eexists. split; [vm_compute; reflexivity|]. vm_compute. reflexivity.
Qed.

(** ** Lead time of one change *)

(** In binary64 arithmetic the three phases of an ordered change add up to
    the total within 1e-6 hours when the change spans at most [2 ^ 51]
    milliseconds, both as the exact sum of the three numbers and as the sum
    computed from left to right. *)
Lemma phases_sum_close (f c mg dp : Timestamp) :
  (f <= c)%Z -> (c <= mg)%Z -> (mg <= dp)%Z -> (dp - f <= 2 ^ 51)%Z ->
  Qabs (calculateHoursDifference f c + calculateHoursDifference c mg
        + calculateHoursDifference mg dp - calculateHoursDifference f dp)
  <= 1 # 1000000
  /\ Qabs (RN (RN (calculateHoursDifference f c + calculateHoursDifference c mg)
               + calculateHoursDifference mg dp)
           - calculateHoursDifference f dp)
     <= 1 # 1000000.
Proof.
  intros Hfc Hcm Hmd Hspan.
  destruct (hours_bounds_nonneg f c Hfc) as [Lx Ux].
  destruct (hours_bounds_nonneg c mg Hcm) as [Ly Uy].
  destruct (hours_bounds_nonneg mg dp Hmd) as [Lz Uz].
  destruct (hours_bounds_nonneg f dp) as [Lt Ut]; [lia|].
  pose proof (hours_nonneg f c Hfc) as Px.
  pose proof (hours_nonneg c mg Hcm) as Py.
  pose proof (hours_nonneg mg dp Hmd) as Pz.
  destruct (exact_hours_sign f c) as (E1 & _). specialize (E1 Hfc).
  destruct (exact_hours_sign c mg) as (E2 & _). specialize (E2 Hcm).
  destruct (exact_hours_sign mg dp) as (E3 & _). specialize (E3 Hmd).
  pose proof (exact_hours_chain f c mg) as C1.
  pose proof (exact_hours_chain f mg dp) as C2.
  assert (Hmax : exact_hours f dp <= 2251799813685248 * (1 # 3600000)).
  { unfold exact_hours. rewrite Qdiv_3600000.
    apply Z.le_sub_le_add_r in Hspan. rewrite Zle_Qle, inject_Z_plus in Hspan.
    change (inject_Z (2 ^ 51)) with 2251799813685248 in Hspan. lra. }
  set (x := calculateHoursDifference f c) in *.
  set (y := calculateHoursDifference c mg) in *.
  set (z := calculateHoursDifference mg dp) in *.
  set (t := calculateHoursDifference f dp) in *.
  assert (Pxy : 0 <= x + y) by lra.
  destruct (RN_nonneg_bounds (x + y) Pxy) as [L1 U1].
  assert (Ps : 0 <= RN (x + y) + z) by (unfold u64 in *; lra).
  destruct (RN_nonneg_bounds _ Ps) as [L2 U2].
  clearbody x y z t. revert L1 U1 Ps L2 U2.
  generalize (RN (RN (x + y) + z)). generalize (RN (x + y)). intros s1 s2.
  generalize dependent (exact_hours f c). generalize dependent (exact_hours c mg).
  generalize dependent (exact_hours mg dp). generalize dependent (exact_hours f dp).
  unfold u64. intros.
  split; apply Qabs_Qle_condition; split; lra.
Qed.

(** C1, as the code has it.  When first commit, opening, merge and
    deployment are in this order (the deployment instant being that of the
    matched deployment, or the merge instant when none is matched) and no
    more than [2 ^ 51] milliseconds, some 71 000 years, lie between first
    commit and deployment, [calculatePRLeadTime] yields a metric in which
    coding, review and merge-to-deploy hours add up to the total lead time
    within 1e-6 hours, whether the three binary64 numbers are added exactly
    or in binary64 arithmetic from left to right. *)
Theorem lead_time_is_sum_of_phases
    (db : Store) (repositoryId : string) (pr : PR.t)
    (firstCommitAt mergedAt : Timestamp) :
  PR.first_commit_at pr = Some firstCommitAt ->
  PR.merged_at pr = Some mergedAt ->
  (firstCommitAt <= PR.created_at_pr pr <= mergedAt)%Z ->
  (mergedAt <= deployedAt_or_merge db repositoryId pr mergedAt)%Z ->
  (deployedAt_or_merge db repositoryId pr mergedAt - firstCommitAt <= 2 ^ 51)%Z ->
  exists m,
    calculatePRLeadTime db repositoryId pr = Some m
    /\ Metric.deployed_at m = Some (deployedAt_or_merge db repositoryId pr mergedAt)
    /\ Qabs (Metric.coding_time_hours m + Metric.review_time_hours m
             + Metric.merge_to_deploy_hours m
             - Metric.total_lead_time_hours m) <= 1 # 1000000
    /\ Qabs (RN (RN (Metric.coding_time_hours m + Metric.review_time_hours m)
                 + Metric.merge_to_deploy_hours m)
             - Metric.total_lead_time_hours m) <= 1 # 1000000.
Proof.
  intros Hf Hm [Hfc Hcm]. 
  unfold calculatePRLeadTime, deployedAt_or_merge. rewrite Hf, Hm.
  destruct (findDeploymentForPR db repositoryId pr) as [d|]; intros Hmd Hspan;
    (eexists; split; [reflexivity|]); cbn [Metric.deployed_at
      Metric.coding_time_hours Metric.review_time_hours
      Metric.merge_to_deploy_hours Metric.total_lead_time_hours];
    (split; [reflexivity|]); rewrite !Math_max0_hours by assumption.
  - now apply phases_sum_close.
  - rewrite <- (hours_same mergedAt). now apply phases_sum_close.
Qed.

Lemma lead_time_is_sum_of_phases_witness :
  exists m,
    calculatePRLeadTime db_releases acme pr7 = Some m
    /\ Metric.deployed_at m = Some (h 40)
    /\ Qabs (Metric.coding_time_hours m + Metric.review_time_hours m
             + Metric.merge_to_deploy_hours m
             - Metric.total_lead_time_hours m) <= 1 # 1000000
    /\ Qabs (RN (RN (Metric.coding_time_hours m + Metric.review_time_hours m)
                 + Metric.merge_to_deploy_hours m)
             - Metric.total_lead_time_hours m) <= 1 # 1000000.
Proof.
  apply (lead_time_is_sum_of_phases db_releases acme pr7 (h 4) (h 34));
    [reflexivity | reflexivity | vm_compute; split; discriminate
    | vm_compute; discriminate | vm_compute; discriminate].
Defined.

(** C1 as stated fails: for three instants in order inside the range of
    Date, some 500 000 years apart, the phases and the total, each rounded
    on its own, differ by more than 1e-6 hours, added exactly or in
    binary64 arithmetic. *)
Lemma phases_sum_outside_tolerance :
  PR_well_dated pr_far_apart
  /\ exists m firstCommitAt mergedAt,
       calculatePRLeadTime db_untracked acme pr_far_apart = Some m
       /\ PR.first_commit_at pr_far_apart = Some firstCommitAt
       /\ PR.merged_at pr_far_apart = Some mergedAt
       /\ (- 8640000000000000 <= firstCommitAt)%Z
       /\ (firstCommitAt <= PR.created_at_pr pr_far_apart <= mergedAt)%Z
       /\ (mergedAt <= deployedAt_or_merge db_untracked acme pr_far_apart mergedAt)%Z
       /\ (mergedAt <= 8640000000000000)%Z
       /\ Metric.deployed_at m = Some mergedAt
       /\ 1 # 1000000
          < Qabs (Metric.coding_time_hours m + Metric.review_time_hours m
                  + Metric.merge_to_deploy_hours m
                  - Metric.total_lead_time_hours m)
       /\ 1 # 1000000
          < Qabs (RN (RN (Metric.coding_time_hours m + Metric.review_time_hours m)
                      + Metric.merge_to_deploy_hours m)
                  - Metric.total_lead_time_hours m).
Proof.
  split; [split; intros t [= <-]; vm_compute; reflexivity|].
  eexists. exists (-8410494979230064)%Z, 7409125427585223%Z.
  split; [vm_compute; reflexivity|].
  repeat split; try discriminate; vm_compute; reflexivity.
Qed.

Example calculatePRLeadTime_sample :
  exists m,
    calculatePRLeadTime db_releases acme pr7 = Some m
    /\ Metric.deployment_id m = Some 3%Z
    /\ Metric.coding_time_hours m == 6
    /\ Metric.review_time_hours m == 24
    /\ Metric.merge_to_deploy_hours m == 6
    /\ Metric.total_lead_time_hours m == 36
    /\ Metric.commit_to_merge_hours m == 30
    /\ Metric.deployed_at_text m = "1970-01-02T16:00:00.000Z"%string.
Proof. eexists. split; [vm_compute; reflexivity|]. vm_compute. repeat split. Qed.

(** The interval arithmetic of the embedding against the primitive binary64
    operations, on instants of the year 2023, on the far-apart instants
    above and on 24 hours and 18 seconds. *)
Example hours_binary64 :
  calculateHoursDifference 1700000000000%Z 1700003456789%Z
  == Binary64.value
       (Binary64.calculateHoursDifference 1700000000000%float 1700003456789%float)
  /\ calculateHoursDifference (-8410494979230064)%Z 7409125427585223%Z
     == Binary64.value
          (Binary64.calculateHoursDifference
             (-8410494979230064)%float 7409125427585223%float)
  /\ calculateHoursDifference 7409125427585223%Z (-8174890956812550)%Z
     == Binary64.value
          (Binary64.calculateHoursDifference
             7409125427585223%float (-8174890956812550)%float)
  /\ calculateHoursDifference 0%Z 86418000%Z
     == Binary64.value (Binary64.calculateHoursDifference 0%float 86418000%float).
Proof. vm_compute. repeat split; reflexivity. Qed.

(** The decomposition evaluated on primitive binary64 numbers, for instants
    of the year 2023 given in milliseconds. *)
Example phases_sum_binary64 :
  let firstCommitAt := 1700000000000%float in
  let createdAt := 1700003456789%float in
  let mergedAt := 1700099999999%float in
  let deployedAt := 1700123456789%float in
  PrimFloat.ltb
    (PrimFloat.abs
       (Binary64.calculateHoursDifference firstCommitAt createdAt
        + Binary64.calculateHoursDifference createdAt mergedAt
        + Binary64.calculateHoursDifference mergedAt deployedAt
        - Binary64.calculateHoursDifference firstCommitAt deployedAt))
    (1 / 1000000)%float
  = true.
Proof. reflexivity. Qed.

(** The far-apart instants on primitive binary64 numbers: the phases miss
    the total by more than 1e-6 hours. *)
Example phases_sum_binary64_far_apart :
  let firstCommitAt := (-8410494979230064)%float in
  let createdAt := (-8174890956812550)%float in
  let mergedAt := 7409125427585223%float in
  PrimFloat.ltb
    (1 / 1000000)%float
    (PrimFloat.abs
       (Binary64.calculateHoursDifference firstCommitAt createdAt
        + Binary64.calculateHoursDifference createdAt mergedAt
        + 0
        - Binary64.calculateHoursDifference firstCommitAt mergedAt))
  = true.
Proof. reflexivity. Qed.

(** C3. A change with first commit and merge instants for which the matcher
    finds no deployment still gets a metric: deployed at the merge instant,
    zero merge-to-deploy hours, and a total lead time equal to the
    commit-to-merge hours, i.e. the hours from first commit to merge. *)
Theorem merge_stands_in_for_deployment
    (db : Store) (repositoryId : string) (pr : PR.t)
    (firstCommitAt mergedAt : Timestamp) :
  PR.first_commit_at pr = Some firstCommitAt ->
  PR.merged_at pr = Some mergedAt ->
  findDeploymentForPR db repositoryId pr = None ->
  exists m,
    calculatePRLeadTime db repositoryId pr = Some m
    /\ Metric.merged_at m = mergedAt
    /\ Metric.deployed_at m = Some mergedAt
    /\ Metric.merge_to_deploy_hours m = 0
    /\ Metric.total_lead_time_hours m = Metric.commit_to_merge_hours m
    /\ Metric.total_lead_time_hours m
       = calculateHoursDifference firstCommitAt mergedAt.
Proof.
  intros Hf Hm Hnone. unfold calculatePRLeadTime.
  rewrite Hf, Hm, Hnone. eexists. split; [reflexivity|].
  cbn [Metric.merged_at Metric.deployed_at Metric.merge_to_deploy_hours
       Metric.total_lead_time_hours Metric.commit_to_merge_hours].
  repeat split; reflexivity.
Qed.

Lemma merge_stands_in_for_deployment_witness :
  exists m,
    calculatePRLeadTime db_untracked acme pr7 = Some m
    /\ Metric.merged_at m = h 34
    /\ Metric.deployed_at m = Some (h 34)
    /\ Metric.merge_to_deploy_hours m = 0
    /\ Metric.total_lead_time_hours m = Metric.commit_to_merge_hours m
    /\ Metric.total_lead_time_hours m = calculateHoursDifference (h 4) (h 34).
Proof.
  apply (merge_stands_in_for_deployment db_untracked acme pr7 (h 4) (h 34));
    reflexivity.
Defined.

(** The metric of a change, field by field. *)
Lemma calculatePRLeadTime_fields db repositoryId pr m :
  calculatePRLeadTime db repositoryId pr = Some m ->
  exists firstCommitAt mergedAt,
    PR.first_commit_at pr = Some firstCommitAt
    /\ PR.merged_at pr = Some mergedAt
    /\ Metric.first_commit_at m = firstCommitAt
    /\ Metric.merged_at m = mergedAt
    /\ Metric.deployed_at m = Some (deployedAt_or_merge db repositoryId pr mergedAt)
    /\ Metric.coding_time_hours m
       = Math_max0 (calculateHoursDifference firstCommitAt (PR.created_at_pr pr))
    /\ Metric.review_time_hours m
       = Math_max0 (calculateHoursDifference (PR.created_at_pr pr) mergedAt)
    /\ Metric.deployment_time_hours m = Metric.merge_to_deploy_hours m
    /\ Metric.merge_to_deploy_hours m
       = match findDeploymentForPR db repositoryId pr with
         | Some d => calculateHoursDifference mergedAt (Dep.deployment_date d)
         | None => 0
         end
    /\ Metric.total_lead_time_hours m
       = calculateHoursDifference firstCommitAt
           (deployedAt_or_merge db repositoryId pr mergedAt)
    /\ Metric.commit_to_merge_hours m
       = calculateHoursDifference firstCommitAt mergedAt.
Proof.
  unfold calculatePRLeadTime, deployedAt_or_merge.
  destruct (PR.first_commit_at pr) as [f|]; [|discriminate].
  destruct (PR.merged_at pr) as [mg|]; [|discriminate].
  exists f, mg.
  destruct (findDeploymentForPR db repositoryId pr) as [d|];
    injection H as <-;
    cbn [Metric.first_commit_at Metric.merged_at Metric.deployed_at
         Metric.coding_time_hours Metric.review_time_hours
         Metric.deployment_time_hours Metric.merge_to_deploy_hours
         Metric.total_lead_time_hours Metric.commit_to_merge_hours];
    repeat split; reflexivity.
Qed.

(** The merge-to-deploy hours are those from the merge to the deployment
    instant of the metric, also when the merge stands in for the
    deployment. *)
Lemma merge_to_deploy_as_hours db repositoryId pr mergedAt :
  match findDeploymentForPR db repositoryId pr with
  | Some d => calculateHoursDifference mergedAt (Dep.deployment_date d)
  | None => 0
  end
  = calculateHoursDifference mergedAt (deployedAt_or_merge db repositoryId pr mergedAt).
Proof.
  unfold deployedAt_or_merge.
  destruct (findDeploymentForPR db repositoryId pr); [reflexivity|].
  symmetry. apply hours_same.
Qed.

(** C4, as the code has it.  Coding and review hours are clamped at zero, so
    a pair of timestamps in the wrong order gives 0.  No other field is
    clamped: deployment hours and merge-to-deploy hours are one value, the
    hours from the merge to the deployment instant of the metric (0 when
    the merge stands in for the deployment); total lead time and
    commit-to-merge hours are the hours from the first commit to the
    deployment and to the merge; each of these is negative exactly when
    its end is the earlier instant. *)
Theorem durations_clamped_or_signed
    (db : Store) (repositoryId : string) (pr : PR.t) (m : Metric.t) :
  calculatePRLeadTime db repositoryId pr = Some m ->
  (0 <= Metric.coding_time_hours m
   /\ ((PR.created_at_pr pr <= Metric.first_commit_at m)%Z ->
       Metric.coding_time_hours m == 0))
  /\ (0 <= Metric.review_time_hours m
      /\ ((Metric.merged_at m <= PR.created_at_pr pr)%Z ->
          Metric.review_time_hours m == 0))
  /\ Metric.deployment_time_hours m = Metric.merge_to_deploy_hours m
  /\ exists deployedAt,
       Metric.deployed_at m = Some deployedAt
       /\ Metric.merge_to_deploy_hours m
          = calculateHoursDifference (Metric.merged_at m) deployedAt
       /\ (Metric.merge_to_deploy_hours m < 0
           <-> (deployedAt < Metric.merged_at m)%Z)
       /\ Metric.total_lead_time_hours m
          = calculateHoursDifference (Metric.first_commit_at m) deployedAt
       /\ (Metric.total_lead_time_hours m < 0
           <-> (deployedAt < Metric.first_commit_at m)%Z)
       /\ Metric.commit_to_merge_hours m
          = calculateHoursDifference (Metric.first_commit_at m) (Metric.merged_at m)
       /\ (Metric.commit_to_merge_hours m < 0
           <-> (Metric.merged_at m < Metric.first_commit_at m)%Z).
Proof.
  intros H.
  destruct (calculatePRLeadTime_fields _ _ _ _ H)
    as (f & mg & Hf & Hm & -> & -> & Hd & -> & -> & Hdm & Hmd & -> & ->).
  rewrite merge_to_deploy_as_hours in Hmd.
  assert (Hzero : forall a b : Timestamp,
             (b <= a)%Z -> Math_max0 (calculateHoursDifference a b) == 0).
  { intros a b Hab. apply Math_max0_nonpos.
    destruct (Z.eq_dec a b) as [->|Hne].
    - rewrite hours_same. apply Qle_refl.
    - apply Qlt_le_weak, hours_neg. lia. }
  split; [split; [apply Math_max0_nonneg|apply Hzero]|].
  split; [split; [apply Math_max0_nonneg|apply Hzero]|].
  split; [exact Hdm|].
  exists (deployedAt_or_merge db repositoryId pr mg).
  rewrite Hmd.
  repeat split; try assumption; try apply hours_negative_iff.
Qed.

Lemma durations_clamped_or_signed_witness :
  exists m, calculatePRLeadTime db_releases acme pr8_rebased = Some m
            /\ Metric.coding_time_hours m == 0
            /\ Metric.deployment_time_hours m = Metric.merge_to_deploy_hours m
            /\ Metric.commit_to_merge_hours m < 0.
Proof.
  eexists. split; [vm_compute; reflexivity|].
  match goal with
  | |- Metric.coding_time_hours ?m == 0 /\ _ =>
      assert (E : calculatePRLeadTime db_releases acme pr8_rebased = Some m)
        by (vm_compute; reflexivity);
      destruct (durations_clamped_or_signed db_releases acme pr8_rebased m E)
        as ((_ & Hc) & _ & Hdm & dp & _ & _ & _ & _ & _ & _ & Hneg)
  end.
  split; [apply Hc; vm_compute; discriminate|].
  split; [exact Hdm|].
  apply Hneg. reflexivity.
Defined.

(** C4 as stated fails: the change whose first commit is dated after its
    merge gets negative commit-to-merge and total hours. *)
Lemma durations_not_all_clamped :
  exists m, calculatePRLeadTime db_untracked acme pr8_rebased = Some m
            /\ Metric.commit_to_merge_hours m < 0
            /\ Metric.total_lead_time_hours m < 0
            /\ ~ AllDurationsNonneg m.
Proof.
  eexists. split; [vm_compute; reflexivity|].
  split; [vm_compute; reflexivity|]. split; [vm_compute; reflexivity|].
  intros (_ & _ & _ & Ht & _). vm_compute in Ht. apply Ht. reflexivity.
Qed.

(** C10. In every metric [calculatePRLeadTime] produces, deployment hours
    and merge-to-deploy hours are the same value, with or without a matched
    deployment. *)
Theorem deployment_time_is_merge_to_deploy
    (db : Store) (repositoryId : string) (pr : PR.t) (m : Metric.t) :
  calculatePRLeadTime db repositoryId pr = Some m ->
  Metric.deployment_time_hours m = Metric.merge_to_deploy_hours m.
Proof.
  intros H.
  destruct (calculatePRLeadTime_fields _ _ _ _ H)
    as (f & mg & _ & _ & _ & _ & _ & _ & _ & E & _).
  exact E.
Qed.

Lemma deployment_time_is_merge_to_deploy_witness :
  exists m, calculatePRLeadTime db_releases acme pr7 = Some m
            /\ Metric.deployment_time_hours m = Metric.merge_to_deploy_hours m
            /\ Metric.merge_to_deploy_hours m == 6.
Proof.
  eexists. split; [vm_compute; reflexivity|].
  split; [|vm_compute; reflexivity].
  apply (deployment_time_is_merge_to_deploy db_releases acme pr7).
  vm_compute. reflexivity.
Defined.

Lemma calculatePRLeadTime_total db repositoryId pr f mg :
  PR.first_commit_at pr = Some f ->
  PR.merged_at pr = Some mg ->
  exists m, calculatePRLeadTime db repositoryId pr = Some m.
Proof.
  intros Hf Hm. unfold calculatePRLeadTime. rewrite Hf, Hm.
  destruct (findDeploymentForPR db repositoryId pr); eexists; reflexivity.
Qed.

(** C7. [calculatePRLeadTime] returns nothing exactly when the first-commit
    or the merge instant of the change is absent, and a metric when both are
    present; on nothing, the loop of [calculateLeadTime] stores no row and
    reports no metric for the change. *)
Theorem metric_skipped_iff_timestamp_missing
    (db : Store) (repositoryId : string) (pr : PR.t) :
  (calculatePRLeadTime db repositoryId pr = None
   <-> PR.first_commit_at pr = None \/ PR.merged_at pr = None)
  /\ ((exists m, calculatePRLeadTime db repositoryId pr = Some m)
      <-> (exists f mg, PR.first_commit_at pr = Some f
                        /\ PR.merged_at pr = Some mg))
  /\ forall leadTimeMetrics,
       PR.first_commit_at pr = None \/ PR.merged_at pr = None ->
       calculateLeadTime_step repositoryId (db, leadTimeMetrics) pr
       = (db, leadTimeMetrics).
Proof.
  unfold calculateLeadTime_step.
  destruct (PR.first_commit_at pr) as [f|] eqn:Hf;
    [destruct (PR.merged_at pr) as [mg|] eqn:Hm|].
  - destruct (calculatePRLeadTime_total db repositoryId pr f mg Hf Hm) as [m Hs].
    rewrite Hs. split; [|split].
    + split; [discriminate|]. intros [[=]|[=]].
    + split; [intros _; now exists f, mg|]. intros _. now exists m.
    + intros acc [[=]|[=]].
  - assert (Hn : calculatePRLeadTime db repositoryId pr = None)
      by (unfold calculatePRLeadTime; now rewrite Hf, Hm).
    rewrite Hn. split; [|split].
    + split; [now right|reflexivity].
    + split; [intros [m [=]]|intros (? & ? & _ & [=])].
    + reflexivity.
  - assert (Hn : calculatePRLeadTime db repositoryId pr = None)
      by (unfold calculatePRLeadTime; now rewrite Hf).
    rewrite Hn. split; [|split].
    + split; [now left|reflexivity].
    + split; [intros [m [=]]|intros (? & ? & [=] & _)].
    + reflexivity.
Qed.

Lemma metric_skipped_iff_timestamp_missing_witness :
  calculatePRLeadTime db_releases acme pr9_no_commit = None
  /\ calculateLeadTime_step acme (db_releases, []) pr9_no_commit
     = (db_releases, []).
Proof.
  destruct (metric_skipped_iff_timestamp_missing db_releases acme pr9_no_commit)
    as (Hnone & _ & Hstep).
  split.
  - apply Hnone. left. reflexivity.
  - apply Hstep. left. reflexivity.
Defined.

(** One step of the loop stores one row when the change has both instants,
    and none otherwise. *)
Lemma calculateLeadTime_step_rows repositoryId db acc pr :
  let '(db', acc') := calculateLeadTime_step repositoryId (db, acc) pr in
  deployments db' = deployments db
  /\ List.length (lead_time_metrics db')
     = (List.length (lead_time_metrics db)
        + match PR.first_commit_at pr, PR.merged_at pr with
          | Some _, Some _ => 1
          | _, _ => 0
          end)%nat.
Proof.
  unfold calculateLeadTime_step, calculatePRLeadTime.
  destruct (PR.first_commit_at pr), (PR.merged_at pr);
    try destruct (findDeploymentForPR db repositoryId pr); simpl;
    rewrite ?length_app; simpl; split; (reflexivity || lia).
Qed.

(** Over the whole loop, the number of rows stored is the number of listed
    changes that have both instants. *)
Lemma calculateLeadTime_rows repositoryId prs : forall db acc,
  List.length (lead_time_metrics
                 (fst (fold_left (calculateLeadTime_step repositoryId) prs (db, acc))))
  = (List.length (lead_time_metrics db)
     + List.length
         (filter (fun pr => match PR.first_commit_at pr, PR.merged_at pr with
                            | Some _, Some _ => true
                            | _, _ => false
                            end) prs))%nat.
Proof.
  induction prs as [|pr prs IH]; intros db acc; [simpl; lia|].
  cbn [fold_left filter].
  pose proof (calculateLeadTime_step_rows repositoryId db acc pr) as Hstep.
  destruct (calculateLeadTime_step repositoryId (db, acc) pr) as [db' acc'].
  destruct Hstep as [_ Hlen]. rewrite IH, Hlen.
  destruct (PR.first_commit_at pr), (PR.merged_at pr); simpl; lia.
Qed.

Example calculateLeadTime_sample :
  let '(db', metrics) := calculateLeadTime db_releases acme (h 60) 30 in
  map Metric.pr_id (lead_time_metrics db') = [1%Z; 2%Z]
  /\ map Metric.pr_id metrics = [1%Z; 2%Z].
Proof. vm_compute. split; reflexivity. Qed.

(** ** Classifier *)

Lemma days_le_iff (hours : Q) (n : Q) :
  Qle_bool (hours / 24) n = true <-> hours <= n * 24.
Proof.
  rewrite Qle_bool_iff. split; intros H.
  - setoid_replace hours with (hours / 24 * 24) by field. 
    apply Qmult_le_compat_r; [exact H|discriminate].
  - apply Qle_shift_div_r; [reflexivity|exact H].
Qed.

Lemma days_gt_iff (hours : Q) (n : Q) :
  Qle_bool (hours / 24) n = false <-> n * 24 < hours.
Proof.
  rewrite <- not_true_iff_false, days_le_iff. split.
  - apply Qnot_le_lt.
  - intros H1 H2. lra.
Qed.

Ltac case_bands hours :=
  destruct (Qle_bool (hours / 24) 1) eqn:E1;
  [| destruct (Qle_bool (hours / 24) 7) eqn:E7;
     [| destruct (Qle_bool (hours / 24) 30) eqn:E30] ].

(** C5. The classifier sends an average-hours value to exactly one of four
    bands with inclusive upper bounds: Elite up to 24 hours, High above 24
    and up to 168, Medium above 168 and up to 720, Low above 720; so 24 is
    Elite, 24.0001 High, 168 High, 168.0001 Medium, 720 Medium and 720.0001
    Low. *)
Theorem categorizeLeadTime_bands (hours : Q) :
  In (Category.category (categorizeLeadTime hours))
     ["Elite"; "High"; "Medium"; "Low"]%string
  /\ (Category.category (categorizeLeadTime hours) = "Elite"%string
      <-> hours <= 24)
  /\ (Category.category (categorizeLeadTime hours) = "High"%string
      <-> 24 < hours /\ hours <= 168)
  /\ (Category.category (categorizeLeadTime hours) = "Medium"%string
      <-> 168 < hours /\ hours <= 720)
  /\ (Category.category (categorizeLeadTime hours) = "Low"%string
      <-> 720 < hours)
  /\ Category.category (categorizeLeadTime 24) = "Elite"%string
  /\ Category.category (categorizeLeadTime (240001 # 10000)) = "High"%string
  /\ Category.category (categorizeLeadTime 168) = "High"%string
  /\ Category.category (categorizeLeadTime (1680001 # 10000)) = "Medium"%string
  /\ Category.category (categorizeLeadTime 720) = "Medium"%string
  /\ Category.category (categorizeLeadTime (7200001 # 10000)) = "Low"%string.
Proof.
  split; [unfold categorizeLeadTime; cbv zeta; case_bands hours; simpl; tauto|].
  split; [|split; [|split; [|split; [|repeat split; reflexivity]]]];
    unfold categorizeLeadTime; cbv zeta; case_bands hours;
    rewrite ?days_le_iff, ?days_gt_iff in *; cbn [Category.category];
    (split; [try discriminate; intros _; try split; lra
            | intros H; try reflexivity; exfalso; lra]).
Qed.

(** The six boundary inputs on binary64 numbers; 24.0001, 168.0001 and
    720.0001 are the doubles nearest to these decimals.  The first double
    above 24 hours is already classified High. *)
Example categorizeLeadTime_bands_binary64 :
  map Binary64.categorizeLeadTime
      [24; 240001 / 10000; 168; 1680001 / 10000; 720; 7200001 / 10000;
       PrimFloat.next_up 24]%float
  = ["Elite"; "High"; "High"; "Medium"; "Medium"; "Low"; "High"]%string.
Proof. reflexivity. Qed.

(** ** ORDER BY *)

Section OrderByFacts.
Context {A : Type} (le : A -> A -> bool).

Lemma insert_by_perm (x : A) (l : list A) :
  Permutation (insert_by le x l) (x :: l).
Proof.
  induction l as [|y l IH]; simpl; [reflexivity|].
  destruct (le x y); [reflexivity|].
  rewrite IH. apply perm_swap.
Qed.

Lemma order_by_perm (l : list A) : Permutation (order_by le l) l.
Proof.
  induction l as [|x l IH]; simpl; [reflexivity|].
  rewrite insert_by_perm. now constructor.
Qed.

Lemma order_by_In (x : A) (l : list A) : In x (order_by le l) <-> In x l.
Proof.
  split; apply Permutation_in;
    [apply order_by_perm | symmetry; apply order_by_perm].
Qed.

Lemma order_by_same_key (l : list A) :
  (forall a b, In a l -> In b l -> le a b = true) -> order_by le l = l.
Proof.
  induction l as [|x l IH]; intros Hall; simpl; [reflexivity|].
  rewrite IH by (intros a b Ha Hb; apply Hall; now right).
  destruct l as [|y l]; simpl; [reflexivity|].
  rewrite Hall; [reflexivity|now left|right; now left].
Qed.

Hypothesis le_total : forall a b, le a b = true \/ le b a = true.

Lemma insert_by_sorted (x : A) (l : list A) :
  Sorted (fun a b => le a b = true) l ->
  Sorted (fun a b => le a b = true) (insert_by le x l).
Proof.
  induction 1 as [|y l Hs IH Hhd]; simpl; [repeat constructor|].
  destruct (le x y) eqn:E.
  - constructor; [now constructor|now constructor].
  - constructor; [exact IH|].
    destruct l as [|z l]; simpl.
    + constructor. destruct (le_total x y); congruence.
    + destruct (le x z).
      * constructor. destruct (le_total x y); congruence.
      * constructor. now inversion Hhd.
Qed.

Lemma order_by_sorted (l : list A) :
  Sorted (fun a b => le a b = true) (order_by le l).
Proof.
  induction l as [|x l IH]; simpl; [constructor|now apply insert_by_sorted].
Qed.

End OrderByFacts.

Lemma sorted_keys {A : Type} (key : A -> Q) (l : list A) :
  StronglySorted (fun a b => key a <= key b) l ->
  StronglySorted Qle (map key l).
Proof.
  induction 1 as [|a l _ IH Hall]; simpl; constructor; [exact IH|].
  rewrite Forall_map. exact Hall.
Qed.

Lemma Qle_bool_total (x y : Q) : Qle_bool x y = true \/ Qle_bool y x = true.
Proof.
  rewrite !Qle_bool_iff. destruct (Qlt_le_dec x y); [left|right]; lra.
Qed.

Lemma sorted_by_key {A : Type} (key : A -> Q) (l : list A) :
  StronglySorted (fun a b => key a <= key b)
    (order_by (fun a b => Qle_bool (key a) (key b)) l).
Proof.
  apply Sorted_StronglySorted.
  - intros a b c Hab Hbc. lra.
  - eapply Sorted_ind with
      (P := fun l => Sorted (fun a b => key a <= key b) l);
      [constructor | | apply order_by_sorted].
    + intros a l' _ IH Hhd. constructor; [exact IH|].
      destruct Hhd; constructor. now apply Qle_bool_iff.
    + intros a b. apply Qle_bool_total.
Qed.

(** ** Aggregator *)

Lemma metrics_in_window_In db repositoryId now days m :
  In m (metrics_in_window db repositoryId now days)
  <-> In m (lead_time_metrics db)
      /\ String.leb (dateFilter now days) (Metric.first_commit_at_text m) = true
      /\ repo_filter repositoryId (Metric.repository_id m) = true.
Proof.
  unfold metrics_in_window. rewrite filter_In, andb_true_iff.
  reflexivity.
Qed.

Lemma repo_filter_some (r rid : string) :
  r <> ""%string -> (repo_filter (Some r) rid = true <-> rid = r).
Proof.
  intros Hr. unfold repo_filter.
  destruct (String.eqb r "") eqn:E.
  - apply String.eqb_eq in E. contradiction.
  - apply String.eqb_eq.
Qed.

Lemma group_of_In rid rows m :
  In m (group_of rid rows) <-> In m rows /\ Metric.repository_id m = rid.
Proof. unfold group_of. rewrite filter_In, String.eqb_eq. reflexivity. Qed.

Lemma group_of_all rid rows :
  (forall m, In m rows -> Metric.repository_id m = rid) ->
  group_of rid rows = rows.
Proof.
  intros Hall. unfold group_of. induction rows as [|m l IH]; simpl; [reflexivity|].
  rewrite (Hall m) by now left. rewrite String.eqb_refl.
  f_equal. apply IH. intros m' Hm'. apply Hall. now right.
Qed.

Lemma group_keys_In rid rows :
  In rid (group_keys rows) <-> exists m, In m rows /\ Metric.repository_id m = rid.
Proof.
  unfold group_keys. rewrite order_by_In, nodup_In, in_map_iff.
  split; intros (m & H1 & H2); exists m; tauto.
Qed.

Lemma group_of_window db repositoryId now days rid :
  repo_filter repositoryId rid = true ->
  group_of rid (metrics_in_window db repositoryId now days)
  = group_of rid (metrics_in_window db None now days).
Proof.
  intros Hrid. unfold metrics_in_window, group_of.
  generalize (dateFilter now days). intros cutoff.
  induction (lead_time_metrics db) as [|m l IH]; simpl; [reflexivity|].
  destruct (String.leb cutoff (Metric.first_commit_at_text m));
    simpl; [|exact IH].
  destruct (repo_filter repositoryId (Metric.repository_id m)) eqn:F; simpl.
  - now rewrite IH.
  - destruct (String.eqb (Metric.repository_id m) rid) eqn:E; [|exact IH].
    apply String.eqb_eq in E. congruence.
Qed.

Lemma getLeadTimeStats_In db repositoryId now days s :
  In s (getLeadTimeStats db repositoryId now days) ->
  In (Stats.repository_id s)
     (group_keys (metrics_in_window db repositoryId now days))
  /\ s = summarize (Stats.repository_id s)
           (group_of (Stats.repository_id s)
                     (metrics_in_window db repositoryId now days)).
Proof.
  unfold getLeadTimeStats. rewrite order_by_In, in_map_iff.
  intros (rid & <- & Hin). simpl. now split.
Qed.




(** ** Insights *)

(** Without a metric of the repository that the date test selects,
    [generateInsights] returns the object without a category. *)
Lemma generateInsights_nothing_selected db repositoryId now days :
  repositoryId <> ""%string ->
  ~ HasSelectedMetric db repositoryId now days ->
  generateInsights db repositoryId now days
  = NoData "No lead time data available"
           ["Set up deployment tracking"%string;
            "Ensure PRs are properly linked to deployments"%string].
Proof.
  intros Hr Hnone. unfold generateInsights.
  assert (E : metrics_in_window db (Some repositoryId) now days = []).
  { destruct (metrics_in_window db (Some repositoryId) now days) as [|m l] eqn:E;
      [reflexivity|].
    exfalso. apply Hnone. exists m.
    assert (Hm : In m (metrics_in_window db (Some repositoryId) now days))
      by (rewrite E; now left).
    apply metrics_in_window_In in Hm as (Hin & Hwin & Hf).
    apply repo_filter_some in Hf; tauto. }
  unfold getLeadTimeStats. rewrite E. reflexivity.
Qed.

(** C9 fails on the day the window starts.  The cutoff of the query is
    written with a space after the day and the stored date with a [T], so a
    first commit on that day is selected whatever its time: the repository
    whose only metric lies five hours before the window gets a report with
    a category. *)
Theorem generateInsights_reports_before_window :
  Forall Metric_well_dated (lead_time_metrics db_cutoff_day)
  /\ window_start (h 200) 7 = h 32
  /\ Forall (fun m => Metric.first_commit_at m = h 27)
            (lead_time_metrics db_cutoff_day)
  /\ ~ HasMetricInWindow db_cutoff_day "gh-acme-a" (h 200) 7
  /\ dateFilter (h 200) 7 = "1970-01-02 08:00:00"%string
  /\ map Metric.first_commit_at_text (lead_time_metrics db_cutoff_day)
     = ["1970-01-02T03:00:00Z"%string]
  /\ exists avgLeadTimeDays percentiles recommendations,
       generateInsights db_cutoff_day "gh-acme-a" (h 200) 7
       = Report "Elite" avgLeadTimeDays percentiles recommendations.
Proof.
  split; [repeat constructor; vm_compute; reflexivity|].
  split; [reflexivity|].
  split; [repeat constructor|].
  split.
  - intros (m & Hin & _ & Hwin). destruct Hin as [<-|[]].
    vm_compute in Hwin. apply Hwin. reflexivity.
  - split; [vm_compute; reflexivity|]. split; [vm_compute; reflexivity|].
    do 3 eexists. vm_compute. reflexivity.
Qed.

(** ** Percentiles *)

Lemma COUNT_snoc {A} (l : list A) (x : A) : COUNT (l ++ [x]) = (COUNT l + 1)%Z.
Proof. unfold COUNT. rewrite length_app. simpl. lia. Qed.

Lemma number_rows_single rid all rest : forall seen,
  (forall m, In m all -> Metric.repository_id m = rid) ->
  (forall m, In m seen -> Metric.repository_id m = rid) ->
  (forall m, In m rest -> Metric.repository_id m = rid) ->
  number_rows all seen rest = ranked rid (COUNT all) (COUNT seen + 1) rest.
Proof.
  induction rest as [|m rest IH]; intros seen Hall Hseen Hrest; simpl;
    [reflexivity|].
  assert (Hm : Metric.repository_id m = rid) by (apply Hrest; now left).
  rewrite Hm, !group_of_all by assumption.
  f_equal. rewrite IH; try assumption.
  - now rewrite COUNT_snoc.
  - intros m' Hin. apply in_app_or in Hin as [Hin|[<-|[]]]; auto.
  - intros m' Hin. apply Hrest. now right.
Qed.

Lemma ranked_repository rid n rows : forall k row,
  In row (ranked rid n k rows) -> Pct.repository_id row = rid.
Proof.
  induction rows as [|m rows IH]; simpl; intros k row; [intros []|].
  intros [<-|Hin]; [reflexivity|]. eapply IH; eassumption.
Qed.

Lemma ranked_totals rid n rows : forall k,
  map Pct.total_lead_time_hours (ranked rid n k rows)
  = map Metric.total_lead_time_hours rows.
Proof.
  induction rows as [|m rows IH]; simpl; intros k; [reflexivity|].
  now rewrite IH.
Qed.

Lemma ranked_nth rid n rows : forall k i row,
  nth_error (ranked rid n k rows) i = Some row ->
  Pct.percentile row = inject_Z (k + Z.of_nat i) * 100 / inject_Z n.
Proof.
  induction rows as [|m rows IH]; intros k i row; destruct i as [|i]; simpl;
    try discriminate.
  - intros [= <-]. simpl. now rewrite Z.add_0_r.
  - intros H. rewrite (IH _ _ _ H). do 3 f_equal. lia.
Qed.

(** With the filter set to one repository, the query returns the nearest-rank
    table of the repository's metrics in ascending order of total lead
    time. *)
Lemma getLeadTimePercentiles_single db repositoryId now days :
  repositoryId <> ""%string ->
  DatabaseManager.getLeadTimePercentiles db (Some repositoryId) now days
  = ranked repositoryId
      (COUNT (metrics_in_window db (Some repositoryId) now days)) 1
      (order_by (fun a b => Qle_bool (Metric.total_lead_time_hours a)
                                     (Metric.total_lead_time_hours b))
                (metrics_in_window db (Some repositoryId) now days)).
Proof.
  intros Hr. unfold DatabaseManager.getLeadTimePercentiles.
  set (rows := metrics_in_window db (Some repositoryId) now days).
  assert (Hrows : forall m, In m rows -> Metric.repository_id m = repositoryId).
  { intros m Hm. apply metrics_in_window_In in Hm as (_ & _ & Hf).
    now apply repo_filter_some in Hf. }
  rewrite (number_rows_single repositoryId); try assumption.
  - apply order_by_same_key. intros a b Ha Hb.
    rewrite (ranked_repository _ _ _ _ _ Ha), (ranked_repository _ _ _ _ _ Hb).
    destruct (String.leb_total repositoryId repositoryId); assumption.
  - intros m [].
  - intros m Hm. apply Hrows. now apply order_by_In in Hm.
Qed.

Lemma rank_below_100 (k n : Z) :
  (0 < k < n)%Z -> Qle_bool 100 (inject_Z k * 100 / inject_Z n) = false.
Proof.
  intros [Hk Hkn]. apply not_true_iff_false. rewrite Qle_bool_iff. intros H.
  assert (Hn : 0 < inject_Z n) by (rewrite <- (Zlt_Qlt 0); lia).
  assert (Hlt : inject_Z k < inject_Z n) by now rewrite <- Zlt_Qlt.
  assert (H' : inject_Z k * 100 / inject_Z n < 100).
  { apply Qlt_shift_div_r; [exact Hn|]. lra. }
  lra.
Qed.

Lemma rank_last_is_100 (n : Z) :
  (0 < n)%Z -> Qle_bool 100 (inject_Z n * 100 / inject_Z n) = true.
Proof.
  intros Hn. apply Qle_bool_iff.
  assert (Hq : 0 < inject_Z n) by (rewrite <- (Zlt_Qlt 0); lia).
  apply Qle_shift_div_l; [exact Hq|]. lra.
Qed.

Lemma findPercentile_100_ranked rid n rows : forall k,
  rows <> [] ->
  (0 < k)%Z ->
  (k + Z.of_nat (List.length rows) - 1 = n)%Z ->
  StronglySorted Qle (map Metric.total_lead_time_hours rows) ->
  exists v,
    findPercentile (ranked rid n k rows) 100 = Some v
    /\ In v (map Metric.total_lead_time_hours rows)
    /\ forall x, In x (map Metric.total_lead_time_hours rows) -> x <= v.
Proof.
  induction rows as [|m rows IH]; intros k Hne Hk Hlen Hs; [contradiction|].
  destruct rows as [|m' rows].
  - simpl in Hlen. assert (k = n) by lia. subst k.
    exists (Metric.total_lead_time_hours m).
    unfold findPercentile. simpl. rewrite rank_last_is_100 by assumption.
    simpl. split; [reflexivity|]. split; [now left|].
    intros x [<-|[]]. apply Qle_refl.
  - simpl map in Hs. apply StronglySorted_inv in Hs as [Htail Hhead].
    simpl List.length in Hlen.
    destruct (IH (k + 1)%Z) as (v & Hfind & Hin & Hmax);
      [discriminate | lia | simpl List.length; lia | assumption |].
    exists v. split; [|split].
    + unfold findPercentile in *. simpl ranked. simpl find.
      rewrite rank_below_100 by lia.
      exact Hfind.
    + now right.
    + intros x [<-|Hx]; [|now apply Hmax].
      rewrite Forall_forall in Hhead. now apply Hhead.
Qed.

Lemma findPercentile_first (data : list Pct.t) (p v : Q) :
  findPercentile data p = Some v ->
  exists i row,
    nth_error data i = Some row
    /\ v = Pct.total_lead_time_hours row
    /\ p <= Pct.percentile row
    /\ forall j row', (j < i)%nat -> nth_error data j = Some row' ->
                      Pct.percentile row' < p.
Proof.
  unfold findPercentile. induction data as [|d data IH]; simpl; [discriminate|].
  destruct (Qle_bool p (Pct.percentile d)) eqn:E.
  - intros [= <-]. exists 0%nat, d. split; [reflexivity|]. split; [reflexivity|].
    split; [now apply Qle_bool_iff|]. intros j row' Hj. lia.
  - intros H. destruct (IH H) as (i & row & Hnth & Hv & Hp & Hfirst).
    exists (S i), row. split; [exact Hnth|]. split; [exact Hv|].
    split; [exact Hp|]. intros [|j] row' Hj; simpl.
    + intros [= <-]. apply Qnot_le_lt. intros Hle.
      apply Qle_bool_iff in Hle. congruence.
    + apply Hfirst. lia.
Qed.

(** C6. For a repository with at least one lead-time value in the window,
    the percentile rows hold the values in ascending order, the row at
    position [i] counted from 1 has rank [i * 100 / n] for [n] values, the
    percentile for a target is the value of the first row whose rank reaches
    the target, and at target 100 it is the maximum of the values. *)
Theorem percentile_100_is_max
    (db : Store) (repositoryId : string) (now : Timestamp) (days : Z) :
  repositoryId <> ""%string ->
  metrics_in_window db (Some repositoryId) now days <> [] ->
  let values := map Metric.total_lead_time_hours
                    (metrics_in_window db (Some repositoryId) now days) in
  let data :=
    DatabaseManager.getLeadTimePercentiles db (Some repositoryId) now days in
  Permutation (map Pct.total_lead_time_hours data) values
  /\ StronglySorted Qle (map Pct.total_lead_time_hours data)
  /\ (forall i row, nth_error data i = Some row ->
        Pct.percentile row
        = inject_Z (1 + Z.of_nat i) * 100 / inject_Z (COUNT values))
  /\ (forall p v, findPercentile data p = Some v ->
        exists i row,
          nth_error data i = Some row
          /\ v = Pct.total_lead_time_hours row
          /\ p <= Pct.percentile row
          /\ forall j row', (j < i)%nat -> nth_error data j = Some row' ->
                            Pct.percentile row' < p)
  /\ exists v, findPercentile data 100 = Some v
               /\ In v values
               /\ forall x, In x values -> x <= v.
Proof.
  intros Hr Hne values data. subst values data.
  rewrite (getLeadTimePercentiles_single db repositoryId now days Hr).
  set (rows := metrics_in_window db (Some repositoryId) now days) in *.
  set (by_total := order_by _ rows).
  assert (Hperm : Permutation (map Metric.total_lead_time_hours by_total)
                              (map Metric.total_lead_time_hours rows))
    by apply Permutation_map, order_by_perm.
  assert (Hsorted : StronglySorted Qle (map Metric.total_lead_time_hours by_total)).
  { apply sorted_keys, sorted_by_key. }
  rewrite ranked_totals.
  split; [exact Hperm|]. split; [exact Hsorted|].
  split; [|split].
  - intros i row Hnth. rewrite (ranked_nth _ _ _ _ _ _ Hnth).
    unfold COUNT. now rewrite length_map.
  - apply findPercentile_first.
  - destruct (findPercentile_100_ranked repositoryId (COUNT rows) by_total 1)
      as (v & Hfind & Hin & Hmax).
    + intros E. apply Hne. apply Permutation_nil.
      rewrite <- E. apply order_by_perm.
    + lia.
    + unfold COUNT. subst by_total.
      rewrite (Permutation_length (order_by_perm _ rows)). lia.
    + exact Hsorted.
    + exists v. split; [exact Hfind|]. split.
      * eapply Permutation_in; eassumption.
      * intros x Hx. apply Hmax. eapply Permutation_in; [symmetry|]; eassumption.
Qed.

Lemma percentile_100_is_max_witness :
  exists v,
    findPercentile
      (DatabaseManager.getLeadTimePercentiles db_three_repos
         (Some "gh-acme-a"%string) (h 200) 7) 100 = Some v
    /\ In v [200; 100; 20]
    /\ forall x, In x [200; 100; 20] -> x <= v.
Proof.
  apply (percentile_100_is_max db_three_repos "gh-acme-a" (h 200) 7);
    [discriminate | vm_compute; discriminate].
Defined.

Example percentiles_sample :
  getLeadTimePercentiles db_three_repos "gh-acme-a" (h 200) 7
  = {| p50 := Some 100; p75 := Some 200; p90 := Some 200; p95 := Some 200 |}.
Proof. vm_compute. reflexivity. Qed.

(** * Further properties of the lead-time computation *)

(** ** The metric of one change *)

Lemma Math_max0_ge (x : Q) : x <= Math_max0 x.
Proof. unfold Math_max0. apply Q.le_max_r. Qed.

Lemma hours_nonneg_iff (a b : Timestamp) :
  0 <= calculateHoursDifference a b <-> (a <= b)%Z.
Proof.
  split; [|apply hours_nonneg].
  intros H. destruct (Z.lt_ge_cases b a) as [Hlt|]; [|assumption].
  apply hours_neg in Hlt. lra.
Qed.

(** The computed hours differ from the exact hours by at most three unit
    roundoffs of their own magnitude. *)
Lemma hours_error (a b : Timestamp) :
  Qabs (calculateHoursDifference a b - exact_hours a b)
  <= Qabs (calculateHoursDifference a b) * (3 # 9007199254740992).
Proof.
  destruct (Z.le_ge_cases a b) as [H|H].
  - destruct (hours_bounds_nonneg a b H) as [L U].
    pose proof (hours_nonneg a b H) as P.
    destruct (exact_hours_sign a b) as (E & _). specialize (E H).
    rewrite (Qabs_pos _ P). revert L U P E.
    generalize (calculateHoursDifference a b), (exact_hours a b).
    unfold u64. intros v e L U P E. apply Qabs_Qle_condition. split; lra.
  - destruct (hours_bounds_nonpos a b H) as [L U].
    assert (P : calculateHoursDifference a b <= 0).
    { destruct (Z.eq_dec a b) as [->|Hne].
      - rewrite hours_same. apply Qle_refl.
      - apply Qlt_le_weak, hours_neg. lia. }
    assert (E : exact_hours a b <= 0).
    { destruct (Z.eq_dec a b) as [->|Hne].
      - unfold exact_hours. setoid_replace (inject_Z b - inject_Z b) with 0 by ring.
        discriminate.
      - apply Qlt_le_weak. apply exact_hours_sign. lia. }
    rewrite (Qabs_neg _ P). revert L U P E.
    generalize (calculateHoursDifference a b), (exact_hours a b).
    unfold u64. intros v e L U P E. apply Qabs_Qle_condition. split; lra.
Qed.

Lemma total_near_merge_plus_deploy db repositoryId pr m :
  calculatePRLeadTime db repositoryId pr = Some m ->
  Qabs (Metric.total_lead_time_hours m
        - (Metric.commit_to_merge_hours m + Metric.merge_to_deploy_hours m))
  <= (Qabs (Metric.total_lead_time_hours m)
      + Qabs (Metric.commit_to_merge_hours m)
      + Qabs (Metric.merge_to_deploy_hours m)) * (3 # 9007199254740992).
Proof.
  intros H.
  destruct (calculatePRLeadTime_fields _ _ _ _ H)
    as (f & mg & _ & _ & _ & _ & _ & _ & _ & _ & -> & -> & ->).
  rewrite merge_to_deploy_as_hours.
  set (dp := deployedAt_or_merge db repositoryId pr mg).
  pose proof (hours_error f dp) as Ht.
  pose proof (hours_error f mg) as Hx.
  pose proof (hours_error mg dp) as Hy.
  pose proof (exact_hours_chain f mg dp) as Hc.
  pose proof (Qabs_nonneg (calculateHoursDifference f dp)) as At.
  pose proof (Qabs_nonneg (calculateHoursDifference f mg)) as Ax.
  pose proof (Qabs_nonneg (calculateHoursDifference mg dp)) as Ay.
  apply Qabs_Qle_condition in Ht, Hx, Hy.
  revert Ht Hx Hy Hc At Ax Ay.
  generalize (Qabs (calculateHoursDifference f dp)),
             (Qabs (calculateHoursDifference f mg)),
             (Qabs (calculateHoursDifference mg dp)),
             (calculateHoursDifference f dp), (calculateHoursDifference f mg),
             (calculateHoursDifference mg dp),
             (exact_hours f dp), (exact_hours f mg), (exact_hours mg dp).
  intros. apply Qabs_Qle_condition. split; lra.
Qed.

(** Whatever the order of the timestamps, the total lead time of a metric is
    its commit-to-merge hours plus its merge-to-deploy hours up to the
    rounding of the three divisions: the difference is at most three unit
    roundoffs of the three magnitudes together.  Without a matched
    deployment the two sides are equal. *)
Theorem total_splits_at_merge
    (db : Store) (repositoryId : string) (pr : PR.t) (m : Metric.t) :
  calculatePRLeadTime db repositoryId pr = Some m ->
  Qabs (Metric.total_lead_time_hours m
        - (Metric.commit_to_merge_hours m + Metric.merge_to_deploy_hours m))
  <= (Qabs (Metric.total_lead_time_hours m)
      + Qabs (Metric.commit_to_merge_hours m)
      + Qabs (Metric.merge_to_deploy_hours m)) * (3 # 9007199254740992)
  /\ (findDeploymentForPR db repositoryId pr = None ->
      Metric.total_lead_time_hours m
      == Metric.commit_to_merge_hours m + Metric.merge_to_deploy_hours m).
Proof.
  intros H. split; [exact (total_near_merge_plus_deploy db repositoryId pr m H)|].
  intros Hnone.
  destruct (calculatePRLeadTime_fields _ _ _ _ H)
    as (f & mg & _ & _ & _ & _ & _ & _ & _ & _ & -> & -> & ->).
  unfold deployedAt_or_merge. rewrite Hnone. ring.
Qed.

Lemma total_splits_at_merge_witness :
  exists m, calculatePRLeadTime db_releases acme pr8_rebased = Some m
            /\ Qabs (Metric.total_lead_time_hours m
                     - (Metric.commit_to_merge_hours m
                        + Metric.merge_to_deploy_hours m))
               <= (Qabs (Metric.total_lead_time_hours m)
                   + Qabs (Metric.commit_to_merge_hours m)
                   + Qabs (Metric.merge_to_deploy_hours m))
                  * (3 # 9007199254740992).
Proof.
  eexists. split; [vm_compute; reflexivity|].
  apply (total_splits_at_merge db_releases acme pr8_rebased).
  vm_compute. reflexivity.
Defined.

(** The sum taken over the far-apart instants, with a deployment at the far
    end: total lead time and the sum of its two parts differ. *)
Example total_differs_from_parts :
  let commit_to_merge :=
    calculateHoursDifference (-8089132208733984)%Z 8142787051792884%Z in
  let merge_to_deploy :=
    calculateHoursDifference 8142787051792884%Z 8151483588145695%Z in
  let total :=
    calculateHoursDifference (-8089132208733984)%Z 8151483588145695%Z in
  ~ total == commit_to_merge + merge_to_deploy.
Proof. vm_compute. discriminate. Qed.

(** Coding and review hours are never below the hours of their interval,
    and they are these hours exactly when the instants of the interval are
    in order: an active clamp hides negative hours. *)
Theorem phases_cover_total
    (db : Store) (repositoryId : string) (pr : PR.t) (m : Metric.t) :
  calculatePRLeadTime db repositoryId pr = Some m ->
  (calculateHoursDifference (Metric.first_commit_at m) (PR.created_at_pr pr)
   <= Metric.coding_time_hours m
   /\ (Metric.coding_time_hours m
       == calculateHoursDifference (Metric.first_commit_at m) (PR.created_at_pr pr)
       <-> (Metric.first_commit_at m <= PR.created_at_pr pr)%Z))
  /\ (calculateHoursDifference (PR.created_at_pr pr) (Metric.merged_at m)
      <= Metric.review_time_hours m
      /\ (Metric.review_time_hours m
          == calculateHoursDifference (PR.created_at_pr pr) (Metric.merged_at m)
          <-> (PR.created_at_pr pr <= Metric.merged_at m)%Z)).
Proof.
  intros H.
  destruct (calculatePRLeadTime_fields _ _ _ _ H)
    as (f & mg & _ & _ & -> & -> & _ & -> & -> & _).
  assert (Hclamp : forall a b : Timestamp,
            calculateHoursDifference a b <= Math_max0 (calculateHoursDifference a b)
            /\ (Math_max0 (calculateHoursDifference a b)
                == calculateHoursDifference a b <-> (a <= b)%Z)).
  { intros a b. split; [apply Math_max0_ge|].
    rewrite <- hours_nonneg_iff. split.
    - intros E. rewrite <- E. apply Math_max0_nonneg.
    - apply Math_max0_id. }
  split; apply Hclamp.
Qed.

Lemma phases_cover_total_witness :
  exists m, calculatePRLeadTime db_releases acme pr8_rebased = Some m
            /\ calculateHoursDifference (Metric.first_commit_at m)
                 (PR.created_at_pr pr8_rebased)
               <= Metric.coding_time_hours m
            /\ ~ Metric.coding_time_hours m
                 == calculateHoursDifference (Metric.first_commit_at m)
                      (PR.created_at_pr pr8_rebased).
Proof.
  eexists. split; [vm_compute; reflexivity|].
  match goal with
  | |- _ <= Metric.coding_time_hours ?m /\ _ =>
      assert (E : calculatePRLeadTime db_releases acme pr8_rebased = Some m)
        by (vm_compute; reflexivity);
      destruct (phases_cover_total db_releases acme pr8_rebased m E)
        as [[Hle Hiff] _]
  end.
  split; [exact Hle|].
  intros Heq. apply Hiff in Heq. vm_compute in Heq. apply Heq. reflexivity.
Defined.

Lemma findDeploymentForPR_In db repositoryId pr d :
  findDeploymentForPR db repositoryId pr = Some d ->
  In d (deployments db) /\ Dep.repository_id d = repositoryId.
Proof.
  unfold findDeploymentForPR.
  destruct (first_by_date (filter (exact_match repositoryId pr) (deployments db)))
    as [r|] eqn:E.
  - intros [= <-]. apply first_by_date_least in E as [Hin _].
    apply filter_In in Hin as [Hin Hb]. split; [exact Hin|].
    unfold exact_match in Hb. rewrite !andb_true_iff in Hb.
    now apply String.eqb_eq.
  - intros F. apply first_by_date_least in F as [Hin _].
    apply filter_In in Hin as [Hin Hb]. split; [exact Hin|].
    unfold after_merge in Hb. rewrite andb_true_iff in Hb.
    now apply String.eqb_eq.
Qed.

(** A metric carries the ids of its repository and its change and the date
    texts of the change; its deployment instant, written by [toISOString],
    is that of the matched deployment or else the merge instant; and the
    deployment id it records is the id of a deployment row of the same
    repository, dated at the metric's deployment instant. *)
Theorem metric_refers_to_deployment
    (db : Store) (repositoryId : string) (pr : PR.t) (m : Metric.t) :
  calculatePRLeadTime db repositoryId pr = Some m ->
  Metric.repository_id m = repositoryId
  /\ Metric.pr_id m = PR.id pr
  /\ Metric.first_commit_at_text m = PR.first_commit_at_text pr
  /\ Metric.merged_at_text m = PR.merged_at_text pr
  /\ (exists deployedAt,
        Metric.deployed_at m = Some deployedAt
        /\ Metric.deployed_at_text m = toISOString deployedAt
        /\ (findDeploymentForPR db repositoryId pr = None ->
            deployedAt = Metric.merged_at m))
  /\ forall i, Metric.deployment_id m = Some i ->
       exists d, In d (deployments db)
                 /\ Dep.id d = i
                 /\ Dep.repository_id d = repositoryId
                 /\ findDeploymentForPR db repositoryId pr = Some d
                 /\ Metric.deployed_at m = Some (Dep.deployment_date d).
Proof.
  intros H.
  destruct (calculatePRLeadTime_fields _ _ _ _ H)
    as (f & mg & Hf & Hm & _ & -> & Hd & _).
  unfold calculatePRLeadTime in H. rewrite Hf, Hm in H.
  unfold deployedAt_or_merge in Hd.
  destruct (findDeploymentForPR db repositoryId pr) as [d|] eqn:E;
    injection H as <-;
    cbn [Metric.repository_id Metric.pr_id Metric.first_commit_at_text
         Metric.merged_at_text Metric.deployed_at Metric.deployed_at_text
         Metric.deployment_id deployment_id_of] in *.
  - repeat split.
    + exists (Dep.deployment_date d). repeat split. discriminate.
    + intros i. destruct (Dep.id d =? 0)%Z; [discriminate|]. intros [= <-].
      destruct (findDeploymentForPR_In _ _ _ _ E) as [Hin Hr].
      exists d. repeat split; assumption.
  - repeat split.
    + exists mg. repeat split.
    + discriminate.
Qed.

Lemma metric_refers_to_deployment_witness :
  exists m d,
    calculatePRLeadTime db_releases acme pr7 = Some m
    /\ In d (deployments db_releases)
    /\ Dep.id d = 3%Z
    /\ Metric.deployed_at m = Some (Dep.deployment_date d).
Proof.
  assert (E : exists m, calculatePRLeadTime db_releases acme pr7 = Some m
                        /\ Metric.deployment_id m = Some 3%Z)
    by (eexists; split; vm_compute; reflexivity).
  destruct E as (m & E & Hi3).
  destruct (metric_refers_to_deployment db_releases acme pr7 m E)
    as (_ & _ & _ & _ & _ & Hid).
  destruct (Hid 3%Z Hi3) as (d & Hin & Hi & _ & _ & Hd).
  exists m, d. split; [exact E|]. repeat split; assumption.
Defined.

(** ** The matcher and the rows it ignores *)

Lemma filter_exact_after repositoryId pr rows :
  filter (exact_match repositoryId pr) (filter (after_merge repositoryId pr) rows)
  = filter (exact_match repositoryId pr) rows.
Proof.
  induction rows as [|d rows IH]; simpl; [reflexivity|].
  unfold exact_match at 2, after_merge at 1.
  destruct (String.eqb (Dep.repository_id d) repositoryId
            && sql_ge (Dep.deployment_date_text d) (merged_at_param pr)) eqn:E;
    simpl.
  - unfold exact_match at 1. rewrite E. simpl.
    destruct (sql_eq (Dep.commit_sha d) (PR.head_sha pr)
              || sql_eq (Dep.commit_sha d) (PR.merge_sha pr)); now rewrite IH.
  - exact IH.
Qed.

Lemma filter_after_after repositoryId pr rows :
  filter (after_merge repositoryId pr) (filter (after_merge repositoryId pr) rows)
  = filter (after_merge repositoryId pr) rows.
Proof.
  induction rows as [|d rows IH]; simpl; [reflexivity|].
  destruct (after_merge repositoryId pr d) eqn:E; simpl; [|exact IH].
  now rewrite E, IH.
Qed.

(** The matcher only looks at the deployments of the repository dated at or
    after the merge, as the fallback query tests it on the stored texts:
    two stores that agree on these rows give the same match, whatever else
    their [deployments] tables hold. *)
Theorem findDeploymentForPR_relevant_rows
    (db db' : Store) (repositoryId : string) (pr : PR.t) :
  filter (after_merge repositoryId pr) (deployments db)
  = filter (after_merge repositoryId pr) (deployments db') ->
  findDeploymentForPR db repositoryId pr = findDeploymentForPR db' repositoryId pr.
Proof.
  intros E. unfold findDeploymentForPR.
  rewrite <- (filter_exact_after repositoryId pr (deployments db)),
          <- (filter_exact_after repositoryId pr (deployments db')), E.
  reflexivity.
Qed.

Lemma findDeploymentForPR_relevant_rows_witness :
  findDeploymentForPR db_releases acme pr7
  = findDeploymentForPR
      {| deployments := [release 2 36 "z1"; release 3 40 "m1"];
         pull_requests := []; lead_time_metrics := [] |} acme pr7.
Proof.
  apply findDeploymentForPR_relevant_rows. vm_compute. reflexivity.
Defined.

(** A change that carries neither a head nor a merge commit hash is matched
    by date alone: to a deployment of the repository whose date text is not
    below the merge date text and not above that of any other such
    deployment. *)
Theorem findDeploymentForPR_without_hashes
    (db : Store) (repositoryId : string) (pr : PR.t) (mergedAt : Timestamp) :
  PR.head_sha pr = None ->
  PR.merge_sha pr = None ->
  PR.merged_at pr = Some mergedAt ->
  (exists d, DatedFrom db repositoryId (PR.merged_at_text pr) d) ->
  exists r, findDeploymentForPR db repositoryId pr = Some r
            /\ LeastText (DatedFrom db repositoryId (PR.merged_at_text pr)) r.
Proof.
  intros Hh Hs Hm Hex.
  destruct (findDeploymentForPR_by_text db repositoryId pr mergedAt Hm)
    as (_ & Hfall & _).
  apply Hfall; [|exact Hex].
  intros (d & _ & sha & _ & [Hsha|Hsha]); congruence.
Qed.

Lemma findDeploymentForPR_without_hashes_witness :
  exists r, findDeploymentForPR db_releases acme pr8_rebased = Some r
            /\ LeastText (DatedFrom db_releases acme (PR.merged_at_text pr8_rebased)) r.
Proof.
  apply (findDeploymentForPR_without_hashes db_releases acme pr8_rebased (h 34));
    try reflexivity.
  exists (release 2 36 "z1"). split; [simpl; tauto|].
  split; [reflexivity|]. vm_compute. reflexivity.
Defined.

(** The two queries of the matcher, in the order of the date texts: a
    deployment of the repository with the head or merge commit of the change
    whose date text is not below the merge date text, the least such text
    winning; failing that, the same without regard to the commit; and
    nothing exactly when no deployment of the repository has a date text at
    or above the merge date text. *)
Theorem findDeploymentForPR_two_stage_by_text
    (db : Store) (repositoryId : string) (pr : PR.t) (mergedAt : Timestamp) :
  PR.merged_at pr = Some mergedAt ->
  ((exists d, DatedFromWithCommit db repositoryId pr (PR.merged_at_text pr) d) ->
   exists r, findDeploymentForPR db repositoryId pr = Some r
             /\ LeastText (DatedFromWithCommit db repositoryId pr
                             (PR.merged_at_text pr)) r)
  /\ (~ (exists d, DatedFromWithCommit db repositoryId pr (PR.merged_at_text pr) d) ->
      (exists d, DatedFrom db repositoryId (PR.merged_at_text pr) d) ->
      exists r, findDeploymentForPR db repositoryId pr = Some r
                /\ LeastText (DatedFrom db repositoryId (PR.merged_at_text pr)) r)
  /\ (findDeploymentForPR db repositoryId pr = None
      <-> ~ exists d, DatedFrom db repositoryId (PR.merged_at_text pr) d).
Proof. apply findDeploymentForPR_by_text. Qed.

Lemma findDeploymentForPR_two_stage_by_text_witness :
  exists r, findDeploymentForPR db_releases acme pr7 = Some r
            /\ LeastText (DatedFromWithCommit db_releases acme pr7
                            (PR.merged_at_text pr7)) r.
Proof.
  apply (findDeploymentForPR_two_stage_by_text db_releases acme pr7 (h 34) eq_refl).
  exists (release 3 40 "m1"). split.
  - split; [simpl; tauto|]. split; [reflexivity|]. vm_compute. reflexivity.
  - exists "m1"%string. split; [reflexivity|]. now right.
Defined.

(** ** The changes listed for a run *)

Lemma Permutation_filter {A} (f : A -> bool) (l l' : list A) :
  Permutation l l' -> Permutation (filter f l) (filter f l').
Proof.
  induction 1 as [|x l l' _ IH|x y l|l l' l'' _ IH1 _ IH2]; simpl.
  - constructor.
  - destruct (f x); [now constructor|exact IH].
  - destruct (f x), (f y); try reflexivity. apply perm_swap.
  - now transitivity (filter f l').
Qed.

Lemma Sorted_on {A} (P : A -> Prop) (R R' : A -> A -> Prop) (l : list A) :
  (forall a b, P a -> P b -> R a b -> R' a b) ->
  Forall P l -> Sorted R l -> Sorted R' l.
Proof.
  intros HR HP Hs. induction Hs as [|a l Hs IH Hhd]; constructor.
  - apply IH. now inversion HP.
  - inversion HP as [|? ? Pa Pl]; subst.
    destruct Hhd as [|b l' Hab]; constructor.
    apply HR; try assumption. now inversion Pl.
Qed.

Lemma getPullRequestsForLeadTime_In db repositoryId now days pr :
  In pr (getPullRequestsForLeadTime db repositoryId now days)
  <-> SelectedChange db repositoryId now days pr.
Proof.
  unfold getPullRequestsForLeadTime, SelectedChange, merged_at_param.
  generalize (dateFilter now days). intros cutoff.
  rewrite order_by_In, in_flat_map.
  split.
  - intros (q & Hq & Hin). apply filter_In in Hq as [Hq Hb].
    assert (pr = q) as ->.
    { destruct (filter _ (lead_time_metrics db)) as [|m0 ms].
      - destruct Hin as [<-|[]]. reflexivity.
      - apply in_map_iff in Hin as (? & <- & _). reflexivity. }
    rewrite !andb_true_iff in Hb. destruct Hb as [[Hr Hm] Ht].
    apply String.eqb_eq in Hr.
    destruct (PR.merged_at q) as [t|]; [|discriminate].
    repeat split; try assumption. discriminate.
  - intros (Hin & Hr & Hm & Ht & Hw). exists pr. split.
    + apply filter_In. split; [exact Hin|].
      rewrite Hr, String.eqb_refl, Hm.
      destruct (PR.merged_at pr); [exact Hw|contradiction].
    + destruct (filter _ (lead_time_metrics db)) as [|m0 ms]; [now left|].
      simpl. now left.
Qed.

(** [getPullRequestsForLeadTime] lists exactly the merged changes of the
    repository whose [merged_at] is present with a text not below the
    cutoff text, in descending order of that text. *)
Theorem getPullRequestsForLeadTime_listing
    (db : Store) (repositoryId : string) (now : Timestamp) (days : Z) :
  (forall pr, In pr (getPullRequestsForLeadTime db repositoryId now days)
              <-> SelectedChange db repositoryId now days pr)
  /\ StronglySorted MergedTextNotBelow
       (getPullRequestsForLeadTime db repositoryId now days).
Proof.
  split; [intros pr; apply getPullRequestsForLeadTime_In|].
  apply Sorted_StronglySorted.
  - intros a b c Hab Hbc. unfold MergedTextNotBelow in *.
    eapply leb_trans; eassumption.
  - unfold getPullRequestsForLeadTime. apply order_by_sorted.
    intros a b. apply String.leb_total.
Qed.

(** On the day the window starts the listing goes by the day alone: the
    change merged at hour 34 is listed for the seven days before hour 210,
    which start at hour 42 of the same day. *)
Example getPullRequestsForLeadTime_cutoff_day :
  window_start (h 210) 7 = h 42
  /\ PR.merged_at pr7 = Some (h 34)
  /\ dateFilter (h 210) 7 = "1970-01-02 18:00:00"%string
  /\ PR.merged_at_text pr7 = "1970-01-02T10:00:00Z"%string
  /\ In pr7 (getPullRequestsForLeadTime db_releases acme (h 210) 7).
Proof.
  split; [reflexivity|]. split; [reflexivity|].
  split; [vm_compute; reflexivity|]. split; [vm_compute; reflexivity|].
  refine (proj2 (getPullRequestsForLeadTime_In db_releases acme (h 210) 7 pr7) _).
  split; [simpl; tauto|]. split; [reflexivity|]. split; [reflexivity|].
  split; [discriminate|]. vm_compute. reflexivity.
Qed.

(** ** A run of [calculateLeadTime] *)

Lemma calculatePRLeadTime_identity db repositoryId pr m :
  calculatePRLeadTime db repositoryId pr = Some m ->
  Metric.repository_id m = repositoryId /\ Metric.pr_id m = PR.id pr.
Proof.
  unfold calculatePRLeadTime.
  destruct (PR.first_commit_at pr); [|discriminate].
  destruct (PR.merged_at pr); [|discriminate].
  destruct (findDeploymentForPR db repositoryId pr); intros [= <-]; now split.
Qed.

Lemma calculateLeadTime_step_appends repositoryId db acc pr :
  exists new,
    calculateLeadTime_step repositoryId (db, acc) pr
    = ({| deployments := deployments db;
          pull_requests := pull_requests db;
          lead_time_metrics := lead_time_metrics db ++ new |}, acc ++ new)
    /\ List.length new
       = match PR.first_commit_at pr, PR.merged_at pr with
         | Some _, Some _ => 1%nat
         | _, _ => 0%nat
         end
    /\ forall m, In m new ->
         Metric.repository_id m = repositoryId /\ Metric.pr_id m = PR.id pr.
Proof.
  unfold calculateLeadTime_step.
  destruct (calculatePRLeadTime db repositoryId pr) as [m|] eqn:E.
  - exists [m]. split; [reflexivity|].
    destruct (calculatePRLeadTime_fields _ _ _ _ E) as (f & mg & -> & -> & _).
    split; [reflexivity|].
    intros m' [<-|[]].
    destruct (calculatePRLeadTime_identity _ _ _ _ E) as [Hr Hp].
    now split.
  - exists []. rewrite !app_nil_r. split; [now destruct db|].
    split; [|intros m []].
    unfold calculatePRLeadTime in E.
    destruct (PR.first_commit_at pr), (PR.merged_at pr); try reflexivity.
    destruct (findDeploymentForPR db repositoryId pr); discriminate.
Qed.

Lemma calculateLeadTime_fold_appends repositoryId prs : forall db acc,
  exists new,
    fold_left (calculateLeadTime_step repositoryId) prs (db, acc)
    = ({| deployments := deployments db;
          pull_requests := pull_requests db;
          lead_time_metrics := lead_time_metrics db ++ new |}, acc ++ new)
    /\ List.length new
       = List.length
           (filter (fun pr => match PR.first_commit_at pr, PR.merged_at pr with
                              | Some _, Some _ => true
                              | _, _ => false
                              end) prs)
    /\ forall m, In m new ->
         Metric.repository_id m = repositoryId
         /\ exists pr, In pr prs /\ Metric.pr_id m = PR.id pr.
Proof.
  induction prs as [|pr prs IH]; intros db acc.
  - exists []. rewrite !app_nil_r. split; [now destruct db|].
    split; [reflexivity|intros m []].
  - cbn [fold_left].
    destruct (calculateLeadTime_step_appends repositoryId db acc pr)
      as (new1 & -> & Hlen1 & Hnew1).
    destruct (IH {| deployments := deployments db;
                    pull_requests := pull_requests db;
                    lead_time_metrics := lead_time_metrics db ++ new1 |}
                 (acc ++ new1)) as (new2 & -> & Hlen2 & Hnew2).
    exists (new1 ++ new2). cbn [deployments pull_requests lead_time_metrics].
    rewrite !app_assoc. split; [reflexivity|]. split.
    + rewrite length_app, Hlen1, Hlen2. cbn [filter].
      destruct (PR.first_commit_at pr), (PR.merged_at pr); reflexivity.
    + intros m Hm. apply in_app_or in Hm as [Hm|Hm].
      * destruct (Hnew1 m Hm) as [Hr Hp]. split; [exact Hr|].
        exists pr. split; [now left|exact Hp].
      * destruct (Hnew2 m Hm) as (Hr & q & Hq & Hp). split; [exact Hr|].
        exists q. split; [now right|exact Hp].
Qed.

Lemma listed_have_merge_instant db repositoryId now days :
  filter (fun pr => match PR.first_commit_at pr, PR.merged_at pr with
                    | Some _, Some _ => true
                    | _, _ => false
                    end)
         (getPullRequestsForLeadTime db repositoryId now days)
  = filter has_first_commit (getPullRequestsForLeadTime db repositoryId now days).
Proof.
  apply filter_ext_in. intros pr Hpr.
  apply getPullRequestsForLeadTime_In in Hpr as (_ & _ & _ & Ht & _).
  unfold has_first_commit.
  destruct (PR.first_commit_at pr), (PR.merged_at pr); congruence.
Qed.

Lemma calculateLeadTime_run
    (db : Store) (repositoryId : string) (now : Timestamp) (days : Z) :
  exists metrics,
    calculateLeadTime db repositoryId now days
    = ({| deployments := deployments db;
          pull_requests := pull_requests db;
          lead_time_metrics := lead_time_metrics db ++ metrics |}, metrics)
    /\ List.length metrics
       = List.length
           (filter has_first_commit
                   (getPullRequestsForLeadTime db repositoryId now days))
    /\ forall m, In m metrics ->
         Metric.repository_id m = repositoryId
         /\ exists pr, SelectedChange db repositoryId now days pr
                       /\ Metric.pr_id m = PR.id pr.
Proof.
  unfold calculateLeadTime.
  destruct (calculateLeadTime_fold_appends repositoryId
              (getPullRequestsForLeadTime db repositoryId now days) db [])
    as (new & -> & Hlen & Hnew).
  exists new. split; [reflexivity|]. split.
  - rewrite Hlen. now rewrite listed_have_merge_instant.
  - intros m Hm. destruct (Hnew m Hm) as (Hr & pr & Hpr & Hp).
    split; [exact Hr|]. exists pr. split; [|exact Hp].
    now apply getPullRequestsForLeadTime_In.
Qed.

(** A run of [calculateLeadTime] leaves the deployments and the pull
    requests alone, keeps every metric row stored before, and appends the
    metrics it returns, in order: one for each listed change that has a
    first-commit instant, each carrying the repository id and the id of a
    listed change. *)
Theorem calculateLeadTime_appends
    (db : Store) (repositoryId : string) (now : Timestamp) (days : Z) :
  exists metrics,
    calculateLeadTime db repositoryId now days
    = ({| deployments := deployments db;
          pull_requests := pull_requests db;
          lead_time_metrics := lead_time_metrics db ++ metrics |}, metrics)
    /\ List.length metrics
       = List.length
           (filter has_first_commit
                   (getPullRequestsForLeadTime db repositoryId now days))
    /\ forall m, In m metrics ->
         Metric.repository_id m = repositoryId
         /\ exists pr, SelectedChange db repositoryId now days pr
                       /\ Metric.pr_id m = PR.id pr.
Proof. apply calculateLeadTime_run. Qed.

(** The number of listed changes with a first commit does not shrink when
    metric rows are added: the join lists a change once per stored metric. *)
Lemma listing_grows_with_metrics (M N : list Metric.t) (selected : list PR.t) :
  (List.length
     (filter has_first_commit
        (flat_map (fun pr => match filter (fun m => (Metric.pr_id m =? PR.id pr)%Z) M with
                             | [] => [pr]
                             | ms => map (fun _ => pr) ms
                             end) selected))
   <= List.length
        (filter has_first_commit
           (flat_map (fun pr => match filter (fun m => (Metric.pr_id m =? PR.id pr)%Z)
                                             (M ++ N) with
                                | [] => [pr]
                                | ms => map (fun _ => pr) ms
                                end) selected)))%nat.
Proof.
  assert (Hcopies : forall (pr : PR.t) (ms : list Metric.t),
            List.length (filter has_first_commit (map (fun _ => pr) ms))
            = if has_first_commit pr then List.length ms else 0%nat).
  { intros pr ms. induction ms as [|m ms IH]; simpl.
    - now destruct (has_first_commit pr).
    - destruct (has_first_commit pr); simpl; now rewrite IH. }
  induction selected as [|pr selected IH]; simpl; [lia|].
  rewrite !filter_app, !length_app.
  apply Nat.add_le_mono; [|exact IH].
  destruct (filter (fun m => (Metric.pr_id m =? PR.id pr)%Z) M) as [|m0 ms].
  - destruct (filter _ N) as [|n0 ns]; simpl; [lia|].
    destruct (has_first_commit pr); simpl; lia.
  - cbn [app].
    change (pr :: map (fun _ : Metric.t => pr) ms)
      with (map (fun _ : Metric.t => pr) (m0 :: ms)).
    change (pr :: map (fun _ : Metric.t => pr)
                    (ms ++ filter (fun m => (Metric.pr_id m =? PR.id pr)%Z) N))
      with (map (fun _ : Metric.t => pr)
                (m0 :: ms ++ filter (fun m => (Metric.pr_id m =? PR.id pr)%Z) N)).
    rewrite !Hcopies. destruct (has_first_commit pr); simpl; [|lia].
    rewrite length_app. lia.
Qed.

(** Metrics are never replaced.  A second run over the same window keeps
    the rows of the first and appends its own, at least as many as the first
    run appended. *)
Theorem calculateLeadTime_rerun_accumulates
    (db : Store) (repositoryId : string) (now : Timestamp) (days : Z) :
  exists metrics1 metrics2 db2,
    calculateLeadTime db repositoryId now days
    = ({| deployments := deployments db;
          pull_requests := pull_requests db;
          lead_time_metrics := lead_time_metrics db ++ metrics1 |}, metrics1)
    /\ calculateLeadTime
         (fst (calculateLeadTime db repositoryId now days)) repositoryId now days
       = (db2, metrics2)
    /\ lead_time_metrics db2 = lead_time_metrics db ++ metrics1 ++ metrics2
    /\ (List.length metrics1 <= List.length metrics2)%nat.
Proof.
  destruct (calculateLeadTime_run db repositoryId now days)
    as (ms1 & E1 & Hlen1 & _).
  rewrite E1. cbn [fst].
  set (db1 := {| deployments := deployments db;
                 pull_requests := pull_requests db;
                 lead_time_metrics := lead_time_metrics db ++ ms1 |}).
  destruct (calculateLeadTime_run db1 repositoryId now days)
    as (ms2 & E2 & Hlen2 & _).
  exists ms1, ms2. eexists. split; [reflexivity|]. split; [exact E2|].
  cbn [lead_time_metrics db1]. split; [now rewrite app_assoc|].
  rewrite Hlen1, Hlen2. unfold getPullRequestsForLeadTime.
  rewrite !(Permutation_length
              (Permutation_filter has_first_commit _ _ (order_by_perm _ _))).
  cbn [pull_requests lead_time_metrics db1].
  apply listing_grows_with_metrics.
Qed.

Example calculateLeadTime_three_runs :
  let run db := fst (calculateLeadTime db acme (h 60) 30) in
  map (fun db => List.length (lead_time_metrics db))
      [run db_releases; run (run db_releases); run (run (run db_releases))]
  = [2; 4; 8]%nat.
Proof. vm_compute. reflexivity. Qed.

(** * Further properties of the aggregator *)

Lemma stats_repositories db repositoryId now days :
  Permutation
    (map Stats.repository_id (getLeadTimeStats db repositoryId now days))
    (group_keys (metrics_in_window db repositoryId now days)).
Proof.
  unfold getLeadTimeStats.
  rewrite (Permutation_map Stats.repository_id (order_by_perm _ _)).
  rewrite map_map. cbn [summarize Stats.repository_id]. now rewrite map_id.
Qed.

(** [getLeadTimeStats] returns one summary for each repository that has a
    metric selected by the date test and passes the repository filter, and
    no other: repository ids are not repeated, and with a repository given
    every summary is about it. *)
Theorem getLeadTimeStats_one_summary_per_repository
    (db : Store) (repositoryId : option string) (now : Timestamp) (days : Z) :
  NoDup (map Stats.repository_id (getLeadTimeStats db repositoryId now days))
  /\ (forall rid,
        In rid (map Stats.repository_id (getLeadTimeStats db repositoryId now days))
        <-> HasSelectedMetric db rid now days
            /\ repo_filter repositoryId rid = true)
  /\ forall r s, repositoryId = Some r -> r <> ""%string ->
       In s (getLeadTimeStats db repositoryId now days) ->
       Stats.repository_id s = r.
Proof.
  pose proof (stats_repositories db repositoryId now days) as Hp.
  assert (Hmem : forall rid,
            In rid (map Stats.repository_id
                        (getLeadTimeStats db repositoryId now days))
            <-> HasSelectedMetric db rid now days
                /\ repo_filter repositoryId rid = true).
  { intros rid. split.
    - intros Hin. apply (Permutation_in _ Hp) in Hin.
      apply group_keys_In in Hin as (m & Hm & <-).
      apply metrics_in_window_In in Hm as (Hin & Hw & Hf).
      split; [now exists m|exact Hf].
    - intros [(m & Hin & <- & Hw) Hf].
      apply (Permutation_in _ (Permutation_sym Hp)).
      apply group_keys_In. exists m. split; [|reflexivity].
      apply metrics_in_window_In. tauto. }
  split; [|split; [exact Hmem|]].
  - apply (Permutation_NoDup (Permutation_sym Hp)).
    unfold group_keys.
    apply (Permutation_NoDup (Permutation_sym (order_by_perm _ _))).
    apply NoDup_nodup.
  - intros r s -> Hr Hs.
    assert (Hin : In (Stats.repository_id s)
                     (map Stats.repository_id
                          (getLeadTimeStats db (Some r) now days)))
      by now apply in_map.
    apply Hmem in Hin as [_ Hf]. now apply repo_filter_some in Hf.
Qed.

Lemma getLeadTimeStats_one_summary_per_repository_witness :
  NoDup (map Stats.repository_id
             (getLeadTimeStats db_three_repos (Some "gh-acme-b"%string) (h 200) 7))
  /\ Forall (fun s => Stats.repository_id s = "gh-acme-b"%string)
            (getLeadTimeStats db_three_repos (Some "gh-acme-b"%string) (h 200) 7).
Proof.
  destruct (getLeadTimeStats_one_summary_per_repository db_three_repos
              (Some "gh-acme-b"%string) (h 200) 7) as (Hnd & _ & Hown).
  split; [exact Hnd|]. apply Forall_forall. intros s Hs.
  apply (Hown "gh-acme-b"%string s); [reflexivity|discriminate|exact Hs].
Defined.

Lemma filter_length_le {A} (f g : A -> bool) (l : list A) :
  (forall x, f x = true -> g x = true) ->
  (List.length (filter f l) <= List.length (filter g l) <= List.length l)%nat.
Proof.
  intros Hfg. induction l as [|x l IH]; simpl; [lia|].
  destruct (f x) eqn:E.
  - rewrite (Hfg x E). simpl. lia.
  - destruct (g x); simpl; lia.
Qed.

Lemma fold_Qmin_spec (r : list Q) : forall a,
  fold_left Qmin r a <= a
  /\ (forall x, In x r -> fold_left Qmin r a <= x)
  /\ In (fold_left Qmin r a) (a :: r).
Proof.
  induction r as [|y r IH]; intros a; simpl.
  - split; [apply Qle_refl|]. split; [intros x []|now left].
  - destruct (IH (Qmin a y)) as (H1 & H2 & H3).
    pose proof (Q.le_min_l a y). pose proof (Q.le_min_r a y).
    split; [lra|]. split.
    + intros x [<-|Hx]; [lra|now apply H2].
    + destruct H3 as [H3|H3]; [|now right; right].
      rewrite <- H3. unfold Qmin, GenericMinMax.gmin.
      destruct (a ?= y); auto.
Qed.

Lemma fold_Qmax_spec (r : list Q) : forall a,
  a <= fold_left Qmax r a
  /\ (forall x, In x r -> x <= fold_left Qmax r a)
  /\ In (fold_left Qmax r a) (a :: r).
Proof.
  induction r as [|y r IH]; intros a; simpl.
  - split; [apply Qle_refl|]. split; [intros x []|now left].
  - destruct (IH (Qmax a y)) as (H1 & H2 & H3).
    pose proof (Q.le_max_l a y). pose proof (Q.le_max_r a y).
    split; [lra|]. split.
    + intros x [<-|Hx]; [lra|now apply H2].
    + destruct H3 as [H3|H3]; [|now right; right].
      rewrite <- H3. unfold Qmax, GenericMinMax.gmax.
      destruct (a ?= y); auto.
Qed.

Lemma MIN_MAX_spec (xs : list Q) :
  xs <> [] ->
  In (MIN xs) xs /\ In (MAX xs) xs
  /\ forall x, In x xs -> MIN xs <= x /\ x <= MAX xs.
Proof.
  destruct xs as [|a r]; [contradiction|]. intros _. unfold MIN, MAX.
  destruct (fold_Qmin_spec r a) as (L1 & L2 & L3).
  destruct (fold_Qmax_spec r a) as (U1 & U2 & U3).
  split; [exact L3|]. split; [exact U3|].
  intros x [<-|Hx]; split; auto.
Qed.

Lemma summary_group db repositoryId now days s :
  In s (getLeadTimeStats db repositoryId now days) ->
  let g := group_of (Stats.repository_id s)
                    (metrics_in_window db None now days) in
  s = summarize (Stats.repository_id s) g
  /\ g <> []
  /\ forall m, In m g <-> In m (lead_time_metrics db)
                          /\ Metric.repository_id m = Stats.repository_id s
                          /\ String.leb (dateFilter now days)
                                        (Metric.first_commit_at_text m) = true.
Proof.
  intros Hs. cbv zeta.
  apply getLeadTimeStats_In in Hs as [Hkey Hsum].
  apply group_keys_In in Hkey as (m0 & Hm0 & Hrid).
  pose proof Hm0 as Hm0'.
  apply metrics_in_window_In in Hm0' as (Hin0 & Hw0 & Hf0).
  rewrite Hrid in Hf0.
  rewrite <- (group_of_window db repositoryId now days _ Hf0).
  split; [exact Hsum|]. split.
  - intros E.
    assert (Hin : In m0 (group_of (Stats.repository_id s)
                           (metrics_in_window db repositoryId now days)))
      by (apply group_of_In; now split).
    rewrite E in Hin. exact Hin.
  - intros m. rewrite (group_of_window db repositoryId now days _ Hf0).
    rewrite group_of_In, metrics_in_window_In. simpl. tauto.
Qed.

Lemma second_summary_of_three_repos :
  exists s, nth_error (getLeadTimeStats db_three_repos None (h 200) 7) 1 = Some s
            /\ Stats.repository_id s = "gh-acme-a"%string
            /\ Stats.pr_count s = 3%Z.
Proof. vm_compute. eexists. repeat split. Qed.

(** In every summary, [pr_count] is the number of the repository's metrics
    in the window and is at least 1, and the counts of fast changes are
    nested: under 24 hours, within under one week, within all. *)
Theorem summary_counts
    (db : Store) (repositoryId : option string) (now : Timestamp) (days : Z)
    (s : Stats.t) :
  In s (getLeadTimeStats db repositoryId now days) ->
  Stats.pr_count s
  = COUNT (group_of (Stats.repository_id s) (metrics_in_window db None now days))
  /\ (1 <= Stats.pr_count s)%Z
  /\ (0 <= Stats.under_24h_count s <= Stats.under_1week_count s)%Z
  /\ (Stats.under_1week_count s <= Stats.pr_count s)%Z.
Proof.
  intros Hs. destruct (summary_group _ _ _ _ _ Hs) as (Hsum & Hne & _).
  set (g := group_of _ _) in *. rewrite Hsum.
  cbn [summarize Stats.pr_count Stats.under_24h_count Stats.under_1week_count].
  unfold COUNT.
  pose proof (filter_length_le (fun x => Qle_bool x 24) (fun x => Qle_bool x 168)
                (map Metric.total_lead_time_hours g)) as Hlen.
  rewrite length_map in Hlen.
  destruct Hlen as [H1 H2].
  { intros x Hx. apply Qle_bool_iff in Hx. apply Qle_bool_iff. lra. }
  split; [reflexivity|]. split.
  - destruct g; [contradiction|]. simpl List.length. lia.
  - lia.
Qed.

Lemma summary_counts_witness :
  exists s, In s (getLeadTimeStats db_three_repos None (h 200) 7)
            /\ Stats.repository_id s = "gh-acme-a"%string
            /\ Stats.pr_count s = 3%Z
            /\ (0 <= Stats.under_24h_count s <= Stats.under_1week_count s)%Z.
Proof.
  destruct (second_summary_of_three_repos) as (s & Hnth & Hrid & Hcount).
  apply nth_error_In in Hnth.
  exists s. split; [exact Hnth|]. split; [exact Hrid|]. split; [exact Hcount|].
  apply (summary_counts db_three_repos None (h 200) 7 s Hnth).
Defined.

(** In every summary, the minimum and the maximum are total lead times of
    metrics of the repository that the date test selects, and every such
    metric lies between them. *)
Theorem summary_min_max
    (db : Store) (repositoryId : option string) (now : Timestamp) (days : Z)
    (s : Stats.t) :
  In s (getLeadTimeStats db repositoryId now days) ->
  (exists m, SelectedMetric db (Stats.repository_id s) now days m
             /\ Stats.min_lead_time_hours s = Metric.total_lead_time_hours m)
  /\ (exists m, SelectedMetric db (Stats.repository_id s) now days m
                /\ Stats.max_lead_time_hours s = Metric.total_lead_time_hours m)
  /\ forall m, SelectedMetric db (Stats.repository_id s) now days m ->
       Stats.min_lead_time_hours s <= Metric.total_lead_time_hours m
       /\ Metric.total_lead_time_hours m <= Stats.max_lead_time_hours s.
Proof.
  intros Hs. unfold SelectedMetric.
  destruct (summary_group _ _ _ _ _ Hs) as (Hsum & Hne & Hg).
  set (g := group_of _ _) in *.
  destruct (MIN_MAX_spec (map Metric.total_lead_time_hours g))
    as (Hmin & Hmax & Hall).
  { destruct g; [contradiction|discriminate]. }
  assert (Emin : Stats.min_lead_time_hours s
                 = MIN (map Metric.total_lead_time_hours g))
    by (rewrite Hsum; reflexivity).
  assert (Emax : Stats.max_lead_time_hours s
                 = MAX (map Metric.total_lead_time_hours g))
    by (rewrite Hsum; reflexivity).
  rewrite Emin, Emax.
  split; [|split].
  - apply in_map_iff in Hmin as (m & E & Hm). exists m.
    split; [now apply Hg|now symmetry].
  - apply in_map_iff in Hmax as (m & E & Hm). exists m.
    split; [now apply Hg|now symmetry].
  - intros m Hm. apply Hall. apply in_map. now apply Hg.
Qed.

Lemma summary_min_max_witness :
  exists s, In s (getLeadTimeStats db_three_repos None (h 200) 7)
            /\ Stats.repository_id s = "gh-acme-a"%string
            /\ Stats.min_lead_time_hours s <= 100
            /\ 100 <= Stats.max_lead_time_hours s.
Proof.
  destruct (second_summary_of_three_repos) as (s & Hnth & Hrid & _).
  apply nth_error_In in Hnth.
  exists s. split; [exact Hnth|]. split; [exact Hrid|].
  destruct (summary_min_max db_three_repos None (h 200) 7 s Hnth)
    as (_ & _ & Hall).
  apply (Hall (metric_of "gh-acme-a" 101 100)).
  split; [simpl; tauto|]. split; [rewrite Hrid; reflexivity|].
  vm_compute. reflexivity.
Defined.

(** ** Rounding of the reported means *)






(** ** The date test on the day the window starts *)



(** * Further properties of the percentiles *)







Lemma findPercentile_cons (d : Pct.t) (data : list Pct.t) (p : Q) :
  findPercentile (d :: data) p
  = if Qle_bool p (Pct.percentile d)
    then Some (Pct.total_lead_time_hours d)
    else findPercentile data p.
Proof.
  unfold findPercentile. simpl.
  now destruct (Qle_bool p (Pct.percentile d)).
Qed.

Lemma findPercentile_In (data : list Pct.t) (p v : Q) :
  findPercentile data p = Some v -> In v (map Pct.total_lead_time_hours data).
Proof.
  induction data as [|d data IH]; [discriminate|].
  rewrite findPercentile_cons.
  destruct (Qle_bool p (Pct.percentile d)).
  - intros [= <-]. now left.
  - intros H. right. now apply IH.
Qed.

Lemma findPercentile_monotone (data : list Pct.t) (p q v w : Q) :
  StronglySorted Qle (map Pct.total_lead_time_hours data) ->
  p <= q ->
  findPercentile data p = Some v ->
  findPercentile data q = Some w ->
  v <= w.
Proof.
  intros Hs Hpq.
  induction data as [|d data IH]; [discriminate|].
  simpl in Hs. apply StronglySorted_inv in Hs as [Htail Hhead].
  rewrite !findPercentile_cons.
  destruct (Qle_bool p (Pct.percentile d)) eqn:Ep.
  - intros [= <-].
    destruct (Qle_bool q (Pct.percentile d)) eqn:Eq.
    + intros [= <-]. apply Qle_refl.
    + intros Hw. apply findPercentile_In in Hw.
      rewrite Forall_forall in Hhead. now apply Hhead.
  - destruct (Qle_bool q (Pct.percentile d)) eqn:Eq.
    + apply Qle_bool_iff in Eq.
      assert (Qle_bool p (Pct.percentile d) = true)
        by (apply Qle_bool_iff; lra).
      congruence.
    + now apply IH.
Qed.

Lemma findPercentile_reached (data : list Pct.t) (p q w : Q) :
  p <= q -> findPercentile data q = Some w ->
  exists v, findPercentile data p = Some v
            /\ In v (map Pct.total_lead_time_hours data).
Proof.
  intros Hpq.
  induction data as [|d data IH]; [discriminate|].
  rewrite !findPercentile_cons.
  destruct (Qle_bool p (Pct.percentile d)) eqn:Ep.
  - intros _. eexists. split; [reflexivity|now left].
  - destruct (Qle_bool q (Pct.percentile d)) eqn:Eq.
    + apply Qle_bool_iff in Eq.
      assert (Qle_bool p (Pct.percentile d) = true)
        by (apply Qle_bool_iff; lra).
      congruence.
    + intros H. destruct (IH H) as (v & Hv & Hin). exists v. split; [exact Hv|].
      now right.
Qed.

Lemma percentile_data_sorted db repositoryId now days :
  repositoryId <> ""%string ->
  metrics_in_window db (Some repositoryId) now days <> [] ->
  let data :=
    DatabaseManager.getLeadTimePercentiles db (Some repositoryId) now days in
  Permutation (map Pct.total_lead_time_hours data)
              (map Metric.total_lead_time_hours
                   (metrics_in_window db (Some repositoryId) now days))
  /\ StronglySorted Qle (map Pct.total_lead_time_hours data)
  /\ exists v, findPercentile data 100 = Some v.
Proof.
  intros Hr Hne. cbv zeta.
  rewrite (getLeadTimePercentiles_single db repositoryId now days Hr).
  set (rows := metrics_in_window db (Some repositoryId) now days) in *.
  rewrite ranked_totals.
  assert (Hs : StronglySorted Qle
                 (map Metric.total_lead_time_hours
                      (order_by (fun a b => Qle_bool (Metric.total_lead_time_hours a)
                                                     (Metric.total_lead_time_hours b))
                                rows)))
    by apply sorted_keys, sorted_by_key.
  split; [apply Permutation_map, order_by_perm|]. split; [exact Hs|].
  destruct (findPercentile_100_ranked repositoryId (COUNT rows)
              (order_by (fun a b => Qle_bool (Metric.total_lead_time_hours a)
                                             (Metric.total_lead_time_hours b)) rows) 1)
    as (v & Hv & _).
  - intros E. apply Hne. apply Permutation_nil. rewrite <- E.
    apply order_by_perm.
  - lia.
  - unfold COUNT. rewrite (Permutation_length (order_by_perm _ rows)). lia.
  - exact Hs.
  - now exists v.
Qed.

(** The four percentiles the calculator reports.  For a repository without
    a metric in the window all four are absent.  Otherwise all four are
    present, each is the total lead time of one of the repository's metrics
    in the window, and they are ordered: p50 <= p75 <= p90 <= p95. *)
Theorem getLeadTimePercentiles_ordered
    (db : Store) (repositoryId : string) (now : Timestamp) (days : Z) :
  repositoryId <> ""%string ->
  let values := map Metric.total_lead_time_hours
                    (metrics_in_window db (Some repositoryId) now days) in
  (values = [] ->
   getLeadTimePercentiles db repositoryId now days
   = {| p50 := None; p75 := None; p90 := None; p95 := None |})
  /\ (values <> [] ->
      exists a b c d,
        getLeadTimePercentiles db repositoryId now days
        = {| p50 := Some a; p75 := Some b; p90 := Some c; p95 := Some d |}
        /\ a <= b /\ b <= c /\ c <= d
        /\ In a values /\ In b values /\ In c values /\ In d values).
Proof.
  intros Hr values. subst values. split.
  - intros E. apply map_eq_nil in E. unfold getLeadTimePercentiles.
    rewrite (getLeadTimePercentiles_single db repositoryId now days Hr), E.
    reflexivity.
  - intros Hne.
    assert (Hne' : metrics_in_window db (Some repositoryId) now days <> [])
      by (intros E; apply Hne; now rewrite E).
    destruct (percentile_data_sorted db repositoryId now days Hr Hne')
      as (Hperm & Hs & top & Htop).
    unfold getLeadTimePercentiles.
    set (data := DatabaseManager.getLeadTimePercentiles db (Some repositoryId) now days) in *.
    destruct (findPercentile_reached data 50 100 top) as (a & Ha & Hina);
      [discriminate|exact Htop|].
    destruct (findPercentile_reached data 75 100 top) as (b & Hb & Hinb);
      [discriminate|exact Htop|].
    destruct (findPercentile_reached data 90 100 top) as (c & Hc & Hinc);
      [discriminate|exact Htop|].
    destruct (findPercentile_reached data 95 100 top) as (d & Hd & Hind);
      [discriminate|exact Htop|].
    exists a, b, c, d. rewrite Ha, Hb, Hc, Hd. split; [reflexivity|].
    split; [apply (findPercentile_monotone data 50 75); auto; discriminate|].
    split; [apply (findPercentile_monotone data 75 90); auto; discriminate|].
    split; [apply (findPercentile_monotone data 90 95); auto; discriminate|].
    repeat split; eapply Permutation_in; eassumption.
Qed.

Lemma getLeadTimePercentiles_ordered_witness :
  exists a b c d,
    getLeadTimePercentiles db_three_repos "gh-acme-a" (h 200) 7
    = {| p50 := Some a; p75 := Some b; p90 := Some c; p95 := Some d |}
    /\ a <= b /\ b <= c /\ c <= d
    /\ In a [200; 100; 20] /\ In b [200; 100; 20]
    /\ In c [200; 100; 20] /\ In d [200; 100; 20].
Proof.
  apply (getLeadTimePercentiles_ordered db_three_repos "gh-acme-a" (h 200) 7);
    [discriminate | vm_compute; discriminate].
Defined.

(** * Further properties of the classifier and the insights *)

Ltac by_band hours :=
  destruct (Qle_bool (hours / 24) 1) eqn:E1;
  [| destruct (Qle_bool (hours / 24) 7) eqn:E7;
     [| destruct (Qle_bool (hours / 24) 30) eqn:E30] ].

(** A slower average never gets a better category, equal averages get the
    same result whatever their representation as fractions, and colour and
    description go with the category. *)
Theorem categorizeLeadTime_monotone (hours1 hours2 : Q) :
  hours1 <= hours2 ->
  (category_rank (Category.category (categorizeLeadTime hours1))
   <= category_rank (Category.category (categorizeLeadTime hours2)))%nat
  /\ (hours1 == hours2 -> categorizeLeadTime hours1 = categorizeLeadTime hours2)
  /\ In (categorizeLeadTime hours1)
        [Category.mk "Elite" "green" "Less than 1 day";
         Category.mk "High" "blue" "1-7 days";
         Category.mk "Medium" "yellow" "1-4 weeks";
         Category.mk "Low" "red" "More than 1 month"].
Proof.
  intros Hle. unfold categorizeLeadTime; cbv zeta.
  split; [|split].
  - by_band hours1;
      (destruct (Qle_bool (hours2 / 24) 1) eqn:F1;
       [| destruct (Qle_bool (hours2 / 24) 7) eqn:F7;
          [| destruct (Qle_bool (hours2 / 24) 30) eqn:F30] ]);
      rewrite ?days_le_iff, ?days_gt_iff in *;
      cbn; try lia; exfalso; lra.
  - intros Heq.
    by_band hours1;
      (destruct (Qle_bool (hours2 / 24) 1) eqn:F1;
       [| destruct (Qle_bool (hours2 / 24) 7) eqn:F7;
          [| destruct (Qle_bool (hours2 / 24) 30) eqn:F30] ]);
      rewrite ?days_le_iff, ?days_gt_iff in *;
      try reflexivity; exfalso; lra.
  - by_band hours1; simpl; tauto.
Qed.

Lemma categorizeLeadTime_monotone_witness :
  (category_rank (Category.category (categorizeLeadTime (-16)))
   <= category_rank (Category.category (categorizeLeadTime 500)))%nat.
Proof.
  apply (categorizeLeadTime_monotone (-16) 500). discriminate.
Defined.



(** Without a stored metric of the repository that the date test of the
    query selects, and so for a repository without any stored metric,
    [generateInsights] returns the object without a category: the no-data
    message and the two fixed bootstrapping recommendations. *)
Theorem generateInsights_no_data
    (db : Store) (repositoryId : string) (now : Timestamp) (days : Z) :
  repositoryId <> ""%string ->
  ~ HasSelectedMetric db repositoryId now days ->
  generateInsights db repositoryId now days
  = NoData "No lead time data available"
           ["Set up deployment tracking"%string;
            "Ensure PRs are properly linked to deployments"%string].
Proof. apply generateInsights_nothing_selected. Qed.

Lemma generateInsights_no_data_witness :
  generateInsights db_three_repos "gh-acme-c" (h 200) 7
  = NoData "No lead time data available"
           ["Set up deployment tracking"%string;
            "Ensure PRs are properly linked to deployments"%string].
Proof.
  apply generateInsights_no_data; [discriminate|].
  intros (m & Hin & Hrid & Hwin). simpl in Hin.
  repeat (destruct Hin as [<-|Hin]; [try discriminate Hrid|]);
    [vm_compute in Hwin; discriminate Hwin | destruct Hin].
Defined.

(** * Repository identifiers and the repositories table *)

Lemma split_hyphen_free (s : string) :
  hyphen_free s = true -> RepoId.split s = [s].
Proof.
  induction s as [|c s IH]; simpl; [reflexivity|].
  destruct (Ascii.eqb c "-"); simpl; [discriminate|].
  intros H. now rewrite IH.
Qed.

Lemma split_first_piece (a b : string) :
  hyphen_free a = true ->
  RepoId.split (a ++ String "-" b) = a :: RepoId.split b.
Proof.
  induction a as [|c a IH]; simpl; [reflexivity|].
  destruct (Ascii.eqb c "-"); simpl; [discriminate|].
  intros H. now rewrite IH.
Qed.

Lemma span_first_piece (a b : string) :
  hyphen_free a = true ->
  RepoId.span_piece (a ++ String "-" b) = (a, String "-" b).
Proof.
  induction a as [|c a IH]; simpl; [reflexivity|].
  destruct (Ascii.eqb c "-"); simpl; [discriminate|].
  intros H. now rewrite IH.
Qed.

Lemma span_hyphen_free (s : string) :
  hyphen_free s = true -> RepoId.span_piece s = (s, ""%string).
Proof.
  induction s as [|c s IH]; simpl; [reflexivity|].
  destruct (Ascii.eqb c "-"); simpl; [discriminate|].
  intros H. now rewrite IH.
Qed.

(** Stripping the prefix undoes the construction of the id: for a
    non-empty hyphen-free platform and owner, the expression used by the
    tables returns the repository name, hyphens included.  A text without
    hyphen is returned as it is. *)
Theorem strip_platform_owner_make (platform owner name : string) :
  hyphen_free platform = true -> platform <> ""%string ->
  hyphen_free owner = true -> owner <> ""%string ->
  RepoId.strip_platform_owner (RepoId.make platform owner name) = name
  /\ forall s, hyphen_free s = true -> RepoId.strip_platform_owner s = s.
Proof.
  intros Hp Hpne Ho Hone. split.
  - unfold RepoId.strip_platform_owner, RepoId.make.
    change ("-" ++ owner ++ "-" ++ name)%string
      with (String "-" (owner ++ String "-" name)).
    rewrite (span_first_piece platform _ Hp).
    destruct platform as [|c p]; [contradiction|].
    rewrite (span_first_piece owner _ Ho).
    destruct owner as [|c' o]; [contradiction|]. reflexivity.
  - intros s Hs. unfold RepoId.strip_platform_owner.
    rewrite (span_hyphen_free s Hs). now destruct s.
Qed.

Lemma strip_platform_owner_make_witness :
  RepoId.strip_platform_owner (RepoId.make "github" "acme" "repo-stats")
  = "repo-stats"%string.
Proof.
  apply (strip_platform_owner_make "github" "acme" "repo-stats");
    (reflexivity || discriminate).
Defined.

Lemma stored_repository_new repositories now repositoryId total :
  stored_repository
    (updateRepositoryStats repositories now repositoryId total) repositoryId
  = Some {| Repo.id := repositoryId;
            Repo.name :=
              RepoId.or_unknown (nth_error (RepoId.split repositoryId) 2);
            Repo.owner :=
              RepoId.or_unknown (nth_error (RepoId.split repositoryId) 1);
            Repo.platform :=
              RepoId.or_unknown (nth_error (RepoId.split repositoryId) 0);
            Repo.url := "";
            Repo.last_checked := Some now;
            Repo.total_deployments := total;
            Repo.created_at := now;
            Repo.updated_at := now |}.
Proof.
  unfold stored_repository, updateRepositoryStats. cbv zeta.
  induction repositories as [|r l IH]; simpl.
  - now rewrite String.eqb_refl.
  - destruct (String.eqb (Repo.id r) repositoryId) eqn:E; simpl; [exact IH|].
    now rewrite E.
Qed.

Lemma or_unknown_piece (s : string) :
  s <> ""%string -> RepoId.or_unknown (Some s) = s.
Proof. intros H. destruct s; [contradiction|reflexivity]. Qed.

(** What [updateRepositoryStats] stores for an id built from a non-empty
    hyphen-free platform and owner: the platform and the owner are
    recovered; the name is recovered when it is non-empty and hyphen-free,
    and cut at its first hyphen otherwise. *)
Theorem updateRepositoryStats_decodes_id
    (repositories : list Repo.t) (now : Timestamp) (total : Z)
    (platform owner name : string) :
  hyphen_free platform = true -> platform <> ""%string ->
  hyphen_free owner = true -> owner <> ""%string ->
  exists row,
    stored_repository
      (updateRepositoryStats repositories now
         (RepoId.make platform owner name) total)
      (RepoId.make platform owner name) = Some row
    /\ Repo.platform row = platform
    /\ Repo.owner row = owner
    /\ (hyphen_free name = true -> name <> ""%string -> Repo.name row = name)
    /\ (forall piece rest, name = (piece ++ "-" ++ rest)%string ->
          hyphen_free piece = true -> piece <> ""%string ->
          Repo.name row = piece).
Proof.
  intros Hp Hpne Ho Hone. eexists. split; [apply stored_repository_new|].
  cbn [Repo.platform Repo.owner Repo.name].
  unfold RepoId.make.
  change ("-" ++ owner ++ "-" ++ name)%string
    with (String "-" (owner ++ String "-" name)).
  rewrite (split_first_piece platform _ Hp), (split_first_piece owner _ Ho).
  cbn [nth_error]. rewrite !or_unknown_piece by assumption.
  split; [reflexivity|]. split; [reflexivity|]. split.
  - intros Hn Hne. rewrite (split_hyphen_free name Hn). cbn [nth_error].
    now apply or_unknown_piece.
  - intros piece rest -> Hpiece Hne.
    change ("-" ++ rest)%string with (String "-" rest).
    rewrite (split_first_piece piece _ Hpiece).
    cbn [nth_error]. now apply or_unknown_piece.
Qed.

Lemma updateRepositoryStats_decodes_id_witness :
  exists row,
    stored_repository
      (updateRepositoryStats [] (h 60) (RepoId.make "github" "acme" "repo-stats") 5)
      (RepoId.make "github" "acme" "repo-stats") = Some row
    /\ Repo.platform row = "github"%string
    /\ Repo.owner row = "acme"%string
    /\ Repo.name row = "repo"%string.
Proof.
  destruct (updateRepositoryStats_decodes_id [] (h 60) 5 "github" "acme" "repo-stats")
    as (row & Hrow & Hp & Ho & _ & Hcut); try reflexivity; try discriminate.
  exists row. repeat split; try assumption.
  apply (Hcut "repo" "stats")%string; (reflexivity || discriminate).
Defined.

(** [updateRepositoryStats] is an upsert on the id: afterwards exactly one
    row carries the id, with the new deployment total and check time, and
    with its creation time reset to the time of the call; the rows of other
    repositories are kept, in order; ids that were unique stay unique. *)
Theorem updateRepositoryStats_upsert
    (repositories : list Repo.t) (now : Timestamp)
    (repositoryId : string) (total : Z) :
  let updated := updateRepositoryStats repositories now repositoryId total in
  (exists row,
     filter (fun r => String.eqb (Repo.id r) repositoryId) updated = [row]
     /\ Repo.total_deployments row = total
     /\ Repo.last_checked row = Some now
     /\ Repo.created_at row = now)
  /\ filter (fun r => negb (String.eqb (Repo.id r) repositoryId)) updated
     = filter (fun r => negb (String.eqb (Repo.id r) repositoryId)) repositories
  /\ (NoDup (map Repo.id repositories) -> NoDup (map Repo.id updated)).
Proof.
  cbv zeta. unfold updateRepositoryStats. cbv zeta.
  set (new := {| Repo.id := repositoryId |}).
  set (others := filter (fun r => negb (String.eqb (Repo.id r) repositoryId))
                        repositories).
  assert (Hothers : forall r, In r others -> Repo.id r <> repositoryId).
  { intros r Hr. apply filter_In in Hr as [_ Hr].
    apply negb_true_iff, String.eqb_neq in Hr. exact Hr. }
  assert (Hnone : filter (fun r => String.eqb (Repo.id r) repositoryId) others = []).
  { clear -Hothers. induction others as [|r l IH]; simpl; [reflexivity|].
    destruct (String.eqb (Repo.id r) repositoryId) eqn:E.
    - apply String.eqb_eq in E. exfalso. apply (Hothers r); [now left|exact E].
    - apply IH. intros r' Hr'. apply Hothers. now right. }
  assert (Hall : filter (fun r => negb (String.eqb (Repo.id r) repositoryId)) others
                 = others).
  { clear -Hothers. induction others as [|r l IH]; simpl; [reflexivity|].
    destruct (String.eqb (Repo.id r) repositoryId) eqn:E; simpl.
    - apply String.eqb_eq in E. exfalso. apply (Hothers r); [now left|exact E].
    - f_equal. apply IH. intros r' Hr'. apply Hothers. now right. }
  split; [|split].
  - exists new. rewrite filter_app, Hnone. simpl.
    rewrite String.eqb_refl. repeat split; reflexivity.
  - rewrite filter_app, Hall. simpl. rewrite String.eqb_refl. simpl.
    now rewrite app_nil_r.
  - intros Hnd. rewrite map_app. simpl.
    apply NoDup_app; [ | repeat constructor; intros [] | ].
    + subst others. clear -Hnd.
      induction repositories as [|r l IH]; simpl; [constructor|].
      inversion Hnd as [|? ? Hnotin Hnd']; subst.
      destruct (String.eqb (Repo.id r) repositoryId); simpl; [now apply IH|].
      constructor; [|now apply IH].
      intros Hin. apply Hnotin. apply in_map_iff in Hin as (x & Hx & Hin).
      apply filter_In in Hin as [Hin _]. apply in_map_iff. now exists x.
    + intros x Hx [<-|[]]. apply in_map_iff in Hx as (r & Hr & Hin).
      now apply (Hothers r).
Qed.

(** * The deployments table *)

Lemma fold_max_ge (ids : list Z) : forall a,
  (a <= fold_left Z.max ids a)%Z
  /\ forall x, In x ids -> (x <= fold_left Z.max ids a)%Z.
Proof.
  induction ids as [|y ids IH]; intros a; simpl.
  - split; [lia|intros x []].
  - destruct (IH (Z.max a y)) as [H1 H2]. split; [lia|].
    intros x [<-|Hx]; [lia|now apply H2].
Qed.

Lemma insertDeployment_fresh_id table deployment row :
  In row (rows table) ->
  (Dep.id row < snd (insertDeployment table deployment))%Z.
Proof.
  intros Hin. simpl.
  destruct (fold_max_ge (map Dep.id (rows table)) (seq table)) as [_ H].
  specialize (H (Dep.id row) (in_map Dep.id _ _ Hin)). lia.
Qed.

Lemma insertDeployment_rows table deployment row :
  In row (rows (fst (insertDeployment table deployment)))
  <-> (In row (rows table) /\ same_deployment deployment row = false)
      \/ (Dep.id row = snd (insertDeployment table deployment)
          /\ deployment_data row = deployment).
Proof.
  cbn [insertDeployment fst snd rows]. rewrite in_app_iff, filter_In. split.
  - intros [[Hin Hc]|[<-|[]]].
    + left. split; [exact Hin|]. now apply negb_true_iff.
    + right. split; [reflexivity|]. now destruct deployment.
  - intros [[Hin Hc]|[Hid Hd]].
    + left. split; [exact Hin|]. now apply negb_true_iff.
    + right. left. destruct row, deployment. simpl in *.
      injection Hd as -> -> -> -> ->. now rewrite Hid.
Qed.

Lemma deployment_keys_In (l : list Dep.t) (k : string * string) :
  In k (deployment_keys l)
  <-> exists row, In row l /\ Dep.repository_id row = fst k
                  /\ Dep.deployment_id row = Some (snd k).
Proof.
  unfold deployment_keys. rewrite in_flat_map. split.
  - intros (row & Hin & Hk). exists row. split; [exact Hin|].
    destruct (Dep.deployment_id row); [|destruct Hk].
    destruct Hk as [<-|[]]. now split.
  - intros (row & Hin & Hr & Hd). exists row. split; [exact Hin|].
    rewrite Hd. left. destruct k. simpl in *. now subst.
Qed.

Lemma insertDeployment_keeps_keys_unique table deployment :
  NoDup (deployment_keys (rows table)) ->
  NoDup (deployment_keys (rows (fst (insertDeployment table deployment)))).
Proof.
  intros Hnd. cbn [insertDeployment fst rows].
  unfold deployment_keys. rewrite flat_map_app. fold (deployment_keys (rows table)).
  apply NoDup_app.
  - unfold deployment_keys in Hnd.
    induction (rows table) as [|r l IH]; simpl; [constructor|].
    simpl in Hnd. apply NoDup_app_remove_l in Hnd as Hnd'.
    destruct (negb (same_deployment deployment r)); simpl; [|now apply IH].
    apply NoDup_app; [ | now apply IH | ].
    + destruct (Dep.deployment_id r); repeat constructor. intros [].
    + intros k Hk Hin.
      assert (Hin' : In k (flat_map (fun row => match Dep.deployment_id row with
                                                | Some d => [(Dep.repository_id row, d)]
                                                | None => []
                                                end) l)).
      { apply in_flat_map in Hin as (x & Hx & Hkx). apply in_flat_map.
        exists x. split; [|exact Hkx]. now apply filter_In in Hx as [Hx _]. }
      clear -Hnd Hk Hin'.
      induction (match Dep.deployment_id r with
                 | Some d => [(Dep.repository_id r, d)]
                 | None => []
                 end) as [|a ks IHk]; [destruct Hk|].
      simpl in Hnd. inversion Hnd as [|? ? Hnotin Hnd0]; subst.
      destruct Hk as [<-|Hk]; [|now apply IHk].
      apply Hnotin. apply in_or_app. now right.
  - cbn. destruct (NewDep.deployment_id deployment); cbn; repeat constructor.
    intros [].
  - intros k Hk Hnew. cbn in Hnew.
    destruct (NewDep.deployment_id deployment) as [d|] eqn:Ed; cbn in Hnew;
      [|destruct Hnew].
    destruct Hnew as [<-|[]].
    apply in_flat_map in Hk as (row & Hrow & Hk).
    apply filter_In in Hrow as [_ Hc].
    apply negb_true_iff in Hc. unfold same_deployment in Hc. rewrite Ed in Hc.
    destruct (Dep.deployment_id row) as [d'|]; [|destruct Hk].
    destruct Hk as [[= Hr Hd]|[]]. subst d'. rewrite Hr in Hc. simpl in Hc.
    now rewrite !String.eqb_refl in Hc.
Qed.

(** [insertDeployment] is an upsert on (repository, deployment id).  The
    new row gets an id above the sequence and above every stored id, which
    becomes the sequence; a stored row is kept exactly when it is not the
    same deployment; row ids that were distinct stay distinct, and so do
    the (repository, deployment id) pairs. *)
Theorem insertDeployment_upsert
    (table : DeploymentsTable) (deployment : NewDep.t) :
  NoDup (map Dep.id (rows table)) ->
  let '(table', lastID) := insertDeployment table deployment in
  (seq table < lastID)%Z
  /\ seq table' = lastID
  /\ (forall row, In row (rows table) -> (Dep.id row < lastID)%Z)
  /\ (forall row, In row (rows table') <->
        (In row (rows table) /\ same_deployment deployment row = false)
        \/ (Dep.id row = lastID /\ deployment_data row = deployment))
  /\ NoDup (map Dep.id (rows table'))
  /\ (NoDup (deployment_keys (rows table)) ->
      NoDup (deployment_keys (rows table'))).
Proof.
  intros Hnd.
  destruct (insertDeployment table deployment) as [table' lastID] eqn:E.
  assert (E1 : table' = fst (insertDeployment table deployment)) by now rewrite E.
  assert (E2 : lastID = snd (insertDeployment table deployment)) by now rewrite E.
  split; [|split; [|split; [|split; [|split]]]];
    [ | | | | | rewrite E1; apply insertDeployment_keeps_keys_unique ].
  - rewrite E2. simpl.
    destruct (fold_max_ge (map Dep.id (rows table)) (seq table)) as [H _]. lia.
  - rewrite E1, E2. reflexivity.
  - intros row Hin. rewrite E2. now apply insertDeployment_fresh_id.
  - intros row. rewrite E1, E2. apply insertDeployment_rows.
  - rewrite E1. cbn [insertDeployment fst rows]. rewrite map_app.
    apply NoDup_app.
    + clear -Hnd. induction (rows table) as [|r l IH]; simpl; [constructor|].
      inversion Hnd as [|? ? Hnotin Hnd']; subst.
      destruct (negb (same_deployment deployment r)); simpl; [|now apply IH].
      constructor; [|now apply IH].
      intros Hin. apply Hnotin. apply in_map_iff in Hin as (x & Hx & Hin).
      apply filter_In in Hin as [Hin _]. apply in_map_iff. now exists x.
    + repeat constructor. intros [].
    + intros x Hx [<-|[]]. apply in_map_iff in Hx as (r & Hr & Hin).
      apply filter_In in Hin as [Hin _].
      pose proof (insertDeployment_fresh_id table deployment r Hin) as Hlt.
      simpl in Hlt, Hr. lia.
Qed.

Lemma insertDeployment_upsert_witness :
  let '(table', lastID) := insertDeployment table_two_tags (tagged "tag-v2" 41 "m2") in
  lastID = 3%Z
  /\ map Dep.id (rows table') = [1%Z; 3%Z]
  /\ NoDup (map Dep.id (rows table')).
Proof.
  pose proof (insertDeployment_upsert table_two_tags (tagged "tag-v2" 41 "m2")) as H.
  destruct (insertDeployment table_two_tags (tagged "tag-v2" 41 "m2"))
    as [table' lastID] eqn:E.
  injection E as <- <-.
  split; [reflexivity|]. split; [reflexivity|].
  apply H. repeat constructor; simpl; intuition discriminate.
Defined.

(** Storing again a deployment that is already stored moves it to a new row
    id: no row carries the old id afterwards, so a [deployment_id] recorded
    in a metric before the deployment was fetched again refers to no row. *)
Theorem insertDeployment_replaces_row_id
    (table : DeploymentsTable) (deployment : NewDep.t) (old : Dep.t) :
  NoDup (map Dep.id (rows table)) ->
  In old (rows table) ->
  same_deployment deployment old = true ->
  forall row, In row (rows (fst (insertDeployment table deployment))) ->
              Dep.id row <> Dep.id old.
Proof.
  intros Hnd Hold Hsame row Hrow.
  apply insertDeployment_rows in Hrow as [[Hin Hc]|[Hid _]].
  - intros Heq.
    assert (row = old); [|congruence].
    clear -Hnd Hin Hold Heq. induction (rows table) as [|r l IH]; [destruct Hin|].
    simpl in Hnd. inversion Hnd as [|? ? Hnotin Hnd']; subst.
    destruct Hin as [<-|Hin], Hold as [<-|Hold]; auto.
    + exfalso. apply Hnotin. rewrite Heq. now apply in_map.
    + exfalso. apply Hnotin. rewrite <- Heq. now apply in_map.
  - pose proof (insertDeployment_fresh_id table deployment old Hold). lia.
Qed.

Lemma insertDeployment_replaces_row_id_witness :
  Forall (fun row => Dep.id row <> 2%Z)
         (rows (fst (insertDeployment table_two_tags (tagged "tag-v2" 40 "m1")))).
Proof.
  apply Forall_forall.
  apply (insertDeployment_replaces_row_id table_two_tags (tagged "tag-v2" 40 "m1")
           {| Dep.id := 2; Dep.repository_id := acme;
              Dep.deployment_id := Some "tag-v2"%string;
              Dep.deployment_date := h 40;
              Dep.deployment_date_text := utc_text (h 40);
              Dep.commit_sha := Some "m1"%string |}).
  - repeat constructor; simpl; intuition discriminate.
  - simpl. tauto.
  - reflexivity.
Defined.

Lemma filter_not_same_twice deployment (l : list Dep.t) :
  filter (fun row => negb (same_deployment deployment row))
         (filter (fun row => negb (same_deployment deployment row)) l)
  = filter (fun row => negb (same_deployment deployment row)) l.
Proof.
  induction l as [|r l IH]; simpl; [reflexivity|].
  destruct (negb (same_deployment deployment r)) eqn:E; simpl; [|exact IH].
  now rewrite E, IH.
Qed.

(** Storing the same deployment twice in a row leaves the same stored data
    as storing it once when it has a deployment id; without a deployment id
    nothing conflicts and the second call adds a second row. *)
Theorem insertDeployment_twice
    (table : DeploymentsTable) (deployment : NewDep.t) :
  let once := fst (insertDeployment table deployment) in
  let twice := fst (insertDeployment once deployment) in
  (NewDep.deployment_id deployment <> None ->
   map deployment_data (rows twice) = map deployment_data (rows once))
  /\ (NewDep.deployment_id deployment = None ->
      map deployment_data (rows twice)
      = map deployment_data (rows table) ++ [deployment; deployment]).
Proof.
  cbv zeta. cbn [insertDeployment fst rows seq]. split.
  - intros Hid. rewrite filter_app, filter_not_same_twice.
    cbn [filter]. unfold same_deployment at 2. cbn.
    rewrite String.eqb_refl.
    destruct (NewDep.deployment_id deployment) as [d|]; [|contradiction].
    cbn. rewrite String.eqb_refl. cbn.
    rewrite app_nil_r, !map_app. reflexivity.
  - intros Hid.
    assert (Hfilter : forall l, filter (fun row => negb (same_deployment deployment row)) l = l).
    { intros l. induction l as [|r l IH]; simpl; [reflexivity|].
      unfold same_deployment at 1. rewrite Hid.
      destruct (Dep.deployment_id r); simpl; rewrite andb_false_r; simpl;
        now rewrite IH. }
    rewrite !Hfilter, !map_app, <- app_assoc. cbn.
    destruct deployment; reflexivity.
Qed.

(** * Deployment statistics *)

Lemma deployments_in_window_In db repositoryId now days d :
  In d (deployments_in_window db repositoryId now days)
  <-> SelectedDeployment db (Dep.repository_id d) now days d
      /\ repo_filter repositoryId (Dep.repository_id d) = true.
Proof.
  unfold deployments_in_window, SelectedDeployment.
  rewrite filter_In, andb_true_iff. tauto.
Qed.

Lemma text_min_spec (a b : string) :
  String.leb (text_min a b) a = true
  /\ String.leb (text_min a b) b = true
  /\ (text_min a b = a \/ text_min a b = b).
Proof.
  unfold text_min. destruct (String.leb a b) eqn:E.
  - split; [apply leb_refl|]. split; [exact E|now left].
  - split; [|split; [apply leb_refl|now right]].
    destruct (String.leb_total a b); congruence.
Qed.

Lemma text_max_spec (a b : string) :
  String.leb a (text_max a b) = true
  /\ String.leb b (text_max a b) = true
  /\ (text_max a b = a \/ text_max a b = b).
Proof.
  unfold text_max. destruct (String.leb a b) eqn:E.
  - split; [exact E|]. split; [apply leb_refl|now right].
  - split; [apply leb_refl|]. split; [|now left].
    destruct (String.leb_total a b); congruence.
Qed.

Lemma fold_text_min_spec (r : list string) : forall a,
  String.leb (fold_left text_min r a) a = true
  /\ (forall x, In x r -> String.leb (fold_left text_min r a) x = true)
  /\ In (fold_left text_min r a) (a :: r).
Proof.
  induction r as [|y r IH]; intros a; simpl.
  - split; [apply leb_refl|]. split; [intros x []|now left].
  - destruct (IH (text_min a y)) as (H1 & H2 & H3).
    destruct (text_min_spec a y) as (Ma & My & Mc).
    split; [eapply leb_trans; eassumption|]. split.
    + intros x [<-|Hx]; [eapply leb_trans; eassumption|now apply H2].
    + destruct H3 as [H3|H3]; [|now right; right].
      rewrite <- H3. destruct Mc as [->| ->]; auto.
Qed.

Lemma fold_text_max_spec (r : list string) : forall a,
  String.leb a (fold_left text_max r a) = true
  /\ (forall x, In x r -> String.leb x (fold_left text_max r a) = true)
  /\ In (fold_left text_max r a) (a :: r).
Proof.
  induction r as [|y r IH]; intros a; simpl.
  - split; [apply leb_refl|]. split; [intros x []|now left].
  - destruct (IH (text_max a y)) as (H1 & H2 & H3).
    destruct (text_max_spec a y) as (Ma & My & Mc).
    split; [eapply leb_trans; eassumption|]. split.
    + intros x [<-|Hx]; [eapply leb_trans; eassumption|now apply H2].
    + destruct H3 as [H3|H3]; [|now right; right].
      rewrite <- H3. destruct Mc as [->| ->]; auto.
Qed.

Lemma nodup_length_le {A} (dec : forall x y : A, {x = y} + {x <> y}) (l : list A) :
  (List.length (nodup dec l) <= List.length l)%nat
  /\ (l <> [] -> nodup dec l <> []).
Proof.
  split.
  - induction l as [|x l IH]; simpl; [lia|].
    destruct (in_dec dec x l); simpl; lia.
  - intros Hne E. destruct l as [|x l]; [contradiction|].
    assert (Hin : In x (nodup dec (x :: l))) by (apply nodup_In; now left).
    rewrite E in Hin. exact Hin.
Qed.

Lemma getDeploymentStats_In db repositoryId now days s :
  In s (getDeploymentStats db repositoryId now days) ->
  let selected :=
    deployments_of (DepStats.repository_id s)
                   (deployments_in_window db repositoryId now days) in
  selected <> []
  /\ DepStats.deployment_count s = COUNT (map Dep.deployment_date selected)
  /\ DepStats.first_deployment s
     = match map Dep.deployment_date_text selected with
       | [] => EmptyString
       | t :: r => fold_left text_min r t
       end
  /\ DepStats.last_deployment s
     = match map Dep.deployment_date_text selected with
       | [] => EmptyString
       | t :: r => fold_left text_max r t
       end
  /\ DepStats.active_days s
     = COUNT (nodup Z.eq_dec (map DATE (map Dep.deployment_date selected))).
Proof.
  unfold getDeploymentStats. cbv zeta. rewrite order_by_In, in_map_iff.
  intros (rid & <- & Hkey). cbn [DepStats.repository_id
    DepStats.deployment_count DepStats.first_deployment
    DepStats.last_deployment DepStats.active_days].
  split; [|repeat split; reflexivity].
  apply order_by_In, nodup_In, in_map_iff in Hkey as (d & Hrid & Hd).
  intros E.
  assert (Hin : In d (deployments_of rid (deployments_in_window db repositoryId now days))).
  { unfold deployments_of. apply filter_In. split; [exact Hd|].
    now apply String.eqb_eq. }
  rewrite E in Hin. exact Hin.
Qed.

(** In every row of [getDeploymentStats]: the count is at least 1; the
    number of active days is between 1 and the count; the first and the
    last deployment are date texts of deployments of that repository which
    the date test selects, and the date text of every such deployment lies
    between them in the order of the texts. *)
Theorem deployment_stats_row
    (db : Store) (repositoryId : option string) (now : Timestamp) (days : Z)
    (s : DepStats.t) :
  In s (getDeploymentStats db repositoryId now days) ->
  (1 <= DepStats.active_days s <= DepStats.deployment_count s)%Z
  /\ (exists d, SelectedDeployment db (DepStats.repository_id s) now days d
                /\ DepStats.first_deployment s = Dep.deployment_date_text d)
  /\ (exists d, SelectedDeployment db (DepStats.repository_id s) now days d
                /\ DepStats.last_deployment s = Dep.deployment_date_text d)
  /\ forall d, SelectedDeployment db (DepStats.repository_id s) now days d ->
       repo_filter repositoryId (DepStats.repository_id s) = true ->
       String.leb (DepStats.first_deployment s) (Dep.deployment_date_text d) = true
       /\ String.leb (Dep.deployment_date_text d) (DepStats.last_deployment s)
          = true.
Proof.
  intros Hs.
  destruct (getDeploymentStats_In _ _ _ _ _ Hs) as (Hne & -> & -> & -> & ->).
  set (rid := DepStats.repository_id s).
  set (g := deployments_of rid (deployments_in_window db repositoryId now days)) in *.
  assert (Hg : forall d, In d g ->
                 SelectedDeployment db rid now days d).
  { intros d Hd. unfold g, deployments_of in Hd.
    apply filter_In in Hd as [Hd Hr]. apply String.eqb_eq in Hr.
    apply deployments_in_window_In in Hd as [Hd _]. now rewrite Hr in Hd. }
  assert (Hg' : forall d, SelectedDeployment db rid now days d ->
                  repo_filter repositoryId rid = true -> In d g).
  { intros d Hd Hf. unfold g, deployments_of. apply filter_In.
    destruct Hd as (Hin & Hr & Hw). split; [|now apply String.eqb_eq].
    apply deployments_in_window_In. rewrite Hr. split; [|exact Hf].
    repeat split; assumption. }
  assert (Hgne : g <> []) by exact Hne.
  clearbody g.
  split.
  { unfold COUNT.
    destruct (nodup_length_le Z.eq_dec (map DATE (map Dep.deployment_date g)))
      as [Hle Hnn].
    rewrite !length_map in Hle. rewrite length_map.
    assert (Hnz : map DATE (map Dep.deployment_date g) <> [])
      by (destruct g; [congruence|discriminate]).
    specialize (Hnn Hnz).
    destruct (nodup Z.eq_dec (map DATE (map Dep.deployment_date g)));
      [contradiction|].
    simpl List.length in *. lia. }
  destruct (map Dep.deployment_date_text g) as [|t r] eqn:E.
  { destruct g; [congruence|discriminate]. }
  destruct (fold_text_min_spec r t) as (L1 & L2 & L3).
  destruct (fold_text_max_spec r t) as (U1 & U2 & U3).
  assert (L3' : In (fold_left text_min r t) (map Dep.deployment_date_text g))
    by (rewrite E; exact L3).
  assert (U3' : In (fold_left text_max r t) (map Dep.deployment_date_text g))
    by (rewrite E; exact U3).
  clear L3 U3.
  split; [|split].
  - apply in_map_iff in L3' as (d & Hd & Hin). exists d. split; [now apply Hg|].
    now symmetry.
  - apply in_map_iff in U3' as (d & Hd & Hin). exists d. split; [now apply Hg|].
    now symmetry.
  - intros d Hd Hf.
    assert (Hin : In (Dep.deployment_date_text d) (t :: r))
      by (rewrite <- E; apply in_map; now apply Hg').
    destruct Hin as [<-|Hin]; [now split|].
    split; [now apply L2|now apply U2].
Qed.

Lemma deployment_stats_row_witness :
  exists s, In s (getDeploymentStats db_releases None (h 60) 30)
            /\ DepStats.deployment_count s = 3%Z
            /\ DepStats.first_deployment s = "1970-01-01T20:00:00Z"%string
            /\ DepStats.last_deployment s = "1970-01-02T16:00:00Z"%string
            /\ (1 <= DepStats.active_days s <= DepStats.deployment_count s)%Z.
Proof.
  assert (E : exists s,
            In s (getDeploymentStats db_releases None (h 60) 30)
            /\ DepStats.deployment_count s = 3%Z
            /\ DepStats.first_deployment s = "1970-01-01T20:00:00Z"%string
            /\ DepStats.last_deployment s = "1970-01-02T16:00:00Z"%string)
    by (vm_compute; eexists; split; [left; reflexivity|repeat split]).
  destruct E as (s & Hin & Hcount & Hfirst & Hlast).
  exists s. split; [exact Hin|]. split; [exact Hcount|].
  split; [exact Hfirst|]. split; [exact Hlast|].
  exact (proj1 (deployment_stats_row db_releases None (h 60) 30 s Hin)).
Defined.

Lemma indicator_sum (k : string) (keys : list string) :
  NoDup keys -> In k keys ->
  Zsum (map (fun key => if String.eqb k key then 1%Z else 0%Z) keys) = 1%Z.
Proof.
  unfold Zsum. induction keys as [|key keys IH]; intros Hnd Hin; [destruct Hin|].
  inversion Hnd as [|? ? Hnotin Hnd']; subst. simpl.
  destruct (String.eqb k key) eqn:E.
  - apply String.eqb_eq in E. subst key.
    assert (Hz : fold_right Z.add 0%Z
                   (map (fun key => if String.eqb k key then 1%Z else 0%Z) keys) = 0%Z).
    { clear -Hnotin. induction keys as [|x keys IH]; simpl; [reflexivity|].
      destruct (String.eqb k x) eqn:E.
      - apply String.eqb_eq in E. subst x. exfalso. apply Hnotin. now left.
      - rewrite IH; [reflexivity|]. intros H. apply Hnotin. now right. }
    rewrite Hz. reflexivity.
  - destruct Hin as [->|Hin]; [now rewrite String.eqb_refl in E|].
    rewrite IH; auto.
Qed.

Lemma Zsum_pointwise {A} (f g : A -> Z) (l : list A) :
  Zsum (map (fun x => (f x + g x)%Z) l) = (Zsum (map f l) + Zsum (map g l))%Z.
Proof. unfold Zsum. induction l as [|x l IH]; simpl; [reflexivity|lia]. Qed.

Lemma group_sizes_sum (keys : list string) (l : list Dep.t) :
  NoDup keys ->
  (forall d, In d l -> In (Dep.repository_id d) keys) ->
  Zsum (map (fun rid => COUNT (deployments_of rid l)) keys) = COUNT l.
Proof.
  intros Hnd. induction l as [|d l IH]; intros Hcover.
  - unfold Zsum, COUNT. simpl. induction keys; simpl; [reflexivity|].
    inversion Hnd; subst. now rewrite IHkeys.
  - rewrite (map_ext _ (fun rid =>
               ((if String.eqb (Dep.repository_id d) rid then 1 else 0)
                + COUNT (deployments_of rid l))%Z)).
    + rewrite Zsum_pointwise, indicator_sum, IH.
      * unfold COUNT. simpl List.length. lia.
      * intros x Hx. apply Hcover. now right.
      * exact Hnd.
      * apply Hcover. now left.
    + intros rid. unfold deployments_of, COUNT. simpl.
      destruct (String.eqb (Dep.repository_id d) rid); simpl List.length; lia.
Qed.

Lemma Zsum_Permutation (l l' : list Z) : Permutation l l' -> Zsum l = Zsum l'.
Proof.
  unfold Zsum. induction 1; simpl; lia.
Qed.

Lemma totalDeployments_Zsum (stats : list DepStats.t) :
  totalDeployments stats = Zsum (map DepStats.deployment_count stats).
Proof.
  unfold totalDeployments, Zsum.
  assert (H : forall acc,
            fold_left (fun sum stat => (sum + DepStats.deployment_count stat)%Z) stats acc
            = (acc + fold_right Z.add 0 (map DepStats.deployment_count stats))%Z).
  { induction stats as [|s l IH]; intros acc; simpl; [lia|]. rewrite IH. lia. }
  now rewrite H.
Qed.

(** [getDeploymentStats] returns one row per repository that has a
    deployment in the window, most deployments first, and the total printed
    under the table is the number of deployments in the window. *)
Theorem getDeploymentStats_counts_every_deployment
    (db : Store) (repositoryId : option string) (now : Timestamp) (days : Z) :
  let stats := getDeploymentStats db repositoryId now days in
  NoDup (map DepStats.repository_id stats)
  /\ StronglySorted
       (fun a b => (DepStats.deployment_count b <= DepStats.deployment_count a)%Z)
       stats
  /\ totalDeployments stats
     = COUNT (deployments_in_window db repositoryId now days).
Proof.
  cbv zeta. unfold getDeploymentStats. cbv zeta.
  set (selected := deployments_in_window db repositoryId now days).
  set (keys := order_by String.leb
                 (nodup string_dec (map Dep.repository_id selected))).
  assert (Hkeys : NoDup keys).
  { apply (Permutation_NoDup (Permutation_sym (order_by_perm _ _))).
    apply NoDup_nodup. }
  match goal with
  | |- context [order_by ?le (map ?f keys)] =>
      set (by_count := le); set (row := f)
  end.
  assert (Hperm : Permutation (order_by by_count (map row keys)) (map row keys))
    by apply order_by_perm.
  split; [|split].
  - apply (Permutation_NoDup
             (Permutation_sym (Permutation_map DepStats.repository_id Hperm))).
    rewrite map_map. subst row. cbn [DepStats.repository_id].
    now rewrite map_id.
  - apply Sorted_StronglySorted; [intros a b c; lia|].
    eapply (Sorted_on (fun _ => True)); [ | apply Forall_forall; auto | ].
    + intros a b _ _ H. apply Z.leb_le. exact H.
    + apply order_by_sorted. intros a b. subst by_count. cbv beta.
      rewrite !Z.leb_le. lia.
  - rewrite totalDeployments_Zsum.
    rewrite (Zsum_Permutation _ _ (Permutation_map DepStats.deployment_count Hperm)).
    rewrite map_map. subst row. cbn [DepStats.deployment_count].
    rewrite (map_ext _ (fun rid => COUNT (deployments_of rid selected))).
    + apply group_sizes_sum; [exact Hkeys|].
      intros d Hd. apply order_by_In, nodup_In. now apply in_map.
    + intros rid. unfold COUNT. now rewrite length_map.
Qed.
